(** * Change attribution and self-healing resolution: a shallow embedding

    The development follows the JavaScript sources

    - [test-scripts/change-analyzer.js]      (class [ChangeAnalyzer]),
    - [test-scripts/self-healing-framework.js]
        (classes [SelfHealingTest], [ChangeAwareTestGenerator],
         [SelfHealingAPI]),
    - [test-scripts/api-tester.js]           (class [APITester]).

    Conventions of the embedding.

    - A JavaScript string is a [string]: a sequence of code units, each
      below U+0100 (the characters of Latin-1; a string with a code unit
      from U+0100 on is outside the model).  On these the operations the
      code applies ([split], [startsWith], [endsWith], [includes],
      [toLowerCase], [trim], the regular expressions) are modelled code
      unit by code unit.
    - A line number is a [Z].  The code holds them in IEEE doubles; the
      model is exact below 2^53.
    - An object used as a dictionary is a [gmap]; an array is a [list],
      [push] appends at the end.
    - External collaborators (the page, the HTTP transport, the clock)
      are explicit function arguments; an exception is a value of a sum
      type, the mutable ledger is passed in and returned. *)

From Stdlib Require Import ZArith Lia Bool List Ascii String.
From Stdlib Require Import DecimalString DecimalNat.
From stdpp Require Import base option list gmap strings.

Local Open Scope string_scope.
Local Open Scope list_scope.
Local Open Scope Z_scope.

(* ===================================================================== *)
(** * JavaScript string primitives                                        *)
(* ===================================================================== *)

Module JS.

(** [p] is an initial segment of [s]. *)
Fixpoint is_prefix (p s : string) : bool :=
  match p, s with
  | EmptyString, _ => true
  | String a p', String b s' => Ascii.eqb a b && is_prefix p' s'
  | String _ _, EmptyString => false
  end.

(** [s.startsWith(p)]. *)
Definition startsWith (s p : string) : bool := is_prefix p s.

(** [s.includes(needle)]: [needle] occurs at some position of [s]. *)
Fixpoint includes (s needle : string) : bool :=
  is_prefix needle s ||
  match s with
  | EmptyString => false
  | String _ s' => includes s' needle
  end.

(** The string read backwards; [endsWith] and the [$]-anchored regular
    expressions are phrased on it. *)
Fixpoint rev (s : string) : string :=
  match s with
  | EmptyString => EmptyString
  | String c s' => rev s' +:+ String c EmptyString
  end.

(** [s.endsWith(p)]. *)
Definition endsWith (s p : string) : bool := is_prefix (rev p) (rev s).

(** [s.split(sep)] for a one-character separator: never empty, the empty
    string splits into one empty piece. *)
Fixpoint split (sep : ascii) (s : string) : list string :=
  match s with
  | EmptyString => [EmptyString]
  | String c s' =>
      if Ascii.eqb c sep then EmptyString :: split sep s'
      else match split sep s' with
           | piece :: rest => String c piece :: rest
           | [] => [String c EmptyString]
           end
  end.

(** Whether a slash occurs in [s]. *)
Fixpoint has_slash (s : string) : bool :=
  match s with
  | EmptyString => false
  | String c s' => Ascii.eqb c "/"%char || has_slash s'
  end.

(** [arr.pop()] after a [split]: the last piece. *)
Definition pop (pieces : list string) : string := List.last pieces EmptyString.

Definition is_digit (c : ascii) : bool :=
  let n := nat_of_ascii c in (48 <=? n)%nat && (n <=? 57)%nat.

Definition is_upper (c : ascii) : bool :=
  let n := nat_of_ascii c in (65 <=? n)%nat && (n <=? 90)%nat.

Definition is_lower (c : ascii) : bool :=
  let n := nat_of_ascii c in (97 <=? n)%nat && (n <=? 122)%nat.

(** The class [\w]: letters, digits and the underscore. *)
Definition is_word (c : ascii) : bool :=
  is_digit c || is_upper c || is_lower c || Ascii.eqb c "_"%char.

(** The capital letters of Latin-1 beyond ASCII: U+00C0 to U+00DE
    without the multiplication sign U+00D7. *)
Definition is_upper_latin (c : ascii) : bool :=
  let n := nat_of_ascii c in
  (192 <=? n)%nat && (n <=? 222)%nat && negb (n =? 215)%nat.

(** The lower-case mapping of Unicode on the code units below U+0100: a
    capital letter moves up by 32; the micro sign, the sharp s and the y
    with diaeresis, whose capitals lie outside, stay. *)
Definition lower_char (c : ascii) : ascii :=
  if is_upper c || is_upper_latin c then ascii_of_nat (nat_of_ascii c + 32) else c.

(** [s.toLowerCase()]. *)
Fixpoint toLowerCase (s : string) : string :=
  match s with
  | EmptyString => EmptyString
  | String c s' => String (lower_char c) (toLowerCase s')
  end.

(** The longest run of decimal digits at the head of [s], and what
    follows it: the greedy [\d*]. *)
Fixpoint span_digits (s : string) : string * string :=
  match s with
  | String c s' =>
      if is_digit c then
        let '(ds, rest) := span_digits s' in (String c ds, rest)
      else (EmptyString, s)
  | EmptyString => (EmptyString, EmptyString)
  end.

(** [parseInt(ds)] for a string of decimal digits. *)
Definition parseInt (ds : string) : Z :=
  fold_left (fun acc c => 10 * acc + (Z.of_nat (nat_of_ascii c) - 48))
            (list_ascii_of_string ds) 0.

(** Drops [p] from the head of [s] when it is there. *)
Fixpoint strip_prefix (p s : string) : option string :=
  match p, s with
  | EmptyString, _ => Some s
  | String a p', String b s' =>
      if Ascii.eqb a b then strip_prefix p' s' else None
  | String _ _, EmptyString => None
  end.

(** Every character of [s] is in the class [p]. *)
Fixpoint all_chars (p : ascii -> bool) (s : string) : bool :=
  match s with
  | EmptyString => true
  | String c s' => p c && all_chars p s'
  end.

(** [s] does not begin with a digit. *)
Definition no_digit_ahead (s : string) : bool :=
  match s with
  | String c _ => negb (is_digit c)
  | EmptyString => true
  end.

(** The one-character string of a backslash. *)
Definition backslash : string := String "092"%char EmptyString.

(** [pieces.join(sep)]. *)
Fixpoint join (sep : string) (pieces : list string) : string :=
  match pieces with
  | [] => EmptyString
  | [piece] => piece
  | piece :: rest => piece +:+ sep +:+ join sep rest
  end.

(** The optional comma [,?], greedy. *)
Definition skip_comma (s : string) : string :=
  match s with
  | String c s' => if Ascii.eqb c ","%char then s' else s
  | EmptyString => s
  end.

End JS.

(* ===================================================================== *)
(** * change-analyzer.js                                                  *)
(* ===================================================================== *)

Module ChangeAnalyzer.

(** ** The hunk header pattern

    [/@@ -(\d+),?\d* \+(\d+),?\d* @@/].  Every quantified piece is a
    digit run or an optional comma followed by a character that is
    neither, so the backtracking matcher has one way to succeed from a
    given start position, the greedy one; [header_at] is this match
    anchored at the head of the string and returns the second group. *)
Definition header_at (s : string) : option string :=
  s1 ← JS.strip_prefix "@@ -" s;
  let '(g1, s2) := JS.span_digits s1 in
  if String.eqb g1 "" then None else
  let '(_, s3) := JS.span_digits (JS.skip_comma s2) in
  s4 ← JS.strip_prefix " +" s3;
  let '(g2, s5) := JS.span_digits s4 in
  if String.eqb g2 "" then None else
  let '(_, s6) := JS.span_digits (JS.skip_comma s5) in
  _ ← JS.strip_prefix " @@" s6;
  Some g2.

(** [line.match(...)]: the pattern is not anchored, the first start
    position that matches wins.  The result is [match[2]]. *)
Fixpoint header_match (line : string) : option string :=
  match header_at line with
  | Some g2 => Some g2
  | None =>
      match line with
      | EmptyString => None
      | String _ line' => header_match line'
      end
  end.

(** A hunk while the diff is scanned: [{ start, content, type: 'mixed' }]. *)
Record hunk := Hunk { start : Z; content : list string }.

(** A hunk as returned, after [h.end = h.start + h.content.length]. *)
Record hunk_out :=
  HunkOut { h_start : Z; h_content : list string; h_type : string; h_end : Z }.

Record lineChanges :=
  LineChanges { added : list Z; deleted : list Z; modified : list Z }.

(** The variables of the scanning loop.  [hunk] is [null] until the
    first header matches and afterwards aliases the hunk pushed last, so
    it is not kept apart: it is the last element of [hunks]. *)
Record scan := Scan {
  currentLine : Z;
  s_added : list Z;
  s_deleted : list Z;
  hunks : list hunk
}.

Definition scan0 : scan := Scan 0 [] [] [].

(** [if (hunk) hunk.content.push(line)]. *)
Fixpoint push_content (line : string) (hs : list hunk) : list hunk :=
  match hs with
  | [] => []
  | [h] => [Hunk (start h) (content h ++ [line])]
  | h :: hs' => h :: push_content line hs'
  end.

(** One iteration of [for (const line of diffLines)]. *)
Definition step (st : scan) (line : string) : scan :=
  if JS.startsWith line "@@" then
    match header_match line with
    | Some g2 =>
        let n := JS.parseInt g2 in
        Scan n (s_added st) (s_deleted st) (hunks st ++ [Hunk n []])
    | None => st
    end
  else if JS.startsWith line "+" && negb (JS.startsWith line "+++") then
    Scan (currentLine st + 1) (s_added st ++ [currentLine st]) (s_deleted st)
         (push_content line (hunks st))
  else if JS.startsWith line "-" && negb (JS.startsWith line "---") then
    Scan (currentLine st) (s_added st) (s_deleted st ++ [currentLine st])
         (push_content line (hunks st))
  else if negb (JS.startsWith line JS.backslash) then
    Scan (currentLine st + 1) (s_added st) (s_deleted st) (hunks st)
  else st.

Definition scan_diff (diff : string) : scan :=
  fold_left step (JS.split "010"%char diff) scan0.

(** ** Reconciliation: adjacent adds and deletes become modified lines

    [near a d] is [Math.abs(a - d) <= 1]. *)
Definition near (a d : Z) : bool := Z.abs (a - d) <=? 1.

(** The inner loop over [j]: the index of the first deleted line near
    [a], from index [j] on. *)
Fixpoint find_near (a : Z) (del : list Z) (j : nat) : option nat :=
  match del with
  | [] => None
  | d :: del' => if near a d then Some j else find_near a del' (S j)
  end.

(** [arr.splice(i, 1)]. *)
Definition splice1 {A} (i : nat) (l : list A) : list A :=
  take i l ++ drop (S i) l.

(** The variables of the reconciliation loop. *)
Record recon := Recon {
  r_i : nat;
  r_added : list Z;
  r_deleted : list Z;
  r_modified : list Z
}.

(** The outer loop, one iteration per unit of fuel; [None] when the fuel
    runs out before [i < lines.added.length] fails.  A pairing splices
    both arrays and undoes the increment of [i] ([i--] before [break]). *)
Fixpoint reconcile_loop (fuel : nat) (r : recon) : option recon :=
  match r_added r !! r_i r with
  | None => Some r
  | Some a =>
      match fuel with
      | O => None
      | S fuel' =>
          match find_near a (r_deleted r) 0 with
          | Some j =>
              reconcile_loop fuel'
                (Recon (r_i r) (splice1 (r_i r) (r_added r))
                       (splice1 j (r_deleted r)) (r_modified r ++ [a]))
          | None =>
              reconcile_loop fuel'
                (Recon (S (r_i r)) (r_added r) (r_deleted r) (r_modified r))
          end
      end
  end.

(** Every iteration either consumes an element of [added] or moves [i]
    past one, so [added.length] iterations are enough. *)
Definition reconcile (adds dels : list Z) : option recon :=
  reconcile_loop (length adds) (Recon 0 adds dels []).

(** What holds of the loop variables before every iteration, for the
    arrays [adds] and [dels] the loop started from: the added lines
    before index [i] are near no remaining deleted line, every added line
    of the start is in [added] or in [modified], and [deleted] has lost
    elements only. *)
Definition reconciling (adds dels : list Z) (r : recon) : Prop :=
  (forall k a d, (k < r_i r)%nat -> r_added r !! k = Some a ->
                 d ∈ r_deleted r -> near a d = false) /\
  r_modified r ++ r_added r ≡ₚ adds /\
  r_deleted r `sublist_of` dels.

(** The added lines recorded so far are distinct and lie before the
    cursor. *)
Definition before_cursor (st : scan) : Prop :=
  NoDup (s_added st) /\ forall a, a ∈ s_added st -> a < currentLine st.

(** Every hunk header starts beyond the lines recorded as added before
    it: the hunks come in ascending order and none reaches into the next.
    The lines before the first header (the [diff --git], [index], [---]
    and [+++] lines Git prints) move the cursor and record nothing, so
    they do not count. *)
Fixpoint headers_clear (st : scan) (lines : list string) : bool :=
  match lines with
  | [] => true
  | line :: rest =>
      (if JS.startsWith line "@@" then
         match header_match line with
         | Some g2 => forallb (fun a => a <? JS.parseInt g2) (s_added st)
         | None => true
         end
       else true)
      && headers_clear (step st line) rest
  end.

Definition finish_hunk (h : hunk) : hunk_out :=
  HunkOut (start h) (content h) "mixed" (start h + Z.of_nat (length (content h))).

(** [parseGitDiff(diff)]; [None] only if the reconciliation ran out of
    fuel, which [parseGitDiff_total] excludes. *)
Definition parseGitDiff (diff : string) : option (lineChanges * list hunk_out) :=
  let st := scan_diff diff in
  r ← reconcile (s_added st) (s_deleted st);
  Some (LineChanges (r_added r) (r_deleted r) (r_modified r),
        map finish_hunk (hunks st)).

(** ** Function-level attribution

    The syntax tree comes from the external parser; [traverse] calls the
    visitors node by node.  The model takes the nodes in visiting order,
    each with the fields its visitor reads: [id?.name] and [key?.name]
    are [None] when the identifier is missing, and [path.parent.type] is
    kept for the arrow functions.  In a visitor [path.parent] is the
    parent node, for a class method the class body; a node has no
    [parent] property of its own, so a class method has no field for the
    class. *)
Inductive node :=
  | FunctionDeclaration (id_name : option string) (loc_start loc_end : Z)
  | ArrowFunctionExpression (parent_type : string) (parent_id_name : option string)
                            (loc_start loc_end : Z)
  | ClassMethod (key_name : option string) (loc_start loc_end : Z)
  | OtherNode.

(** [x || fallback] on an optional string: the empty string is falsy. *)
Definition or_default (x : option string) (fallback : string) : string :=
  match x with
  | Some s => if String.eqb s "" then fallback else s
  | None => fallback
  end.

(** [functions[name] = value] on an object created by [{}]: the key
    [__proto__] is the accessor inherited from [Object.prototype], whose
    setter ignores a string, so no own property appears. *)
Definition obj_set (functions : gmap string string) (name value : string)
  : gmap string string :=
  if String.eqb name "__proto__" then functions else <[name := value]> functions.

(** [line >= start && line <= end]. *)
Definition in_range (start_ end_ line : Z) : bool :=
  (start_ <=? line) && (line <=? end_).

(** The right-hand side of the assignment: the nested conditional over
    [lineChanges.deleted.some] and [lineChanges.added.some]. *)
Definition classify (lc : lineChanges) (start_ end_ : Z) : string :=
  if existsb (in_range start_ end_) (deleted lc) then "deleted"
  else if existsb (in_range start_ end_) (added lc) then "added"
  else "modified".

(** [for (const line of allLines) { if (...) { functions[name] = ...; break; } }]. *)
Fixpoint attribute (allLines : list Z) (lc : lineChanges) (name : string)
    (start_ end_ : Z) (functions : gmap string string) : gmap string string :=
  match allLines with
  | [] => functions
  | line :: rest =>
      if in_range start_ end_ line
      then obj_set functions name (classify lc start_ end_)
      else attribute rest lc name start_ end_ functions
  end.

(** [[...lineChanges.added, ...lineChanges.modified, ...lineChanges.deleted]]. *)
Definition allLines (lc : lineChanges) : list Z :=
  added lc ++ modified lc ++ deleted lc.

(** How the visitor of a node begins: with the name under which the
    node is recorded, without one for a node no visitor records, or with
    an exception. *)
Inductive entry :=
  | Named (name : string)
  | Skipped
  | TypeError.

(** The first statements of the three visitors.  That of [ClassMethod]
    is [const className = path.parent.parent.id?.name || 'Class']:
    [path.parent.parent] is [undefined] and reading [id] of it throws,
    before the key or the range of the method is read. *)
Definition node_name (n : node) : entry :=
  match n with
  | FunctionDeclaration id_name _ _ => Named (or_default id_name "anonymous")
  | ArrowFunctionExpression parent_type parent_id_name _ _ =>
      if String.eqb parent_type "VariableDeclarator"
      then Named (or_default parent_id_name "anonymous")
      else Skipped
  | ClassMethod _ _ _ => TypeError
  | OtherNode => Skipped
  end.

Definition node_range (n : node) : Z * Z :=
  match n with
  | FunctionDeclaration _ s e => (s, e)
  | ArrowFunctionExpression _ _ s e => (s, e)
  | ClassMethod _ s e => (s, e)
  | OtherNode => (0, 0)
  end.

(** The nodes whose visitor throws. *)
Definition throws (n : node) : bool :=
  match node_name n with
  | TypeError => true
  | _ => false
  end.

(** What a visitor that does not throw leaves in [functions]. *)
Definition record (lc : lineChanges) (functions : gmap string string) (n : node)
  : gmap string string :=
  match node_name n with
  | Named name =>
      attribute (allLines lc) lc name (node_range n).1 (node_range n).2 functions
  | _ => functions
  end.

(** One call of a visitor; [None] when it throws. *)
Definition visit (lc : lineChanges) (functions : gmap string string) (n : node)
  : option (gmap string string) :=
  if throws n then None else Some (record lc functions n).

(** [traverse.default(ast, { ... })]: the visitors are called node by
    node, and an exception of one of them ends the traversal. *)
Fixpoint traverse (lc : lineChanges) (ast : list node) (functions : gmap string string)
  : option (gmap string string) :=
  match ast with
  | [] => Some functions
  | n :: rest => functions' ← visit lc functions n; traverse lc rest functions'
  end.

(** [detectFunctionChanges(ast, lineChanges)]: the object returned,
    [None] when the call throws. *)
Definition detectFunctionChanges (ast : list node) (lc : lineChanges)
  : option (gmap string string) :=
  traverse lc ast ∅.

End ChangeAnalyzer.

(* ===================================================================== *)
(** * self-healing-framework.js: [SelfHealingTest]                        *)
(* ===================================================================== *)

Module SelfHealingTest.

(** The [fallback] object that [generateSelectors] attaches. *)
Record fallbackHints := FallbackHints { fb_text : string; fb_partialText : string }.

(** A selector descriptor: every hint is optional. *)
Record selectors := Selectors {
  testId : option string;
  id : option string;
  css : option string;
  xpath : option string;
  text : option string;
  partialText : option string;
  role : option string;
  name : option string;
  description : option string;
  fallback : option fallbackHints
}.

Definition noSelectors : selectors :=
  Selectors None None None None None None None None None None.

(** [if (selectors.hint)]: present and not the empty string. *)
Definition truthy (hint : option string) : option string :=
  match hint with
  | Some s => if String.eqb s "" then None else Some s
  | None => None
  end.

(** What the page object hands back: [Locate sel] is
    [this.page.locator(sel)], [LocateIn base sel] is [base.locator(sel)]
    for a context.  Locators are lazy: building one asks the page
    nothing. *)
Inductive locator :=
  | Locate (selector : string)
  | LocateIn (base : locator) (selector : string)
  | GetByRole (role_ name_ : string)
  | GetByText (text_ : string)
  | GetByLabel (text_ : string)
  | GetByPlaceholder (text_ : string).

(** The live page: [count l] is the answer of [await l.count()], [None]
    when the call throws.  The page answers the same way during one
    resolution. *)
Definition page := locator -> option nat.

Definition dquote : string := String "034"%char EmptyString.

(** The template [[data-testid="${testId}"]]. *)
Definition byTestId (t : string) : string :=
  "[data-testid=" +:+ dquote +:+ t +:+ dquote +:+ "]".

(** Tiers 1 to 5: [None] is the [undefined] of a strategy whose hint is
    missing. *)
Definition tier1 (s : selectors) : option locator :=
  match truthy (testId s), truthy (id s) with
  | Some t, _ => Some (Locate (byTestId t))
  | None, Some i => Some (Locate ("#" +:+ i))
  | None, None => None
  end.

Definition tier2 (s : selectors) (context : option locator) : option locator :=
  match truthy (css s) with
  | Some c =>
      (* [const base = context || this.page] *)
      match context with
      | Some base => Some (LocateIn base c)
      | None => Some (Locate c)
      end
  | None => None
  end.

Definition tier3 (s : selectors) : option locator :=
  match truthy (xpath s) with
  | Some x => Some (Locate ("xpath=" +:+ x))
  | None => None
  end.

Definition tier4 (s : selectors) : option locator :=
  match truthy (text s), truthy (partialText s) with
  | Some t, _ => Some (Locate ("text=" +:+ t))
  | None, Some p => Some (Locate ("text=/" +:+ p +:+ "/i"))
  | None, None => None
  end.

Definition tier5 (s : selectors) : option locator :=
  match truthy (role s), truthy (name s) with
  | Some r, Some n => Some (GetByRole r n)
  | _, _ => None
  end.

(** The result of running one strategy. *)
Inductive outcome (A : Type) :=
  | Returns (a : A)
  | Throws.
Arguments Returns {A} a.
Arguments Throws {A}.

(** [for (const attempt of attempts) { if (await attempt.count() === 1) return attempt; }]. *)
Fixpoint first_unique (count : page) (attempts : list locator)
  : outcome (option locator) :=
  match attempts with
  | [] => Returns None
  | attempt :: rest =>
      match count attempt with
      | None => Throws
      | Some c => if Nat.eqb c 1 then Returns (Some attempt)
                  else first_unique count rest
      end
  end.

Definition tier6 (count : page) (s : selectors) : outcome (option locator) :=
  match truthy (description s) with
  | Some d => first_unique count [GetByText d; GetByLabel d; GetByPlaceholder d]
  | None => Returns None
  end.

(** The array [strategies], as closures over the descriptor. *)
Definition strategies (count : page) (s : selectors) (context : option locator)
  : list (outcome (option locator)) :=
  [ Returns (tier1 s); Returns (tier2 s context); Returns (tier3 s);
    Returns (tier4 s); Returns (tier5 s); tier6 count s ].

(** The [strategy] field of a ledger record: [i + 1] or ['failed']. *)
Inductive strategyTag :=
  | Tier (n : nat)
  | Failed.

Record healingAttempt := HealingAttempt {
  ha_selectors : selectors;
  ha_strategy : strategyTag;
  ha_success : bool;
  ha_timestamp : Z
}.

(** [new Error(`Element not found with selectors: ${JSON.stringify(selectors)}`)]:
    the error carries the descriptor. *)
Inductive error := ElementNotFound (s : selectors).

(** The body of [try { ... }] for strategy number [i]: the element to
    return, if the strategy gave one and the page counts at least one
    match.  A throw of the strategy or of [count] lands in the empty
    [catch]. *)
Definition try_strategy (count : page) (strategy : outcome (option locator))
  : option locator :=
  match strategy with
  | Returns (Some element) =>
      match count element with
      | Some c => if (0 <? c)%nat then Some element else None
      | None => None
      end
  | Returns None => None
  | Throws => None
  end.

(** [for (let i = 0; i < strategies.length; i++)], from index [i] on. *)
Fixpoint resolve (count : page) (strats : list (outcome (option locator)))
    (i : nat) : option (locator * nat) :=
  match strats with
  | [] => None
  | strategy :: rest =>
      match try_strategy count strategy with
      | Some element => Some (element, S i)
      | None => resolve count rest (S i)
      end
  end.

(** [findElement(selectors, context)]: the page, the clock reading of
    [Date.now()] and [this.healingAttempts] are explicit. *)
Definition findElement (count : page) (now : Z) (healingAttempts : list healingAttempt)
    (s : selectors) (context : option locator)
  : (locator + error) * list healingAttempt :=
  match resolve count (strategies count s context) 0 with
  | Some (element, tier) =>
      (inl element, healingAttempts ++ [HealingAttempt s (Tier tier) true now])
  | None =>
      (inr (ElementNotFound s), healingAttempts ++ [HealingAttempt s Failed false now])
  end.

End SelfHealingTest.

(* ===================================================================== *)
(** * self-healing-framework.js: [ChangeAwareTestGenerator]               *)
(* ===================================================================== *)

Module ChangeAwareTestGenerator.

Import ChangeAnalyzer.

(** One entry of [changeDetails.files], as read back from
    [change-analysis.json]: [functions] is the list [Object.entries]
    enumerates. *)
Record changes := Changes {
  functions : list (string * string);
  lines : lineChanges
}.

(** A JavaScript number as far as [Math.min], [Math.max] and the
    subtraction of their results need it. *)
Inductive jsnum :=
  | NaN
  | NegInf
  | Fin (z : Z)
  | PosInf.

(** [Math.min(...xs)]: [Infinity] for no argument. *)
Definition js_min (xs : list Z) : jsnum :=
  fold_left (fun acc x => match acc with
                          | Fin a => Fin (Z.min a x)
                          | _ => Fin x
                          end) xs PosInf.

(** [Math.max(...xs)]: [-Infinity] for no argument. *)
Definition js_max (xs : list Z) : jsnum :=
  fold_left (fun acc x => match acc with
                          | Fin a => Fin (Z.max a x)
                          | _ => Fin x
                          end) xs NegInf.

Definition js_sub (a b : jsnum) : jsnum :=
  match a, b with
  | NaN, _ | _, NaN => NaN
  | Fin x, Fin y => Fin (x - y)
  | PosInf, PosInf | NegInf, NegInf => NaN
  | PosInf, _ => PosInf
  | NegInf, _ => NegInf
  | Fin _, PosInf => NegInf
  | Fin _, NegInf => PosInf
  end.

(** [a > n] for a finite [n]. *)
Definition js_gt (a : jsnum) (n : Z) : bool :=
  match a with
  | Fin x => n <? x
  | PosInf => true
  | NegInf | NaN => false
  end.

Record impactArea := ImpactArea {
  startLine : jsnum;
  endLine : jsnum;
  scope : string
}.

(** [calculateUIImpactArea(changes)]. *)
Definition calculateUIImpactArea (ch : changes) : impactArea :=
  let minLine := js_min (modified (lines ch) ++ added (lines ch)) in
  let maxLine := js_max (modified (lines ch) ++ added (lines ch)) in
  ImpactArea minLine maxLine
    (if js_gt (js_sub maxLine minLine) 50 then "component" else "partial").

Record action := Action {
  a_type : string;
  a_value : option string;
  a_verify : string
}.

(** [generateActions(funcName, changes)]. *)
Definition generateActions (funcName : string) (ch : changes) : list action :=
  (if JS.includes funcName "handle" || JS.includes funcName "on"
   then [Action "click" None "response"] else []) ++
  (if JS.includes funcName "validate" || JS.includes funcName "check"
   then [Action "input" (Some "test") "validation"] else []) ++
  (if JS.includes funcName "submit" || JS.includes funcName "save"
   then [Action "submit" None "success"] else []).

(** [inferRole(funcName)]. *)
Definition inferRole (funcName : string) : string :=
  if JS.includes funcName "button" || JS.includes funcName "click" then "button"
  else if JS.includes funcName "input" || JS.includes funcName "field" then "textbox"
  else if JS.includes funcName "select" || JS.includes funcName "dropdown" then "combobox"
  else if JS.includes funcName "check" then "checkbox"
  else if JS.includes funcName "radio" then "radio"
  else if JS.includes funcName "link" then "link"
  else "button".

(** [s.replace(/([A-Z])/g, ' $1')]: a space before every capital. *)
Fixpoint space_capitals (s : string) : string :=
  match s with
  | EmptyString => EmptyString
  | String c s' =>
      if JS.is_upper c then String " "%char (String c (space_capitals s'))
      else String c (space_capitals s')
  end.

(** White space and line terminators below U+0100: tab to carriage
    return, the space and the no-break space U+00A0. *)
Definition is_space (c : ascii) : bool :=
  let n := nat_of_ascii c in
  (n =? 32)%nat || ((9 <=? n)%nat && (n <=? 13)%nat) || (n =? 160)%nat.

Fixpoint trim_start (s : string) : string :=
  match s with
  | String c s' => if is_space c then trim_start s' else s
  | EmptyString => EmptyString
  end.

(** [s.trim()]. *)
Definition trim (s : string) : string :=
  JS.rev (trim_start (JS.rev (trim_start s))).

Inductive testTarget :=
  | UITest (name file function_ changeType : string) (targetLines : list Z)
           (sel : SelfHealingTest.selectors) (actions : list action)
  | VisualTest (name file : string) (targetArea : impactArea) (threshold : Z * Z).

(** The [type] field. *)
Definition target_type (t : testTarget) : string :=
  match t with
  | UITest _ _ _ _ _ _ _ => "ui"
  | VisualTest _ _ _ _ => "visual"
  end.

(** [t.type === 'visual']. *)
Definition is_visual (t : testTarget) : bool :=
  String.eqb (target_type t) "visual".

Section Generator.

(** [path.basename(file, path.extname(file))], from Node's [path]
    module. *)
Variable componentNameOf : string -> string.

(** [generateSelectors(file, funcName)]. *)
Definition generateSelectors (file funcName : string) : SelfHealingTest.selectors :=
  let componentName := componentNameOf file in
  SelfHealingTest.Selectors
    (Some (JS.toLowerCase (componentName +:+ "-" +:+ funcName)))
    None
    (Some ("." +:+ componentName))
    None None None
    (Some (inferRole funcName))
    None
    (Some (componentName +:+ " " +:+ funcName))
    (Some (SelfHealingTest.FallbackHints (trim (space_capitals funcName)) componentName)).

(** The callback of [Object.entries(changes.functions).forEach]. *)
Definition uiTestOf (file : string) (ch : changes) (entry : string * string)
  : list testTarget :=
  let '(funcName, changeType) := entry in
  if String.eqb changeType "deleted" then []
  else [UITest ("UI Test: " +:+ funcName +:+ " in " +:+ file) file funcName changeType
               (modified (lines ch)) (generateSelectors file funcName)
               (generateActions funcName ch)].

(** [generateUITests(file, changes)]; the threshold [0.1] is kept as the
    fraction 1/10. *)
Definition generateUITests (file : string) (ch : changes) : list testTarget :=
  flat_map (uiTestOf file ch) (functions ch) ++
  (if (10 <? length (modified (lines ch)))%nat || (10 <? length (added (lines ch)))%nat
   then [VisualTest ("Visual Test: " +:+ file) file (calculateUIImpactArea ch) (1, 10)]
   else []).

End Generator.

(** ** Endpoint and method of an API declaration *)

(** [s.replace(/^.*\/(api|services)\//, '')], as the remainder after the
    match, [None] when there is none.  The greedy [.*] prefers to take
    one more character; [.] does not match a line terminator, which
    below U+0100 is a line feed or a carriage return. *)
Definition dot (c : ascii) : bool :=
  negb (Ascii.eqb c "010"%char || Ascii.eqb c "013"%char).

Definition after_dir (s : string) : option string :=
  match JS.strip_prefix "/api/" s with
  | Some r => Some r
  | None => JS.strip_prefix "/services/" s
  end.

Fixpoint strip_dir_match (s : string) : option string :=
  match s with
  | EmptyString => None
  | String c s' =>
      match (if dot c then strip_dir_match s' else None) with
      | Some r => Some r
      | None => after_dir s
      end
  end.

Definition strip_dir (s : string) : string :=
  match strip_dir_match s with
  | Some r => r
  | None => s
  end.

(** The class [[^/.]]. *)
Definition ext_char (c : ascii) : bool :=
  negb (Ascii.eqb c "/"%char || Ascii.eqb c "."%char).

(** [s.replace(/\.[^/.]+$/, '')]: the first position where a dot is
    followed by one character at least, none of them a slash or a dot,
    up to the end. *)
Fixpoint strip_ext (s : string) : string :=
  match s with
  | EmptyString => EmptyString
  | String c s' =>
      if Ascii.eqb c "."%char && negb (String.eqb s' "") && JS.all_chars ext_char s'
      then EmptyString
      else String c (strip_ext s')
  end.

(** [basePath.split('/').pop()]. *)
Definition resource (file : string) : string :=
  JS.pop (JS.split "/"%char (strip_ext (strip_dir file))).

(** [deriveEndpoint(file, funcName)]. *)
Definition deriveEndpoint (file funcName : string) : string :=
  let resource := resource file in
  if JS.includes funcName "get" && JS.includes funcName "Id"
  then "/api/" +:+ resource +:+ "/:id"
  else if JS.includes funcName "get" then "/api/" +:+ resource
  else if JS.includes funcName "create" || JS.includes funcName "post"
  then "/api/" +:+ resource
  else if JS.includes funcName "update" || JS.includes funcName "put"
  then "/api/" +:+ resource +:+ "/:id"
  else if JS.includes funcName "delete" then "/api/" +:+ resource +:+ "/:id"
  else "/api/" +:+ resource.

(** [deriveHTTPMethod(funcName)]. *)
Definition deriveHTTPMethod (funcName : string) : string :=
  let lowerFunc := JS.toLowerCase funcName in
  if JS.includes lowerFunc "get" || JS.includes lowerFunc "fetch" then "GET"
  else if JS.includes lowerFunc "post" || JS.includes lowerFunc "create" then "POST"
  else if JS.includes lowerFunc "put" || JS.includes lowerFunc "update" then "PUT"
  else if JS.includes lowerFunc "patch" then "PATCH"
  else if JS.includes lowerFunc "delete" || JS.includes lowerFunc "remove" then "DELETE"
  else "GET".

End ChangeAwareTestGenerator.

(* ===================================================================== *)
(** * self-healing-framework.js: [SelfHealingAPI]                         *)
(* ===================================================================== *)

Module SelfHealingAPI.

(** What [fetch] resolves to: [ok] and [status] as the transport reports
    them ([ok] is set for the statuses 200 to 299), the body as
    [response.json()] parses it ([None] when parsing rejects and the
    [catch] puts [null]), and the header entries. *)
Record response := Response {
  ok : bool;
  status : Z;
  json : option string;
  headers : list (string * string)
}.

(** The transport: it resolves with a response, whatever its status, or
    rejects when no response arrives.  It answers a given request the
    same way during one resolution. *)
Inductive fetched :=
  | Resolves (r : response)
  | Rejects (reason : string).

Definition transport := string -> string -> fetched.

(** The errors that leave [executeRequest]: the rejection of [fetch], or
    [new Error(`${method} ${endpoint} failed: ${response.status}`)]. *)
Inductive error :=
  | NetworkError (reason : string)
  | RequestFailed (method endpoint : string) (status_ : Z).

Record requestResult := RequestResult {
  rr_status : Z;
  rr_data : option string;
  rr_headers : list (string * string)
}.

(** [executeRequest(endpoint, method)]; [data] keeps its default [null],
    as in every call of this class. *)
Definition executeRequest (baseURL : string) (fetch : transport)
    (endpoint method : string) : requestResult + error :=
  let url := baseURL +:+ endpoint in
  match fetch url method with
  | Rejects reason => inr (NetworkError reason)
  | Resolves r =>
      if negb (ok r) then inr (RequestFailed method endpoint (status r))
      else inl (RequestResult (status r) (json r) (headers r))
  end.

(** The longest run of word characters at the head of [s], and the rest. *)
Fixpoint span_word (s : string) : string * string :=
  match s with
  | String c s' =>
      if JS.is_word c then
        let '(w, rest) := span_word s' in (String c w, rest)
      else (EmptyString, s)
  | EmptyString => (EmptyString, EmptyString)
  end.

(** [/(\w+)\/?$/] anchored at the head of [s]: the first group. *)
Definition word_at_end (s : string) : option string :=
  let '(w, rest) := span_word s in
  if String.eqb w "" then None
  else if String.eqb rest "" || String.eqb rest "/" then Some w
  else None.

(** [endpoint.replace(/(\w+)\/?$/, '$1s')]: the first position that
    matches is replaced by the word and an [s]. *)
Fixpoint pluralize (s : string) : string :=
  match word_at_end s with
  | Some w => w +:+ "s"
  | None =>
      match s with
      | EmptyString => EmptyString
      | String c s' => String c (pluralize s')
      end
  end.

(** [endpoint.replace(/\/$/, '')]. *)
Fixpoint strip_slash (s : string) : string :=
  match s with
  | EmptyString => EmptyString
  | String c s' =>
      if Ascii.eqb c "/"%char && String.eqb s' "" then EmptyString
      else String c (strip_slash s')
  end.

(** A request that does not resolve a tier: the transport rejects, or
    the response is not [ok]. *)
Definition request_fails (baseURL : string) (fetch : transport)
    (method endpoint : string) : Prop :=
  match fetch (baseURL +:+ endpoint) method with
  | Rejects _ => True
  | Resolves r => ok r = false
  end.

(** The entry of [changeLocations] after the [map] in [testEndpoint]. *)
Record test := Test {
  endpoint : string;
  method : string;
  focusOn : option string
}.

(** The endpoints the closures of [strategies] request, in array order. *)
Definition strategies (t : test) : list string :=
  [ endpoint t;
    "/v1" +:+ endpoint t;
    "/v2" +:+ endpoint t;
    pluralize (endpoint t);
    strip_slash (endpoint t) ].

(** [{ ...test, ...result, success: true, healingStrategy: i, healed: i > 0 }]. *)
Record healed := Healed {
  h_test : test;
  h_result : requestResult;
  h_success : bool;
  healingStrategy : nat;
  h_healed : bool
}.

(** The loop of [executeWithFallbacks] from index [i] on; [requests] is
    the list of endpoints requested so far. *)
Fixpoint fallbacks (baseURL : string) (fetch : transport) (t : test)
    (strats : list string) (i : nat) (lastError : option error)
    (requests : list string) : (healed + option error) * list string :=
  match strats with
  | [] => (inr lastError, requests)
  | e :: rest =>
      match executeRequest baseURL fetch e (method t) with
      | inl result =>
          (inl (Healed t result true i (0 <? i)%nat), requests ++ [e])
      | inr err =>
          fallbacks baseURL fetch t rest (S i) (Some err) (requests ++ [e])
      end
  end.

(** [executeWithFallbacks(test)]: the value returned, or [throw lastError]
    ([None] would be the [undefined] of a loop that never ran), with the
    endpoints requested, in order. *)
Definition executeWithFallbacks (baseURL : string) (fetch : transport) (t : test)
  : (healed + option error) * list string :=
  fallbacks baseURL fetch t (strategies t) 0 None [].

End SelfHealingAPI.

(* ===================================================================== *)
(** * api-tester.js: [APITester]                                          *)
(* ===================================================================== *)

Module APITester.

Import ChangeAnalyzer.

(** [deriveEndpoint(file, funcName)]: the two [replace] calls and the
    [split('/').pop()] are those of [ChangeAwareTestGenerator]. *)
Definition deriveEndpoint (file funcName : string) : string :=
  let resource := ChangeAwareTestGenerator.resource file in
  if JS.includes funcName "Id" || JS.includes funcName "ById"
  then "/" +:+ resource +:+ "/:id"
  else "/" +:+ resource.

(** [deriveHTTPMethod(funcName)]. *)
Definition deriveHTTPMethod (funcName : string) : string :=
  let lower := JS.toLowerCase funcName in
  if JS.includes lower "get" || JS.includes lower "fetch" || JS.includes lower "find"
  then "GET"
  else if JS.includes lower "post" || JS.includes lower "create" || JS.includes lower "add"
  then "POST"
  else if JS.includes lower "put" || JS.includes lower "update" then "PUT"
  else if JS.includes lower "patch" then "PATCH"
  else if JS.includes lower "delete" || JS.includes lower "remove" then "DELETE"
  else "GET".

(** [endpoint.slice(0, -1)]. *)
Fixpoint drop_last (s : string) : string :=
  match s with
  | EmptyString => EmptyString
  | String c EmptyString => EmptyString
  | String c s' => String c (drop_last s')
  end.

(** [pluralizeEndpoint(endpoint)]. *)
Definition pluralizeEndpoint (endpoint : string) : string :=
  if JS.endsWith endpoint "y" then drop_last endpoint +:+ "ies"
  else if negb (JS.endsWith endpoint "s") then endpoint +:+ "s"
  else endpoint.

(** An element of [getAPIChanges()]. *)
Record change := Change {
  file : string;
  function_ : string;
  changeType : string;
  lines : lineChanges;
  endpoint : string;
  method : string
}.

Record strategy := Strategy { url : string; version : string }.

(** [healingStrategies]. *)
Definition healingStrategies (c : change) : list strategy :=
  [ Strategy (endpoint c) "";
    Strategy ("/api" +:+ endpoint c) "api-prefix";
    Strategy ("/v1" +:+ endpoint c) "v1";
    Strategy ("/v2" +:+ endpoint c) "v2";
    Strategy (SelfHealingAPI.strip_slash (endpoint c)) "no-trailing-slash";
    Strategy (pluralizeEndpoint (endpoint c)) "pluralized" ].

Section Healing.

(** What [executeEndpointTest] returns. *)
Variable testResult : Type.

(** [this.executeEndpointTest(url, method, change)]: [None] when the
    call throws. *)
Variable executeEndpointTest : string -> string -> change -> option testResult.

(** An element of [result.tests]:
    [{ ...testResult, healingStrategy, healed: strategy.version !== '' }]. *)
Record healedTest := HealedTest {
  ht_result : testResult;
  ht_healingStrategy : string;
  ht_healed : bool
}.

(** The variables the loop of [testChangedEndpoint] assigns; [attempted]
    lists the URLs handed to [executeEndpointTest], in order. *)
Record healingState := HealingState {
  tests : list healedTest;
  success : bool;
  healingUsed : option string;
  attempted : list string
}.

(** [for (const strategy of healingStrategies) { try { ...; break; } catch {} }]. *)
Fixpoint heal (c : change) (strats : list strategy) (st : healingState)
  : healingState :=
  match strats with
  | [] => st
  | s :: rest =>
      match executeEndpointTest (url s) (method c) c with
      | Some r =>
          HealingState
            (tests st ++ [HealedTest r (version s) (negb (String.eqb (version s) ""))])
            true (Some (version s)) (attempted st ++ [url s])
      | None =>
          heal c rest
            (HealingState (tests st) (success st) (healingUsed st)
                          (attempted st ++ [url s]))
      end
  end.

(** The record [testChangedEndpoint] pushes on [this.results]. *)
Record endpointResult := EndpointResult {
  er_name : string;
  er_change : change;
  er_tests : list healedTest;
  er_success : bool;
  er_healingUsed : option string
}.

(** [testChangedEndpoint(change)], with the URLs it tried. *)
Definition testChangedEndpoint (c : change) : endpointResult * list string :=
  let st := heal c (healingStrategies c) (HealingState [] false None []) in
  (EndpointResult ("API: " +:+ function_ c +:+ " (" +:+ changeType c +:+ ")") c
                  (tests st) (success st) (healingUsed st),
   attempted st).

End Healing.

Arguments HealedTest {testResult}.
Arguments HealingState {testResult}.
Arguments EndpointResult {testResult}.
Arguments tests {testResult}.
Arguments success {testResult}.
Arguments healingUsed {testResult}.
Arguments attempted {testResult}.
Arguments er_tests {testResult}.
Arguments er_success {testResult}.
Arguments er_healingUsed {testResult}.
Arguments heal {testResult}.
Arguments testChangedEndpoint {testResult}.

Section Executor.

(** The test cases of [generateTestCases(method, change)] and the body
    of the [try { ... } catch { ... }] that runs one of them: the request
    through [axios] and its validation, or, when either throws, the
    failed case the [catch] block records.  Both are left open. *)
Variables testCase caseResult : Type.
Variable generateTestCases : string -> change -> list testCase.
Variable runCase : string -> string -> testCase -> change -> caseResult.
Variable case_success : caseResult -> bool.

Record testRun := TestRun {
  tr_endpoint : string;
  tr_method : string;
  tr_cases : list caseResult;
  tr_success : bool
}.

(** [executeEndpointTest(endpoint, method, change)]: every case runs
    inside its own [try], so the call itself returns. *)
Definition executeEndpointTest (baseURL : string)
    (endpoint method : string) (c : change) : option testRun :=
  let url := baseURL +:+ endpoint in
  let results := map (fun tc => runCase url method tc c) (generateTestCases method c) in
  Some (TestRun endpoint method results (forallb case_success results)).

End Executor.

Arguments TestRun {caseResult}.
Arguments executeEndpointTest {testCase caseResult}.

End APITester.

(* ===================================================================== *)
(** * The derivation rules in the words of the specification              *)
(* ===================================================================== *)

Module Rules.

(** The last path segment: what follows the last slash. *)
Definition last_segment (path : string) : string :=
  JS.pop (JS.split "/"%char path).

(** A rule table: the first row with a keyword occurring in the name
    gives the method, [GET] when no row applies. *)
Fixpoint method_by_rules (rules : list (list string * string)) (lowerName : string)
  : string :=
  match rules with
  | [] => "GET"
  | (keywords, method) :: rest =>
      if existsb (JS.includes lowerName) keywords then method
      else method_by_rules rest lowerName
  end.

(** get/fetch/find, post/create/add, put/update, patch, delete/remove. *)
Definition method_rules : list (list string * string) :=
  [ (["get"; "fetch"; "find"], "GET");
    (["post"; "create"; "add"], "POST");
    (["put"; "update"], "PUT");
    (["patch"], "PATCH");
    (["delete"; "remove"], "DELETE") ].

(** The table of [ChangeAwareTestGenerator]: no [find], no [add]. *)
Definition generator_method_rules : list (list string * string) :=
  [ (["get"; "fetch"], "GET");
    (["post"; "create"], "POST");
    (["put"; "update"], "PUT");
    (["patch"], "PATCH");
    (["delete"; "remove"], "DELETE") ].

(** The endpoint of the specification: a slash, the last path segment
    without its extension, and [/:id] for a name with [Id] or [ById]. *)
Definition endpoint_of (file funcName : string) : string :=
  "/" +:+ ChangeAwareTestGenerator.strip_ext (last_segment file) +:+
  (if JS.includes funcName "Id" || JS.includes funcName "ById" then "/:id" else "").

(** When [ChangeAwareTestGenerator] appends [/:id]: a getter with [Id],
    or an update, put or delete that is neither a getter nor a create or
    post. *)
Definition generator_wants_id (funcName : string) : bool :=
  let has := JS.includes funcName in
  (has "get" && has "Id") ||
  (negb (has "get") && negb (has "create" || has "post") &&
   (has "update" || has "put" || has "delete")).

(** The decimal numeral of a number, as a diff prints it. *)
Definition decimal (n : nat) : string :=
  NilEmpty.string_of_uint (Nat.to_uint n).

(** The count [,b] of a hunk header, which a diff omits when it is 1. *)
Definition count_text (b : option nat) : string :=
  match b with
  | Some b => "," +:+ decimal b
  | None => ""
  end.

(** A hunk header line [@@ -a,b +c,d @@] followed by [rest]. *)
Definition header_text (a : nat) (b : option nat) (c : nat) (d : option nat)
    (rest : string) : string :=
  "@@ -" +:+ decimal a +:+ count_text b +:+ " +" +:+ decimal c +:+ count_text d
  +:+ " @@" +:+ rest.

(** A list of line numbers has a line in the range from [first] to
    [last]. *)
Definition has_line (ls : list Z) (first last : Z) : Prop :=
  exists l, In l ls /\ first <= l <= last.

(** The classification of the specification: deleted before added
    before modified. *)
Inductive classified (lc : ChangeAnalyzer.lineChanges) (first last : Z) : string -> Prop :=
  | classified_deleted :
      has_line (ChangeAnalyzer.deleted lc) first last ->
      classified lc first last "deleted"
  | classified_added :
      ~ has_line (ChangeAnalyzer.deleted lc) first last ->
      has_line (ChangeAnalyzer.added lc) first last ->
      classified lc first last "added"
  | classified_modified :
      ~ has_line (ChangeAnalyzer.deleted lc) first last ->
      ~ has_line (ChangeAnalyzer.added lc) first last ->
      classified lc first last "modified".

(** The node is a declaration named [name] whose range has a changed
    line. *)
Definition changed_as (lc : ChangeAnalyzer.lineChanges) (name : string)
    (n : ChangeAnalyzer.node) : bool :=
  match ChangeAnalyzer.node_name n with
  | ChangeAnalyzer.Named name' =>
      String.eqb name' name &&
      existsb (ChangeAnalyzer.in_range (ChangeAnalyzer.node_range n).1
                                       (ChangeAnalyzer.node_range n).2)
              (ChangeAnalyzer.allLines lc)
  | _ => false
  end.

(** The six URLs in the order of the specification, for an endpoint [e]
    and a pluralization [plural]: exact, [/api], [/v1], [/v2], without
    the trailing slash, pluralized. *)
Definition six_tiers (plural : string -> string) (e : string) : list string :=
  [ e; "/api" +:+ e; "/v1" +:+ e; "/v2" +:+ e; SelfHealingAPI.strip_slash e; plural e ].

(** The five URLs of [SelfHealingAPI], in its order: exact, [/v1],
    [/v2], pluralized, without the trailing slash. *)
Definition five_tiers (e : string) : list string :=
  [ e; "/v1" +:+ e; "/v2" +:+ e; SelfHealingAPI.pluralize e; SelfHealingAPI.strip_slash e ].

End Rules.

(* ===================================================================== *)
(** * Concrete pages and transports for the scenarios                     *)
(* ===================================================================== *)

Module Scenarios.

Import SelfHealingTest.

(** Scenario D: the descriptor [{ testId: "x", css: ".y" }]. *)
Definition descriptorD : selectors :=
  Selectors (Some "x") None (Some ".y") None None None None None None None.

(** A page on which [.y] matches one element and nothing else matches. *)
Definition pageD : page :=
  fun l => match l with
           | Locate sel => if String.eqb sel ".y" then Some 1%nat else Some 0%nat
           | _ => Some 0%nat
           end.

(** The descriptor [{ css: ".y", xpath: "//z" }]. *)
Definition descriptorTwo : selectors :=
  Selectors None None (Some ".y") (Some "//z") None None None None None None.

(** A page on which [.y] matches two elements and the XPath [//z]
    matches one. *)
Definition pageTwo : page :=
  fun l => match l with
           | Locate sel =>
               if String.eqb sel ".y" then Some 2%nat
               else if String.eqb sel "xpath=//z" then Some 1%nat
               else Some 0%nat
           | _ => Some 0%nat
           end.

(** A server that answers 404 on [/users] and 200 under [/v1]. *)
Definition notFound : SelfHealingAPI.response :=
  SelfHealingAPI.Response false 404 None [].

Definition found : SelfHealingAPI.response :=
  SelfHealingAPI.Response true 200 (Some "[]") [].

Definition transportV1 : SelfHealingAPI.transport :=
  fun url method =>
    if String.eqb url "http://localhost:3000/v1/users"
    then SelfHealingAPI.Resolves found
    else SelfHealingAPI.Resolves notFound.

(** A server that cannot be reached. *)
Definition transportDown : SelfHealingAPI.transport :=
  fun url method => SelfHealingAPI.Rejects "ECONNREFUSED".

Definition getUsers : SelfHealingAPI.test :=
  SelfHealingAPI.Test "/users" "GET" None.

Definition getWidget : SelfHealingAPI.test :=
  SelfHealingAPI.Test "/widget/" "GET" None.

(** The change of scenario C. *)
Definition getUserById : APITester.change :=
  APITester.Change "api/users.js" "getUserById" "modified"
    (ChangeAnalyzer.LineChanges [] [] [7]) "/users/:id" "GET".

(** Six added lines and six modified lines. *)
Definition sixAndSix : ChangeAwareTestGenerator.changes :=
  ChangeAwareTestGenerator.Changes
    [("handleClick", "modified")]
    (ChangeAnalyzer.LineChanges [11; 12; 13; 14; 15; 16] [] [1; 2; 3; 4; 5; 6]).

(** Eleven modified lines at the top and one deleted line at 100. *)
Definition elevenAndFar : ChangeAwareTestGenerator.changes :=
  ChangeAwareTestGenerator.Changes
    [("handleClick", "modified")]
    (ChangeAnalyzer.LineChanges [] [100] [1; 2; 3; 4; 5; 6; 7; 8; 9; 10; 11]).

Definition lf : string := String "010"%char EmptyString.

(** Scenario A: one line added at 11 in a hunk that starts at 10. *)
Definition diffA : string :=
  JS.join lf [ "@@ -10,3 +10,4 @@";
               " const a = 1;";
               "+const b = 2;";
               " const c = 3;";
               " const d = 4;" ].

(** Three lines replaced by one. *)
Definition diffThreeForOne : string :=
  JS.join lf [ "@@ -1,3 +1,1 @@"; "-a"; "-b"; "-c"; "+x" ].

(** A diff printed without context lines.  The two deleted lines of the
    first hunk are [--a;] and [--b;]: behind the [-] of the diff they
    begin with [---] and are read as context, so the line added in their
    place is recorded at 3, where the second hunk starts. *)
Definition diffDashes : string :=
  JS.join lf [ "@@ -1,2 +1 @@"; "---a;"; "---b;"; "+x"; "@@ -4 +3 @@"; "-c"; "+z" ].

(** The diff of one file as Git prints it, with the lines before the
    first hunk; the first hunk starts at line 1 and the second at 12. *)
Definition diffGit : string :=
  JS.join lf [ "diff --git a/src/api/users.js b/src/api/users.js";
               "index 83db48f..bf269f4 100644";
               "--- a/src/api/users.js";
               "+++ b/src/api/users.js";
               "@@ -1,3 +1,3 @@";
               "-const a = 1;";
               "+const a = 2;";
               " const b = 3;";
               " const c = 4;";
               "@@ -12,2 +12,3 @@ function getUser(id) {";
               "   return find(id);";
               "+  // checked";
               " }" ].

(** The diff of a new file. *)
Definition diffNewFile : string :=
  JS.join lf [ "diff --git a/src/api/ping.js b/src/api/ping.js";
               "new file mode 100644";
               "index 0000000..e69de29";
               "--- /dev/null";
               "+++ b/src/api/ping.js";
               "@@ -0,0 +1,2 @@";
               "+export const ping = () => 1;";
               "+export const pong = () => 2;" ].

(** The marker Git prints for a file without a final line feed. *)
Definition noNewline : string := JS.backslash +:+ " No newline at end of file".

(** A final line feed is added to the only line, and a line after it. *)
Definition diffNoNewline : string :=
  JS.join lf [ "@@ -1 +1,2 @@"; "-a"; noNewline; "+a"; "+b" ].

(** Two arrow functions bound to the same name [cb] in different
    scopes, at lines 2 to 4 and 10 to 12. *)
Definition twoCallbacks : list ChangeAnalyzer.node :=
  [ ChangeAnalyzer.ArrowFunctionExpression "VariableDeclarator" (Some "cb") 2 4;
    ChangeAnalyzer.ArrowFunctionExpression "VariableDeclarator" (Some "cb") 10 12 ].

(** Scenario B: the function [getUser] at lines 5 to 9. *)
Definition getUserNode : ChangeAnalyzer.node :=
  ChangeAnalyzer.FunctionDeclaration (Some "getUser") 5 9.

(** A class [Cart] with the method [total] at lines 3 to 5, after the
    function [getUser]. *)
Definition cartFile : list ChangeAnalyzer.node :=
  [ ChangeAnalyzer.FunctionDeclaration (Some "getUser") 1 2;
    ChangeAnalyzer.OtherNode;
    ChangeAnalyzer.ClassMethod (Some "total") 3 5 ].

(** Three source files: one with a function, one the parser rejects,
    one with the class [Cart]. *)
Definition sourceFiles : list string :=
  ["source/a.js"; "source/b.js"; "source/cart.js"].

Definition sources (file : string) : option (list ChangeAnalyzer.node) :=
  if String.eqb file "source/a.js"
  then Some [ChangeAnalyzer.FunctionDeclaration (Some "render") 1 3]
  else if String.eqb file "source/cart.js" then Some cartFile
  else None.

(** The function [total] at lines 1 to 20 around the callback [add] at
    lines 5 to 7. *)
Definition totalAndAdd : list ChangeAnalyzer.node :=
  [ ChangeAnalyzer.FunctionDeclaration (Some "total") 1 20;
    ChangeAnalyzer.ArrowFunctionExpression "VariableDeclarator" (Some "add") 5 7 ].

End Scenarios.

(* ===================================================================== *)
(** * change-analyzer.js: what the parser keeps count of                  *)
(* ===================================================================== *)

Module DiffLines.

Import ChangeAnalyzer.

(** The test of the second branch of the scanning loop: an added line. *)
Definition is_added_line (line : string) : bool :=
  JS.startsWith line "+" && negb (JS.startsWith line "+++").

(** The test of the third branch: a deleted line. *)
Definition is_deleted_line (line : string) : bool :=
  JS.startsWith line "-" && negb (JS.startsWith line "---").

(** The number of lines of the diff a test holds of. *)
Definition count_lines (test : string -> bool) (diff : string) : nat :=
  length (List.filter test (JS.split "010"%char diff)).

(** No added or deleted line comes before the first hunk header that
    matches: the lines Git prints first ([diff], [index], [---], [+++])
    are of this kind. *)
Fixpoint header_leads (lines : list string) : bool :=
  match lines with
  | [] => true
  | line :: rest =>
      if JS.startsWith line "@@" then
        match header_match line with
        | Some _ => true
        | None => header_leads rest
        end
      else if is_added_line line || is_deleted_line line then false
      else header_leads rest
  end.

(** The lines of all hunks together, [h.end - h.start] summed. *)
Definition total_extent (hs : list hunk_out) : Z :=
  fold_right (fun h acc => (h_end h - h_start h) + acc) 0 hs.

(** What the reconciliation keeps, for the arrays [adds] and [dels] it
    started from: every pairing moves one line from [added] and one from
    [deleted] to one modified line, and a modified line is an added line
    with a deleted line next to it. *)
Definition pairing (adds dels : list Z) (r : recon) : Prop :=
  (length (r_added r) + length (r_modified r) = length adds)%nat /\
  (length (r_deleted r) + length (r_modified r) = length dels)%nat /\
  r_added r ⊆ adds /\ r_deleted r ⊆ dels /\
  forall m, m ∈ r_modified r -> m ∈ adds /\ exists d, d ∈ dels /\ near m d = true.

(** What the scan keeps: one recorded number per added line and per
    deleted line seen, and hunks made of such lines. *)
Definition counting (seen : list string) (st : scan) : Prop :=
  length (s_added st) = length (List.filter is_added_line seen) /\
  length (s_deleted st) = length (List.filter is_deleted_line seen) /\
  Forall (fun h => Forall (fun line => is_added_line line || is_deleted_line line = true)
                          (content h)) (hunks st).

(** The lines in the hunks are all the recorded lines, once a hunk is
    open. *)
Definition hunks_hold_all (st : scan) : Prop :=
  hunks st <> [] /\
  fold_right (fun h acc => length (content h) + acc)%nat 0%nat (hunks st)
  = (length (s_added st) + length (s_deleted st))%nat.

End DiffLines.

(* ===================================================================== *)
(** * change-analyzer.js: impact tags, testable files, test targets       *)
(* ===================================================================== *)

Module Impact.

Import ChangeAnalyzer.

Definition testableExtensions : list string :=
  [".js"; ".jsx"; ".ts"; ".tsx"; ".mjs"].

Definition excludePaths : list string :=
  ["node_modules"; "dist"; "build"; ".git"; "coverage"].

(** [isTestableFile(filename)]. *)
Definition isTestableFile (filename : string) : bool :=
  existsb (JS.endsWith filename) testableExtensions &&
  negb (existsb (JS.includes filename) excludePaths).

(** [[...new Set(xs)]]: the elements in the order of their first
    occurrence; [seen] holds what the set has already. *)
Fixpoint set_from (seen xs : list string) : list string :=
  match xs with
  | [] => []
  | x :: rest =>
      if existsb (String.eqb x) seen then set_from seen rest
      else x :: set_from (x :: seen) rest
  end.

Definition unique (xs : list string) : list string := set_from [] xs.

(** The callback of [Object.keys(functions).forEach] in the API branch. *)
Definition requestTags (f : string) : list string :=
  (if JS.includes f "get" then ["GET requests"] else []) ++
  (if JS.includes f "post" then ["POST requests"] else []) ++
  (if JS.includes f "put" || JS.includes f "update" then ["PUT requests"] else []) ++
  (if JS.includes f "delete" then ["DELETE requests"] else []).

(** The array [impacts] before the duplicates go; [names] is
    [Object.keys(functions)]. *)
Definition impacts (file : string) (names : list string) : list string :=
  (if JS.includes file "components/" || JS.includes file "pages/" then
     "UI rendering" ::
     (if existsb (fun f => JS.includes f "handle" || JS.includes f "on") names
      then ["User interactions"] else [])
   else []) ++
  (if JS.includes file "api/" || JS.includes file "services/" then
     "API endpoints" :: flat_map requestTags names
   else []) ++
  (if JS.includes file "store/" || JS.includes file "redux/"
      || JS.includes file "context/"
   then ["Application state"] else []) ++
  (if JS.includes file "routes" || JS.includes file "router"
   then ["Navigation"] else []).

(** [analyzeImpact(file, functions)]. *)
Definition analyzeImpact (file : string) (names : list string) : list string :=
  unique (impacts file names).

(** An entry of [changes.files]: [{ file, lines, functions, hunks, impact }],
    [functions] as the list [Object.entries] enumerates. *)
Record fileChange := FileChange {
  fc_file : string;
  fc_lines : lineChanges;
  fc_functions : list (string * string);
  fc_hunks : list hunk_out;
  fc_impact : list string
}.

Record testTargets := TestTargets {
  uiPaths : list string;
  apiEndpoints : list string;
  impactedAreas : list string;
  specificFunctions : list string
}.

(** The test targets [saveResults(changes)] writes; [files] is
    [Object.entries(changes.files)]. *)
Definition targetsOf (files : list (string * fileChange)) : testTargets :=
  TestTargets
    (unique (List.filter (fun file => JS.includes file "components/"
                                     || JS.includes file "pages/")
                         (map fst files)))
    (unique (List.filter (fun file => JS.includes file "api/"
                                     || JS.includes file "services/")
                         (map fst files)))
    (unique (flat_map (fun entry => fc_impact (snd entry)) files))
    (unique (flat_map (fun entry => map fst (fc_functions (snd entry))) files)).

(** An element of [diffSummary.files]; a binary file has no
    [insertions] and no [deletions]. *)
Record diffFile := DiffFile {
  df_file : string;
  df_insertions : option Z;
  df_deletions : option Z
}.

Record summary := Summary {
  sm_added : nat;
  sm_modified : nat;
  sm_deleted : nat;
  totalChanges : nat
}.

(** [n > 0] and [n === 0] on a count that may be [undefined]. *)
Definition positive (n : option Z) : bool :=
  match n with Some z => 0 <? z | None => false end.

Definition zero (n : option Z) : bool :=
  match n with Some z => z =? 0 | None => false end.

(** The counters one iteration of the loop of [detectCodeChanges]
    moves. *)
Definition countFile (sm : summary) (f : diffFile) : summary :=
  if negb (isTestableFile (df_file f)) then sm
  else if positive (df_insertions f) && zero (df_deletions f) then
    Summary (S (sm_added sm)) (sm_modified sm) (sm_deleted sm) (S (totalChanges sm))
  else if positive (df_deletions f) && zero (df_insertions f) then
    Summary (sm_added sm) (sm_modified sm) (S (sm_deleted sm)) (S (totalChanges sm))
  else
    Summary (sm_added sm) (S (sm_modified sm)) (sm_deleted sm) (S (totalChanges sm)).

(** [changes.summary] when the loop ends without an exception. *)
Definition summaryOf (files : list diffFile) : summary :=
  fold_left countFile files (Summary 0 0 0 0).

(** The tags [analyzeImpact] can give. *)
Definition allTags : list string :=
  [ "UI rendering"; "User interactions"; "API endpoints"; "GET requests";
    "POST requests"; "PUT requests"; "DELETE requests"; "Application state";
    "Navigation" ].

End Impact.

(* ===================================================================== *)
(** * self-healing-framework.js: [getHealingStats] and its callers        *)
(* ===================================================================== *)

Module HealingStats.

Import SelfHealingTest.

(** [attempt.strategy.toString()]: the numeral of the tier, or
    ['failed']. *)
Definition key (t : strategyTag) : string :=
  match t with
  | Tier n => Rules.decimal n
  | Failed => "failed"
  end.

(** What [getHealingStats()] returns, without [successRate], the text
    [toFixed(2)] makes of a floating-point quotient. *)
Record stats := Stats {
  total : nat;
  successful : nat;
  byStrategy : gmap string nat
}.

(** [byStrategy[key] = (byStrategy[key] || 0) + 1]. *)
Definition bump (counts : gmap string nat) (attempt : healingAttempt)
  : gmap string nat :=
  <[key (ha_strategy attempt) := (default 0 (counts !! key (ha_strategy attempt)) + 1)%nat]>
    counts.

(** [getHealingStats()] on the ledger [this.healingAttempts]. *)
Definition getHealingStats (ledger : list healingAttempt) : stats :=
  Stats (length ledger)
        (length (List.filter ha_success ledger))
        (fold_left bump ledger ∅).

(** The last lines of [TestRunner.executeAction]:
    [stats.total > 0 && stats.byStrategy['1'] !== stats.total]. *)
Definition healingUsed (st : stats) : bool :=
  (0 <? total st)%nat && negb (bool_decide (byStrategy st !! "1" = Some (total st))).

(** One call of [findElement] on the page as it is then, at a clock
    reading. *)
Record call := Call {
  c_page : page;
  c_now : Z;
  c_selectors : selectors;
  c_context : option locator
}.

(** A series of calls on one [SelfHealingTest]: the results, and the
    ledger at the end. *)
Fixpoint session (calls : list call) (ledger : list healingAttempt)
  : list (locator + error) * list healingAttempt :=
  match calls with
  | [] => ([], ledger)
  | c :: rest =>
      let '(result, ledger') :=
        findElement (c_page c) (c_now c) ledger (c_selectors c) (c_context c) in
      let '(results, ledger'') := session rest ledger' in
      (result :: results, ledger'')
  end.

(** The number of calls that returned an element. *)
Definition returned (results : list (locator + error)) : nat :=
  length (List.filter (fun r => match r with inl _ => true | inr _ => false end) results).

(** The number of attempts recorded under a key. *)
Definition recorded (k : string) (ledger : list healingAttempt) : nat :=
  length (List.filter (fun a => String.eqb (key (ha_strategy a)) k) ledger).

(** A record as [findElement] writes it: a tier from 1 to 6 with
    success, or ['failed'] without. *)
Definition well_formed (a : healingAttempt) : Prop :=
  (exists t, (1 <= t <= 6)%nat /\ ha_strategy a = Tier t /\ ha_success a = true) \/
  (ha_strategy a = Failed /\ ha_success a = false).

End HealingStats.

(* ===================================================================== *)
(** * self-healing-framework.js: [generateTests] and the API targets      *)
(* ===================================================================== *)

Module Generation.

Import ChangeAnalyzer ChangeAwareTestGenerator.

(** An element of [validations]: [{ status, hasData: true }] and the
    like, [{ status: 204 }], or [{ customValidation: 'auth-check' }]. *)
Record validation := Validation {
  v_status : option Z;
  v_flag : option string;
  customValidation : option string
}.

(** [line >= 10 && line <= 20]. *)
Definition auth_line (line : Z) : bool := (10 <=? line) && (line <=? 20).

(** [generateValidations(funcName, changes)]. *)
Definition generateValidations (funcName : string) (ch : changes) : list validation :=
  (if JS.includes funcName "get"
   then [Validation (Some 200) (Some "hasData") None] else []) ++
  (if JS.includes funcName "create" || JS.includes funcName "post"
   then [Validation (Some 201) (Some "hasId") None] else []) ++
  (if JS.includes funcName "update" || JS.includes funcName "put"
   then [Validation (Some 200) (Some "dataUpdated") None] else []) ++
  (if JS.includes funcName "delete"
   then [Validation (Some 204) None None] else []) ++
  (if existsb auth_line (modified (lines ch))
   then [Validation None None (Some "auth-check")] else []).

(** A target of type ['api']. *)
Record apiTest := APITest {
  at_name : string;
  at_file : string;
  at_function : string;
  at_endpoint : string;
  at_method : string;
  at_changeType : string;
  at_targetLines : list Z;
  at_validations : list validation
}.

(** The callback of [Object.entries(changes.functions).forEach] in
    [generateAPITests]. *)
Definition apiTestOf (file : string) (ch : changes) (entry : string * string)
  : list apiTest :=
  let '(funcName, changeType) := entry in
  if String.eqb changeType "deleted" then []
  else [APITest ("API Test: " +:+ funcName +:+ " in " +:+ file) file funcName
                (deriveEndpoint file funcName) (deriveHTTPMethod funcName)
                changeType (modified (lines ch))
                (generateValidations funcName ch)].

(** [generateAPITests(file, changes)]. *)
Definition generateAPITests (file : string) (ch : changes) : list apiTest :=
  flat_map (apiTestOf file ch) (functions ch).

(** An element of the array [generateTests] returns. *)
Inductive test :=
  | UI (t : testTarget)
  | API (t : apiTest).

(** The [type] field. *)
Definition test_type (t : test) : string :=
  match t with
  | UI t => target_type t
  | API _ => "api"
  end.

(** [t.type === type]. *)
Definition has_type (type : string) (t : test) : bool :=
  String.eqb (test_type t) type.

(** The entries of a function record that are not ['deleted']. *)
Definition live (ch : changes) : list (string * string) :=
  List.filter (fun entry => negb (String.eqb entry.2 "deleted")) (functions ch).

(** The number of tests of a type among the tests of a list. *)
Definition typed (type : string) (tests : list test) : nat :=
  length (List.filter (has_type type) tests).

(** Whether [generateUITests] adds the visual target. *)
Definition significant (ch : changes) : bool :=
  (10 <? length (modified (lines ch)))%nat
  || (10 <? length (added (lines ch)))%nat.

Definition ui_file (file : string) : bool :=
  JS.includes file "components/" || JS.includes file "pages/".

Definition api_file (file : string) : bool :=
  JS.includes file "api/" || JS.includes file "services/".

Section Tests.

Variable componentNameOf : string -> string.

(** The body of the loop of [generateTests] for one entry of
    [changeDetails.files]. *)
Definition testsOf (entry : string * changes) : list test :=
  let '(file, ch) := entry in
  (if JS.includes file "components/" || JS.includes file "pages/"
   then map UI (generateUITests componentNameOf file ch) else []) ++
  (if JS.includes file "api/" || JS.includes file "services/"
   then map API (generateAPITests file ch) else []).

(** [generateTests()] on [Object.entries(this.changeDetails.files)]. *)
Definition generateTests (files : list (string * changes)) : list test :=
  flat_map testsOf files.

End Tests.

End Generation.

(* ===================================================================== *)
(** * report-generator.js: [TestRunner] on the self-healing framework     *)
(* ===================================================================== *)

Module TestRunner.

Import SelfHealingTest HealingStats ChangeAwareTestGenerator.

(** The browser as one test meets it.  The runner awaits one interaction
    after the other: the [k]-th of them finds the page as [pageAt k] has
    it, at the clock reading [clock k]; when it is an operation on the
    page or on an element ([goto], [click], [fill], [waitFor],
    [waitForLoadState]), [performs k] tells whether it returns or
    throws. *)
Record browser := Browser {
  pageAt : nat -> page;
  clock : nat -> Z;
  performs : nat -> bool
}.

(** The [SelfHealingTest] of one test: the number of interactions so
    far, and [this.healingAttempts]. *)
Record state := State {
  tick : nat;
  ledger : list healingAttempt
}.

(** What an action throws: the error of [findElement], or the error of
    an operation of the browser. *)
Inductive exn :=
  | NotFound (s : selectors)
  | OperationFailed.

(** A step of the runner: it returns or throws, and leaves a state. *)
Definition M (A : Type) : Type := state -> (A + exn) * state.

Definition ret {A : Type} (a : A) : M A := fun st => (inl a, st).

Definition bind {A B : Type} (m : M A) (f : A -> M B) : M B :=
  fun st =>
    match m st with
    | (inl a, st') => f a st'
    | (inr e, st') => (inr e, st')
    end.

(** [try { await m } catch { }]. *)
Definition attempt {A : Type} (m : M A) : M unit :=
  fun st => (inl tt, (m st).2).

Section Browser.

Variable b : browser.

(** [await this.findElement(selectors)], without a context. *)
Definition find (s : selectors) : M locator :=
  fun st =>
    let '(r, l) :=
      findElement (pageAt b (tick st)) (clock b (tick st)) (ledger st) s None in
    (match r with
     | inl element => inl element
     | inr (ElementNotFound s') => inr (NotFound s')
     end,
     State (S (tick st)) l).

(** An operation of the browser. *)
Definition operate : M unit :=
  fun st =>
    (if performs b (tick st) then inl tt else inr OperationFailed,
     State (S (tick st)) (ledger st)).

(** [clickElement(selectors)]. *)
Definition clickElement (s : selectors) : M unit :=
  bind (find s) (fun _ => operate).

(** [typeInElement(selectors, text)]. *)
Definition typeInElement (s : selectors) (text_ : string) : M unit :=
  bind (find s) (fun _ => operate).

(** [waitForElement(selectors, options)]. *)
Definition waitForElement (s : selectors) : M locator :=
  bind (find s) (fun element => bind operate (fun _ => ret element)).

(** [{ css: '.error-message', text: 'error', role: 'alert' }]. *)
Definition errorSelectors : selectors :=
  Selectors None None (Some ".error-message") None (Some "error") None
            (Some "alert") None None None.

(** [{ text: 'Success', css: '.success-message', role: 'status' }]. *)
Definition successSelectors : selectors :=
  Selectors None None (Some ".success-message") None (Some "Success") None
            (Some "status") None None None.

(** [{ ...selectors, role: 'button', text: 'Submit' }]. *)
Definition submitSelectors (s : selectors) : selectors :=
  Selectors (testId s) (id s) (css s) (xpath s) (Some "Submit") (partialText s)
            (Some "button") (name s) (description s) (fallback s).

(** The [switch] of [executeAction]. *)
Definition perform (a : action) (s : selectors) : M unit :=
  if String.eqb (a_type a) "click" then
    bind (clickElement s) (fun _ =>
      if String.eqb (a_verify a) "response" then operate else ret tt)
  else if String.eqb (a_type a) "input" then
    bind (typeInElement s (default "test input" (truthy (a_value a)))) (fun _ =>
      if String.eqb (a_verify a) "validation"
      then attempt (waitForElement errorSelectors)
      else ret tt)
  else if String.eqb (a_type a) "submit" then
    bind (clickElement (submitSelectors s)) (fun _ =>
      if String.eqb (a_verify a) "success"
      then bind (waitForElement successSelectors) (fun _ => ret tt)
      else ret tt)
  else ret tt.

(** [executeAction(selfHealing, action, selectors)]: the [healingUsed]
    of its result. *)
Definition executeAction (a : action) (s : selectors) : M bool :=
  bind (perform a s) (fun _ st =>
    (inl (healingUsed (getHealingStats (ledger st))), st)).

(** An element of [testResult.actions]. *)
Record actionResult := ActionResult {
  ar_type : string;
  ar_success : bool;
  ar_healingUsed : option bool;
  ar_error : option exn
}.

(** [for (const action of test.actions) { try { ... } catch { ... } }]. *)
Fixpoint runActions (actions : list action) (s : selectors) (st : state)
  : list actionResult * state :=
  match actions with
  | [] => ([], st)
  | a :: rest =>
      let '(r, st') := executeAction a s st in
      let result :=
        match r with
        | inl used => ActionResult (a_type a) true (Some used) None
        | inr e => ActionResult (a_type a) false None (Some e)
        end in
      let '(results, st'') := runActions rest s st' in
      (result :: results, st'')
  end.

End Browser.

(** [this.results.healing]. *)
Record healing := Healing {
  attempts : nat;
  h_successful : nat;
  h_byStrategy : gmap string nat
}.

(** The merge of the statistics of one test into [this.results.healing]. *)
Definition mergeStats (h : healing) (st : stats) : healing :=
  Healing (attempts h + total st) (h_successful h + successful st)
          (map_fold (fun strategy count acc =>
                       <[strategy := (default 0 (acc !! strategy) + count)%nat]> acc)
                    (h_byStrategy h) (byStrategy st)).

(** An element of [this.results.ui]. *)
Record uiResult := UIResult {
  ur_name : string;
  ur_file : string;
  ur_actions : list actionResult;
  ur_success : bool;
  ur_error : option exn
}.

(** A target of type ['ui'], as far as the runner reads it. *)
Record uiTest := UiTest {
  ut_name : string;
  ut_file : string;
  ut_selectors : selectors;
  ut_actions : list action
}.

(** The body of the loop of [runUITests] for one test, on the page the
    browser opens for it: the navigation is the first interaction. *)
Definition runUITest (b : browser) (t : uiTest) (h : healing)
  : uiResult * healing * list healingAttempt :=
  if performs b 0 then
    let '(results, st) := runActions b (ut_actions t) (ut_selectors t) (State 1 []) in
    (UIResult (ut_name t) (ut_file t) results (forallb ar_success results) None,
     mergeStats h (getHealingStats (ledger st)),
     ledger st)
  else
    (UIResult (ut_name t) (ut_file t) [] false (Some OperationFailed), h, []).

(** [runUITests(tests)] with the one browser type of [this.browsers]:
    the results pushed on [this.results.ui], the healing summary, and
    the ledgers of the tests one after the other. *)
Fixpoint runUITests (tests : list (browser * uiTest)) (h : healing)
  : list uiResult * healing * list healingAttempt :=
  match tests with
  | [] => ([], h, [])
  | (b, t) :: rest =>
      let '(r, h', l) := runUITest b t h in
      let '(rs, h'', ls) := runUITests rest h' in
      (r :: rs, h'', l ++ ls)
  end.

(** The healing summary that stands for a ledger. *)
Definition healingOf (l : list healingAttempt) : healing :=
  Healing (length l) (length (List.filter ha_success l)) (fold_left bump l ∅).

(** A step keeps what the ledger holds, and when it throws the error of
    [findElement] the ledger holds a failed attempt. *)
Definition sound {A : Type} (m : M A) : Prop :=
  forall st,
    (exists new, ledger (m st).2 = ledger st ++ new) /\
    (forall s, (m st).1 = inr (NotFound s) ->
               exists a, In a (ledger (m st).2) /\ ha_strategy a = Failed).

(** An attempt that was not resolved at tier 1 is in the ledger. *)
Definition healed (l : list healingAttempt) : Prop :=
  exists a, In a l /\ ha_strategy a <> Tier 1.

End TestRunner.

(* ===================================================================== *)
(** * Browsers for the runner                                             *)
(* ===================================================================== *)

Module Runs.

Import SelfHealingTest ChangeAwareTestGenerator TestRunner.

(** A page on which the test id [x] matches one element and nothing
    else matches. *)
Definition pageWithId : page :=
  fun l => match l with
           | Locate sel => if String.eqb sel (byTestId "x") then Some 1%nat else Some 0%nat
           | _ => Some 0%nat
           end.

(** A browser whose page knows the class [.y] only during the first
    action and the test id [x] afterwards; every operation returns. *)
Definition browserLate : browser :=
  Browser (fun k => if (k <? 4)%nat then Scenarios.pageD else pageWithId)
          (fun k => Z.of_nat k) (fun _ => true).

(** A browser on whose page the test id [x] matches and no error
    message shows; every operation returns. *)
Definition browserValid : browser :=
  Browser (fun _ => pageWithId) (fun k => Z.of_nat k) (fun _ => true).

Definition click : action := Action "click" None "response".

Definition input : action := Action "input" (Some "test") "validation".

End Runs.

(* ===================================================================== *)
(** * self-healing-framework.js: [SelfHealingAPI.testEndpoint]            *)
(* ===================================================================== *)

Module Endpoints.

Import SelfHealingAPI.

(** An element of [changeLocations]. *)
Record changeLocation := ChangeLocation {
  cl_endpoint : string;
  httpMethod : string;
  modifiedLogic : option string
}.

(** The callback of [changeLocations.map]. *)
Definition testOf (change : changeLocation) : test :=
  Test (cl_endpoint change) (httpMethod change) (modifiedLogic change).

(** An element of the array [testEndpoint] returns: the value of
    [executeWithFallbacks], or the record of the [catch] block,
    [{ ...test, success: false, error: error.message, healed: false }]. *)
Inductive result :=
  | Returned (h : healed)
  | Caught (t : test) (success : bool) (err : error) (healed_ : bool).

(** The loop of [testEndpoint] from test number [i] on, with the
    endpoints requested, test by test; [fetch i] is the transport as it
    answers during test [i].  [None] stands for the [TypeError] of
    reading the [message] of an [undefined] error, which would leave the
    loop. *)
Fixpoint run (baseURL : string) (fetch : nat -> transport) (i : nat)
    (tests : list test) : option (list result * list (list string)) :=
  match tests with
  | [] => Some ([], [])
  | t :: rest =>
      let '(r, requests) := executeWithFallbacks baseURL (fetch i) t in
      match r with
      | inl h =>
          '(results, later) ← run baseURL fetch (S i) rest;
          Some (Returned h :: results, requests :: later)
      | inr (Some err) =>
          '(results, later) ← run baseURL fetch (S i) rest;
          Some (Caught t false err false :: results, requests :: later)
      | inr None => None
      end
  end.

(** [testEndpoint(config, changeLocations)]. *)
Definition testEndpoint (baseURL : string) (fetch : nat -> transport)
    (changeLocations : list changeLocation)
  : option (list result * list (list string)) :=
  run baseURL fetch 0 (map testOf changeLocations).

(** What a result and the requests sent for it say of its test, for the
    transport as it answers during that test.  A returned value is that
    of tier [healingStrategy]: the tiers up to it were requested, in
    order, every tier before it failed, and its own request was answered
    with the [ok] response the value is made from.  A caught error means
    that all five tiers were requested and failed, and it is the error of
    the last one. *)
Definition result_ok (baseURL : string) (fetch : transport)
    (t : test) (r : result) (requests : list string) : Prop :=
  match r with
  | Returned h =>
      h_test h = t /\ h_success h = true /\ (healingStrategy h < 5)%nat /\
      h_healed h = (0 <? healingStrategy h)%nat /\
      requests = take (S (healingStrategy h)) (strategies t) /\
      (forall j e, (j < healingStrategy h)%nat -> strategies t !! j = Some e ->
                   request_fails baseURL fetch (method t) e) /\
      exists e r,
        strategies t !! healingStrategy h = Some e /\
        fetch (baseURL +:+ e) (method t) = Resolves r /\ ok r = true /\
        h_result h = RequestResult (status r) (json r) (headers r)
  | Caught t' success err healed_ =>
      t' = t /\ success = false /\ healed_ = false /\
      requests = strategies t /\
      Forall (request_fails baseURL fetch (method t)) (strategies t) /\
      executeRequest baseURL fetch (strip_slash (endpoint t)) (method t) = inr err
  end.

End Endpoints.

(* ===================================================================== *)
(** * api-tester.js: the changes, their test cases and the summary        *)
(* ===================================================================== *)

Module APICases.

Import APITester.

(** The callback of the outer [forEach] of [getAPIChanges]: [data] is the
    entry of [changeDetails.files] for [file]. *)
Definition changesOf (entry : string * ChangeAwareTestGenerator.changes)
  : list change :=
  let '(file, data) := entry in
  if JS.includes file "api/" || JS.includes file "services/" then
    map (fun '(funcName, changeType) =>
           Change file funcName changeType (ChangeAwareTestGenerator.lines data)
                  (deriveEndpoint file funcName) (deriveHTTPMethod funcName))
        (ChangeAwareTestGenerator.functions data)
  else [].

(** [getAPIChanges()] on [Object.entries(this.changeDetails.files)]. *)
Definition getAPIChanges (files : list (string * ChangeAwareTestGenerator.changes))
  : list change :=
  flat_map changesOf files.

Definition authKeywords : list string :=
  ["auth"; "token"; "jwt"; "session"; "permission"; "role"].

(** [hasAuthChanges(change)]. *)
Definition hasAuthChanges (c : change) : bool :=
  existsb (fun keyword =>
             JS.includes (JS.toLowerCase (function_ c)) keyword
             || JS.includes (JS.toLowerCase (file c)) keyword)
          authKeywords.

(** A value of the test data: a string, a number by its literal, or a
    boolean. *)
Inductive literal :=
  | LStr (s : string)
  | LNum (decimal : string)
  | LBool (b : bool).

(** Assigning a property: a key the object has keeps its place and takes
    the new value, a new key goes last. *)
Fixpoint set_prop {V : Type} (o : list (string * V)) (key : string) (value : V)
  : list (string * V) :=
  match o with
  | [] => [(key, value)]
  | (k, v) :: rest =>
      if String.eqb k key then (k, value) :: rest
      else (k, v) :: set_prop rest key value
  end.

(** [o[key]] on own properties. *)
Fixpoint prop {V : Type} (o : list (string * V)) (key : string) : option V :=
  match o with
  | [] => None
  | (k, v) :: rest => if String.eqb k key then Some v else prop rest key
  end.

(** [{ ...a, ...b }]. *)
Definition spread {V : Type} (a b : list (string * V)) : list (string * V) :=
  fold_left (fun o '(k, v) => set_prop o k v) b a.

(** [baseData]; [timestamp] is [new Date().toISOString()]. *)
Definition baseData (timestamp : string) : list (string * literal) :=
  [ ("name", LStr "Test Item");
    ("description", LStr "Test Description");
    ("active", LBool true);
    ("timestamp", LStr timestamp) ].

(** [generateTestData(change)]. *)
Definition generateTestData (timestamp : string) (c : change)
  : list (string * literal) :=
  if JS.includes (function_ c) "user" || JS.includes (file c) "user" then
    spread [ ("username", LStr "testuser");
             ("email", LStr "test@example.com");
             ("password", LStr "Test123!") ]
           (baseData timestamp)
  else if JS.includes (function_ c) "product" || JS.includes (file c) "product" then
    spread [ ("name", LStr "Test Product");
             ("price", LNum "99.99");
             ("category", LStr "test");
             ("stock", LNum "100") ]
           (baseData timestamp)
  else baseData timestamp.

(** [s.replace(needle, replacement)] for a string pattern: the first
    occurrence. *)
Fixpoint replace_first (needle replacement s : string) : string :=
  match JS.strip_prefix needle s with
  | Some rest => replacement +:+ rest
  | None =>
      match s with
      | EmptyString => EmptyString
      | String c s' => String c (replace_first needle replacement s')
      end
  end.

(** A test case: [data] is [None] for [null] and for a missing property,
    [headers] is [None] when the case has no such property. *)
Record testCase := TestCase {
  tc_name : string;
  tc_data : option (list (string * literal));
  tc_endpoint : option string;
  tc_headers : option (list (string * string));
  expectedStatus : Z;
  validations : list string
}.

(** [generateTestCases(method, change)]; [stamp k] is the clock reading of
    the [k]-th call of [generateTestData]. *)
Definition generateTestCases (stamp : nat -> string) (method : string) (c : change)
  : list testCase :=
  (if String.eqb method "GET" then
     TestCase "Get resource" None None None 200 ["hasData"; "correctFormat"] ::
     (if JS.includes (function_ c) "Id" || JS.includes (endpoint c) ":id" then
        [ TestCase "Get by ID" None (Some (replace_first ":id" "1" (endpoint c)))
                   None 200 ["hasId"; "correctFormat"];
          TestCase "Get non-existent" None
                   (Some (replace_first ":id" "999999" (endpoint c)))
                   None 404 ["errorFormat"] ]
      else [])
   else if String.eqb method "POST" then
     [ TestCase "Create valid" (Some (generateTestData (stamp 0%nat) c)) None None
                201 ["hasId"; "dataMatches"];
       TestCase "Create invalid" (Some []) None None
                400 ["errorFormat"; "hasValidationErrors"] ]
   else if String.eqb method "PUT" || String.eqb method "PATCH" then
     [ TestCase "Update valid" (Some (generateTestData (stamp 0%nat) c))
                (Some (replace_first ":id" "1" (endpoint c))) None
                200 ["dataUpdated"];
       TestCase "Update non-existent" (Some (generateTestData (stamp 1%nat) c))
                (Some (replace_first ":id" "999999" (endpoint c))) None
                404 ["errorFormat"] ]
   else if String.eqb method "DELETE" then
     [ TestCase "Delete existing" None
                (Some (replace_first ":id" "1" (endpoint c))) None 204 [];
       TestCase "Delete non-existent" None
                (Some (replace_first ":id" "999999" (endpoint c))) None
                404 ["errorFormat"] ]
   else []) ++
  (if hasAuthChanges c
   then [TestCase "Unauthorized access" None None (Some []) 401 ["errorFormat"]]
   else []).

(** The [config] handed to [axios], without [validateStatus]. *)
Record request := Request {
  rq_method : string;
  rq_url : string;
  rq_headers : list (string * string);
  rq_data : option (list (string * literal))
}.

Definition standardHeaders : list (string * string) :=
  [("Content-Type", "application/json"); ("Accept", "application/json")].

(** [makeRequest(url, method, data, headers)], up to the call of
    [axios]: a missing [data] is [null], missing [headers] are [{}]; an
    object is truthy, the empty one too. *)
Definition makeRequest (url method : string)
    (data : option (list (string * literal)))
    (headers : option (list (string * string))) : request :=
  Request method url
          (spread standardHeaders (default [] headers))
          (match data with
           | Some d =>
               if existsb (String.eqb method) ["POST"; "PUT"; "PATCH"]
               then Some d else None
           | None => None
           end).

(** A value of JavaScript, as far as [runValidation] looks at it: of a
    number only whether it is truthy. *)
#[warnings="-register-all"]
Inductive value :=
  | Undefined
  | Null
  | Bool (b : bool)
  | Num (nonzero : bool)
  | Str (s : string)
  | Arr (items : list value)
  | Obj (fields : list (string * value)).

Definition truthy (v : value) : bool :=
  match v with
  | Undefined | Null => false
  | Bool b => b
  | Num nonzero => nonzero
  | Str s => negb (String.eqb s "")
  | Arr _ | Obj _ => true
  end.

(** [v != null]. *)
Definition nonnull (v : value) : bool :=
  match v with
  | Undefined | Null => false
  | _ => true
  end.

Fixpoint field (fields : list (string * value)) (key : string) : value :=
  match fields with
  | [] => Undefined
  | (k, v) :: rest => if String.eqb k key then v else field rest key
  end.

(** [v.key] for a truthy [v] and a key that no string, number, boolean
    or array has. *)
Definition get (v : value) (key : string) : value :=
  match v with
  | Obj fields => field fields key
  | _ => Undefined
  end.

(** [Object.keys(v).length] for a [v] that is not [null]. *)
Definition keys (v : value) : nat :=
  match v with
  | Obj fields => length fields
  | Arr items => length items
  | Str s => String.length s
  | _ => 0%nat
  end.

Definition isArray (v : value) : bool :=
  match v with
  | Arr _ => true
  | _ => false
  end.

(** [typeof v === 'object']. *)
Definition isObject (v : value) : bool :=
  match v with
  | Null | Arr _ | Obj _ => true
  | _ => false
  end.

(** [a && b]. *)
Definition and_then (a b : value) : value := if truthy a then b else a.

(** What [axios] resolves to. *)
Record response := Response {
  status : Z;
  data : value
}.

(** [validateDataFormat(data, change)]. *)
Definition validateDataFormat (d : value) (c : change) : bool :=
  if negb (truthy d) then false
  else match d with
       | Arr items =>
           match items with
           | [] => true
           | first :: _ => isObject first
           end
       | _ => isObject d
       end.

(** An element of [details]. *)
Record detail := Detail {
  validation : string;
  expected : option Z;
  actual : option Z;
  passed : value
}.

(** The labels of the [switch] of [runValidation]. *)
Definition validationLabels : list string :=
  ["hasData"; "hasId"; "correctFormat"; "errorFormat"; "dataMatches";
   "dataUpdated"; "hasValidationErrors"].

(** [runValidation(validation, response, change)]. *)
Definition runValidation (name : string) (r : response) (c : change) : detail :=
  let d := data r in
  if String.eqb name "hasData" then
    Detail "hasData" None None
           (Bool (nonnull d && (isArray d || (0 <? keys d)%nat)))
  else if String.eqb name "hasId" then
    Detail "hasId" None None
           (and_then d (Bool (nonnull (get d "id") || nonnull (get d "_id"))))
  else if String.eqb name "correctFormat" then
    Detail "correctFormat" None None (Bool (validateDataFormat d c))
  else if String.eqb name "errorFormat" then
    Detail "errorFormat" None None
           (and_then d (Bool (nonnull (get d "error") || nonnull (get d "message"))))
  else if String.eqb name "dataMatches" then
    Detail "dataMatches" None None (Bool (nonnull d))
  else if String.eqb name "dataUpdated" then
    Detail "dataUpdated" None None (and_then d (Bool (nonnull (get d "updatedAt"))))
  else if String.eqb name "hasValidationErrors" then
    Detail "hasValidationErrors" None None
           (and_then d (Bool (nonnull (get d "errors")
                              || nonnull (get d "validationErrors"))))
  else Detail name None None (Bool true).

(** [validateResponse(response, expectedStatus, validations, change)]:
    [results.success] and [results.details]. *)
Definition validateResponse (r : response) (expectedStatus_ : Z)
    (names : list string) (c : change) : bool * list detail :=
  fold_left
    (fun '(success_, details) name =>
       let result := runValidation name r c in
       (if negb (truthy (passed result)) then false else success_,
        details ++ [result]))
    names
    (if negb (status r =? expectedStatus_)
     then (false, [Detail "status" (Some expectedStatus_) (Some (status r)) (Bool false)])
     else (true, [Detail "status" None None (Bool true)])).

(** What [axios] does with a request: it resolves, whatever the status,
    or throws. *)
Inductive answer :=
  | Answers (r : response)
  | Fails (message : string).

(** An element of [results] in [executeEndpointTest], without the
    [duration]. *)
Record caseResult := CaseResult {
  cr_case : string;
  cr_success : bool;
  cr_status : option Z;
  cr_validations : list detail;
  cr_error : option string
}.

Section Server.

(** The server during the test of one endpoint: [server k request] is the
    answer to the request of case number [k]. *)
Variable server : nat -> request -> answer.

(** The body of the loop of [executeEndpointTest] for case number [k]. *)
Definition runCase (url method : string) (numbered : nat * testCase) (c : change)
  : caseResult :=
  let '(k, tc) := numbered in
  match server k (makeRequest url method (tc_data tc) (tc_headers tc)) with
  | Answers r =>
      let '(success_, details) :=
        validateResponse r (expectedStatus tc) (validations tc) c in
      CaseResult (tc_name tc) success_ (Some (status r)) details None
  | Fails message => CaseResult (tc_name tc) false None [] (Some message)
  end.

End Server.

(** The five methods that [deriveHTTPMethod] can give. *)
Definition verbs : list string := ["GET"; "POST"; "PUT"; "PATCH"; "DELETE"].

(** The cases with their numbers. *)
Definition numbered (stamp : nat -> string) (method : string) (c : change)
  : list (nat * testCase) :=
  imap pair (generateTestCases stamp method c).

(** [executeEndpointTest(endpoint, method, change)] of the class. *)
Definition execute (stamp : nat -> string) (server : nat -> request -> answer)
    (baseURL endpoint_ method_ : string) (c : change)
  : option (testRun caseResult) :=
  executeEndpointTest (numbered stamp) (runCase server) cr_success
                      baseURL endpoint_ method_ c.

(** The summary of [saveResults], without the time stamp and the
    [results] themselves: [r.healingUsed] is truthy for a version that is
    not the empty string. *)
Record summary := Summary {
  sm_total : nat;
  sm_passed : nat;
  sm_failed : nat;
  sm_healingUsed : nat
}.

Definition used_healing {testResult : Type} (r : endpointResult testResult) : bool :=
  match er_healingUsed r with
  | Some version_ => negb (String.eqb version_ "")
  | None => false
  end.

Definition saveResults {testResult : Type}
    (results : list (endpointResult testResult)) : summary :=
  Summary (length results)
          (length (List.filter er_success results))
          (length (List.filter (fun r => negb (er_success r)) results))
          (length (List.filter used_healing results)).

(** [runAPITests()] when [getAPIChanges()] is not empty: the results it
    returns and the summary it saves; [None] when there is no API change
    and the critical endpoints are tested instead, without a summary. *)
Definition runAPITests {testResult : Type}
    (exec : string -> string -> change -> option testResult)
    (files : list (string * ChangeAwareTestGenerator.changes))
  : option (list (endpointResult testResult) * summary) :=
  match getAPIChanges files with
  | [] => None
  | apiChanges =>
      let results := map (fun c => (testChangedEndpoint exec c).1) apiChanges in
      Some (results, saveResults results)
  end.

End APICases.

(* ===================================================================== *)
(** * change-analyzer.js: [fallbackAnalysis]                              *)
(* ===================================================================== *)

Module Fallback.

Import ChangeAnalyzer Impact.

(** [functions[name] = 'unknown'] on a record kept in the order of its
    keys; as in [obj_set], the key [__proto__] leaves no property. *)
Definition assign (functions : list (string * string)) (name value : string)
  : list (string * string) :=
  if String.eqb name "__proto__" then functions
  else APICases.set_prop functions name value.

(** The three visitors of [fallbackAnalysis]; [None] when the visitor
    throws, as that of a class method does at [path.parent.parent.id]. *)
Definition note (functions : list (string * string)) (n : node)
  : option (list (string * string)) :=
  match node_name n with
  | Named name => Some (assign functions name "unknown")
  | Skipped => Some functions
  | TypeError => None
  end.

(** The traversal from the object [functions] on. *)
Fixpoint notes (ast : list node) (functions : list (string * string))
  : option (list (string * string)) :=
  match ast with
  | [] => Some functions
  | n :: rest => functions' ← note functions n; notes rest functions'
  end.

(** [functions] after [traverse.default(ast, { ... })]; [None] when a
    visitor throws. *)
Definition functionsOf (ast : list node) : option (list (string * string)) :=
  notes ast [].

Record analysis := Analysis {
  an_files : list (string * fileChange);
  an_summary : summary
}.

Section Files.

(** What reading and parsing a file gives: the nodes in visiting order,
    [None] when [readFileSync] or the parser throws. *)
Variable parsed : string -> option (list node).

(** The body of [try { ... }] for one file: the object [functions],
    [None] when reading, parsing or a visitor throws. *)
Definition functionsIn (file : string) : option (list (string * string)) :=
  ast ← parsed file; functionsOf ast.

(** One iteration of the loop of [fallbackAnalysis]: after a throw the
    [catch] block logs, and the file is neither recorded nor counted. *)
Definition analyse (acc : analysis) (file : string) : analysis :=
  match functionsIn file with
  | Some functions =>
      Analysis
        (APICases.set_prop (an_files acc) file
           (FileChange file (LineChanges [] [] []) functions []
                       (analyzeImpact file (map fst functions))))
        (Summary (sm_added (an_summary acc)) (S (sm_modified (an_summary acc)))
                 (sm_deleted (an_summary acc)) (totalChanges (an_summary acc)))
  | None => acc
  end.

(** [fallbackAnalysis()] on the files the [glob] finds. *)
Definition fallbackAnalysis (files : list string) : analysis :=
  fold_left analyse files (Analysis [] (Summary 0 0 0 (length files))).

(** The files that are read and parsed and have no class method. *)
Definition readable (file : string) : bool :=
  match parsed file with
  | Some ast => negb (existsb throws ast)
  | None => false
  end.

End Files.

(** What an entry of the result looks like. *)
Definition good (entry : string * fileChange) : Prop :=
  fc_file entry.2 = entry.1 /\
  fc_lines entry.2 = LineChanges [] [] [] /\
  fc_hunks entry.2 = [] /\
  Forall (fun f : string * string => f.2 = "unknown") (fc_functions entry.2).

(** The entry of [changeDetails.files] as the generators read it. *)
Definition changesOfEntry (fc : fileChange) : ChangeAwareTestGenerator.changes :=
  ChangeAwareTestGenerator.Changes (fc_functions fc) (fc_lines fc).

End Fallback.

(* ===================================================================== *)
(** * report-generator.js: [TestRunner.detectCrossBoundaryChanges]        *)
(* ===================================================================== *)

Module CrossBoundary.

Record crossChange := CrossChange {
  cc_source : string;
  cc_target : string;
  cc_type : string;
  cc_path : string
}.

(** The body of the inner [forEach]. *)
Definition pairOf (sourceFile targetFile : string) : list crossChange :=
  if String.eqb sourceFile targetFile then []
  else
    (if JS.includes sourceFile "api/" && JS.includes targetFile "components/"
     then [CrossChange sourceFile targetFile "api-ui" "api->component"] else []) ++
    (if JS.includes sourceFile "store/" && JS.includes targetFile "components/"
     then [CrossChange sourceFile targetFile "state-ui" "state->component"] else []).

(** [detectCrossBoundaryChanges()]; [files] is
    [Object.keys(this.changeDetails.files)]. *)
Definition detectCrossBoundaryChanges (files : list string) : list crossChange :=
  flat_map (fun sourceFile => flat_map (pairOf sourceFile) files) files.

End CrossBoundary.

(* ===================================================================== *)
(** * Properties of the string primitives                                 *)
(* ===================================================================== *)

Import ChangeAnalyzer.

#[local] Arguments String.append !s1 s2 : simpl nomatch.
#[local] Arguments Ascii.eqb : simpl never.
#[local] Arguments JS.startsWith : simpl never.
#[local] Arguments header_match : simpl never.

Lemma append_empty_r (s : string) : s +:+ "" = s.
Proof. induction s as [|c s IH]; simpl; [done | by rewrite IH]. Qed.

Lemma append_assoc (s t u : string) : (s +:+ t) +:+ u = s +:+ (t +:+ u).
Proof. induction s as [|c s IH]; simpl; [done | by rewrite IH]. Qed.

Lemma rev_app (s t : string) : JS.rev (s +:+ t) = JS.rev t +:+ JS.rev s.
Proof.
  induction s as [|c s IH]; simpl.
  - by rewrite append_empty_r.
  - by rewrite IH, append_assoc.
Qed.

Lemma rev_involutive (s : string) : JS.rev (JS.rev s) = s.
Proof.
  induction s as [|c s IH]; simpl; [done|].
  by rewrite rev_app, IH.
Qed.

Lemma prefix_app (p s : string) : JS.is_prefix p (p +:+ s) = true.
Proof.
  induction p as [|c p IH]; simpl; [done|].
  by rewrite Ascii.eqb_refl.
Qed.

(** A string ends with what was appended to it. *)
Lemma endsWith_app (s t : string) : JS.endsWith (s +:+ t) t = true.
Proof. unfold JS.endsWith. rewrite rev_app. apply prefix_app. Qed.

(* ===================================================================== *)
(** * [APITester.pluralizeEndpoint]                                       *)
(* ===================================================================== *)

Lemma pluralizeEndpoint_ends_s (e : string) :
  JS.endsWith (APITester.pluralizeEndpoint e) "s" = true.
Proof.
  unfold APITester.pluralizeEndpoint.
  destruct (JS.endsWith e "y") eqn:Hy.
  - change "ies" with ("ie" +:+ "s"). rewrite <- append_assoc.
    apply endsWith_app.
  - destruct (JS.endsWith e "s") eqn:Hs; simpl; [done|].
    apply endsWith_app.
Qed.

Lemma endsWith_s_not_y (e : string) :
  JS.endsWith e "s" = true -> JS.endsWith e "y" = false.
Proof.
  unfold JS.endsWith. simpl. destruct (JS.rev e) as [|c r]; [done|].
  simpl. destruct (Ascii.eqb_spec "s" c) as [<-|]; [done|].
  by rewrite andb_false_l.
Qed.

(** A string that ends in [s] is returned as it is. *)
Lemma pluralizeEndpoint_fixed (e : string) :
  JS.endsWith e "s" = true -> APITester.pluralizeEndpoint e = e.
Proof.
  intros Hs. unfold APITester.pluralizeEndpoint.
  by rewrite (endsWith_s_not_y e Hs), Hs.
Qed.

(** C10.  [pluralizeEndpoint] is idempotent: its result always ends in
    [s], and pluralizing the result again returns it unchanged. *)
Theorem C10_pluralizeEndpoint_idempotent (e : string) :
  JS.endsWith (APITester.pluralizeEndpoint e) "s" = true /\
  APITester.pluralizeEndpoint (APITester.pluralizeEndpoint e)
  = APITester.pluralizeEndpoint e.
Proof.
  split; [apply pluralizeEndpoint_ends_s|].
  apply pluralizeEndpoint_fixed, pluralizeEndpoint_ends_s.
Qed.

(* ===================================================================== *)
(** * Endpoint and method derivation                                      *)
(* ===================================================================== *)

Section PathSegments.

Import ChangeAwareTestGenerator.

Lemma split_nonempty (sep : ascii) (s : string) : JS.split sep s <> [].
Proof.
  induction s as [|c s IH]; simpl; [done|].
  destruct (Ascii.eqb c sep); [done|]. by destruct (JS.split sep s).
Qed.

(** Splitting distributes over a separator. *)
Lemma split_app (sep : ascii) (a b : string) :
  JS.split sep (a +:+ String sep b) = JS.split sep a ++ JS.split sep b.
Proof.
  induction a as [|c a IH]; simpl.
  - by rewrite Ascii.eqb_refl.
  - destruct (Ascii.eqb c sep); [by rewrite IH|].
    rewrite IH. pose proof (split_nonempty sep a).
    by destruct (JS.split sep a).
Qed.

Lemma pop_app (l1 l2 : list string) : l2 <> [] -> JS.pop (l1 ++ l2) = JS.pop l2.
Proof.
  intros Hne. unfold JS.pop. induction l1 as [|x l1 IH]; [done|].
  simpl. destruct (l1 ++ l2) eqn:E; [|done].
  by apply app_eq_nil in E as [_ ?].
Qed.

(** What precedes a slash does not count for the last segment. *)
Lemma last_segment_app (a b : string) :
  Rules.last_segment (a +:+ String "/"%char b) = Rules.last_segment b.
Proof.
  unfold Rules.last_segment. rewrite split_app.
  apply pop_app, split_nonempty.
Qed.

Lemma strip_prefix_Some (p s r : string) :
  JS.strip_prefix p s = Some r -> s = p +:+ r.
Proof.
  revert s. induction p as [|a p IH]; intros [|b s]; simpl; try congruence.
  destruct (Ascii.eqb_spec a b) as [->|]; [|done].
  intros H. by rewrite (IH _ H).
Qed.

Lemma after_dir_Some (s r : string) :
  after_dir s = Some r ->
  exists dir, s = String "/"%char (dir +:+ String "/"%char r).
Proof.
  unfold after_dir. destruct (JS.strip_prefix "/api/" s) as [r'|] eqn:E.
  - intros [= ->]. apply strip_prefix_Some in E. by exists "api".
  - intros E'. apply strip_prefix_Some in E'. by exists "services".
Qed.

(** The directory pattern removes a prefix that ends with a slash. *)
Lemma strip_dir_match_Some (s r : string) :
  strip_dir_match s = Some r ->
  exists before, s = before +:+ String "/"%char r.
Proof.
  revert r. induction s as [|c s IH]; intros r; simpl; [done|].
  destruct (if dot c then strip_dir_match s else None) as [r'|] eqn:E.
  - intros [= ->]. destruct (dot c); [|done].
    destruct (IH _ E) as [before ->]. by exists (String c before).
  - intros H. apply after_dir_Some in H as [dir H].
    exists (String "/"%char dir). simpl. congruence.
Qed.

Lemma last_segment_strip_dir (file : string) :
  Rules.last_segment (strip_dir file) = Rules.last_segment file.
Proof.
  unfold strip_dir. destruct (strip_dir_match file) as [r|] eqn:E; [|done].
  apply strip_dir_match_Some in E as [before ->].
  by rewrite last_segment_app.
Qed.

Lemma split_no_slash (s : string) :
  JS.has_slash s = false -> JS.split "/"%char s = [s].
Proof.
  induction s as [|c s IH]; simpl; [done|].
  destruct (Ascii.eqb c "/"); simpl; [done|].
  intros H. by rewrite (IH H).
Qed.

Lemma split_single (s piece : string) :
  JS.split "/"%char s = [piece] -> JS.has_slash s = false.
Proof.
  revert piece. induction s as [|d s IH]; simpl; intros piece E; [done|].
  pose proof (split_nonempty "/"%char s) as Hne.
  destruct (Ascii.eqb d "/"); simpl.
  - by destruct (JS.split "/"%char s).
  - destruct (JS.split "/"%char s) as [|p' [|q' rest']]; try done.
    by eapply IH.
Qed.

Lemma pop_split_cons (c : ascii) (s : string) :
  JS.has_slash s = true ->
  JS.pop (JS.split "/"%char (String c s)) = JS.pop (JS.split "/"%char s).
Proof.
  intros H. simpl. pose proof (split_nonempty "/"%char s) as Hne.
  destruct (Ascii.eqb c "/").
  - unfold JS.pop. simpl. by destruct (JS.split "/"%char s).
  - destruct (JS.split "/"%char s) as [|piece [|q rest]] eqn:E; [done| |done].
    apply split_single in E. congruence.
Qed.

Lemma all_ext_no_slash (s : string) :
  JS.all_chars ext_char s = true -> JS.has_slash s = false.
Proof.
  induction s as [|c s IH]; simpl; [done|].
  unfold ext_char at 1. destruct (Ascii.eqb c "/"); simpl; [done|].
  intros [_ H]%andb_prop. by apply IH.
Qed.

Lemma has_slash_strip_ext (s : string) :
  JS.has_slash (strip_ext s) = JS.has_slash s.
Proof.
  induction s as [|c s IH]; simpl; [done|].
  destruct (Ascii.eqb_spec c ".") as [->|]; simpl; [|by rewrite IH].
  destruct (negb (String.eqb s "") && JS.all_chars ext_char s) eqn:E; simpl.
  - apply andb_prop in E as [_ E]. by rewrite (all_ext_no_slash _ E).
  - by rewrite IH.
Qed.

(** The extension pattern works inside the last segment. *)
Lemma last_segment_strip_ext (s : string) :
  Rules.last_segment (strip_ext s) = strip_ext (Rules.last_segment s).
Proof.
  unfold Rules.last_segment.
  induction s as [|c s IH]; [done|].
  destruct (JS.has_slash s) eqn:Hs.
  - rewrite (pop_split_cons c s Hs), <- IH.
    cbn [strip_ext].
    destruct (Ascii.eqb c "." && negb (String.eqb s "") && JS.all_chars ext_char s) eqn:E.
    + apply andb_prop in E as [_ E]. apply all_ext_no_slash in E. congruence.
    + apply pop_split_cons. by rewrite has_slash_strip_ext.
  - assert (JS.split "/"%char s = [s]) as Hsplit by by apply split_no_slash.
    cbn [strip_ext].
    destruct (Ascii.eqb c "." && negb (String.eqb s "") && JS.all_chars ext_char s) eqn:E.
    + apply andb_prop in E as [[Hc%Ascii.eqb_eq E1]%andb_prop E2]. subst c.
      simpl. rewrite Hsplit. unfold JS.pop. simpl.
      replace (Ascii.eqb "." "/") with false by done. simpl.
      by rewrite E1, E2.
    + simpl. rewrite !split_no_slash by (by rewrite ?has_slash_strip_ext).
      destruct (Ascii.eqb c "/") eqn:Ec.
      * apply Ascii.eqb_eq in Ec as ->. unfold JS.pop. simpl.
        replace (Ascii.eqb "/" ".") with false in E by done. simpl in E.
        unfold JS.pop in IH. rewrite Hsplit in IH.
        rewrite split_no_slash in IH by (by rewrite has_slash_strip_ext).
        by simpl in IH.
      * unfold JS.pop. simpl. by rewrite E.
Qed.

(** The resource is the last path segment without its extension,
    whatever directories precede it. *)
Lemma resource_last_segment (file : string) :
  resource file = strip_ext (Rules.last_segment file).
Proof.
  unfold resource. fold (Rules.last_segment (strip_ext (strip_dir file))).
  by rewrite last_segment_strip_ext, last_segment_strip_dir.
Qed.

End PathSegments.

Lemma method_rules_sound (funcName : string) :
  APITester.deriveHTTPMethod funcName
  = Rules.method_by_rules Rules.method_rules (JS.toLowerCase funcName).
Proof.
  unfold APITester.deriveHTTPMethod. cbn [Rules.method_by_rules Rules.method_rules existsb].
  set (has := JS.includes (JS.toLowerCase funcName)).
  rewrite !orb_false_r, <- !orb_assoc.
  repeat match goal with |- context [has ?k] => destruct (has k); simpl; try done end.
Qed.

Lemma generator_method_rules_sound (funcName : string) :
  ChangeAwareTestGenerator.deriveHTTPMethod funcName
  = Rules.method_by_rules Rules.generator_method_rules (JS.toLowerCase funcName).
Proof.
  unfold ChangeAwareTestGenerator.deriveHTTPMethod.
  cbn [Rules.method_by_rules Rules.generator_method_rules existsb].
  set (has := JS.includes (JS.toLowerCase funcName)).
  rewrite !orb_false_r.
  repeat match goal with |- context [has ?k] => destruct (has k); simpl; try done end.
Qed.

Lemma generator_endpoint_shape (file funcName : string) :
  ChangeAwareTestGenerator.deriveEndpoint file funcName
  = "/api/" +:+ ChangeAwareTestGenerator.strip_ext (Rules.last_segment file) +:+
    (if Rules.generator_wants_id funcName then "/:id" else "").
Proof.
  unfold ChangeAwareTestGenerator.deriveEndpoint, Rules.generator_wants_id.
  rewrite resource_last_segment.
  set (has := JS.includes funcName).
  repeat match goal with |- context [has ?k] => destruct (has k); simpl; try done end;
    by rewrite ?append_empty_r.
Qed.

(** C8, on the code of [ChangeAwareTestGenerator]: for the file
    [api/users.js] and the declaration [getUserById] the endpoint is
    [/api/users/:id], not [/users/:id]; and the declaration [addUser]
    gets the method GET, where the priority list of the specification gives
    POST. *)
Lemma C8_generator_counterexample :
  ChangeAwareTestGenerator.deriveEndpoint "api/users.js" "getUserById"
    = "/api/users/:id" /\
  ChangeAwareTestGenerator.deriveEndpoint "api/users.js" "getUserById"
    <> Rules.endpoint_of "api/users.js" "getUserById" /\
  ChangeAwareTestGenerator.deriveHTTPMethod "addUser" = "GET" /\
  Rules.method_by_rules Rules.method_rules (JS.toLowerCase "addUser") = "POST".
Proof. by vm_compute. Qed.

(** C8, as the code has it.  [APITester] derives the endpoint and the
    method as stated: a slash, the last path segment of the file without
    its extension (the directories, [api/] and [services/] among them,
    play no role), [/:id] appended when the name contains [Id] or [ById];
    the method by the first matching row of get/fetch/find, post/create/add,
    put/update, patch, delete/remove on the lower-cased name, GET by
    default; [api/users.js] with [getUserById] gives [/users/:id] and GET.
    [ChangeAwareTestGenerator] puts [/api/] in front of the same resource,
    appends [/:id] for a getter with [Id] and for an update, put or delete
    that is neither a getter nor a create or post, and its method table
    has neither [find] nor [add]. *)
Theorem C8_endpoint_and_method :
  (forall file funcName,
     APITester.deriveEndpoint file funcName = Rules.endpoint_of file funcName /\
     APITester.deriveHTTPMethod funcName
     = Rules.method_by_rules Rules.method_rules (JS.toLowerCase funcName)) /\
  (APITester.deriveEndpoint "api/users.js" "getUserById" = "/users/:id" /\
   APITester.deriveHTTPMethod "getUserById" = "GET") /\
  (forall file funcName,
     ChangeAwareTestGenerator.deriveEndpoint file funcName
     = "/api/" +:+ ChangeAwareTestGenerator.strip_ext (Rules.last_segment file) +:+
       (if Rules.generator_wants_id funcName then "/:id" else "") /\
     ChangeAwareTestGenerator.deriveHTTPMethod funcName
     = Rules.method_by_rules Rules.generator_method_rules (JS.toLowerCase funcName)).
Proof.
  split; [|split].
  - intros file funcName. split; [|apply method_rules_sound].
    unfold APITester.deriveEndpoint, Rules.endpoint_of.
    rewrite resource_last_segment.
    destruct (JS.includes funcName "Id" || JS.includes funcName "ById"); [done|].
    simpl. by rewrite append_empty_r.
  - by vm_compute.
  - intros file funcName. split.
    + apply generator_endpoint_shape.
    + apply generator_method_rules_sound.
Qed.

(* ===================================================================== *)
(** * The visual target of [generateUITests]                              *)
(* ===================================================================== *)

Section VisualTarget.

Import ChangeAnalyzer ChangeAwareTestGenerator.

Lemma js_min_from (xs : list Z) (a : Z) :
  exists m,
    fold_left (fun acc x => match acc with
                            | Fin b => Fin (Z.min b x)
                            | _ => Fin x
                            end) xs (Fin a) = Fin m /\
    (m = a \/ In m xs) /\ m <= a /\ forall x, In x xs -> m <= x.
Proof.
  revert a. induction xs as [|x xs IH]; intros a; simpl.
  - exists a. split_and!; [done | by left | lia | tauto].
  - destruct (IH (Z.min a x)) as (m & -> & Hin & Hle & Hall).
    exists m. split_and!; [done | | lia |].
    + destruct Hin as [->|?]; [|tauto].
      destruct (Z.min_spec a x) as [[_ ->]|[_ ->]]; tauto.
    + intros y [<-|Hy]; [lia | by apply Hall].
Qed.

Lemma js_max_from (xs : list Z) (a : Z) :
  exists m,
    fold_left (fun acc x => match acc with
                            | Fin b => Fin (Z.max b x)
                            | _ => Fin x
                            end) xs (Fin a) = Fin m /\
    (m = a \/ In m xs) /\ a <= m /\ forall x, In x xs -> x <= m.
Proof.
  revert a. induction xs as [|x xs IH]; intros a; simpl.
  - exists a. split_and!; [done | by left | lia | tauto].
  - destruct (IH (Z.max a x)) as (m & -> & Hin & Hle & Hall).
    exists m. split_and!; [done | | lia |].
    + destruct Hin as [->|?]; [|tauto].
      destruct (Z.max_spec a x) as [[_ ->]|[_ ->]]; tauto.
    + intros y [<-|Hy]; [lia | by apply Hall].
Qed.

(** [Math.min] of a non-empty list is its least element. *)
Lemma js_min_least (xs : list Z) :
  xs <> [] ->
  exists m, js_min xs = Fin m /\ In m xs /\ forall x, In x xs -> m <= x.
Proof.
  destruct xs as [|a xs]; [done|]. intros _. unfold js_min. simpl.
  destruct (js_min_from xs a) as (m & -> & Hin & Hle & Hall).
  exists m. split_and!; [done | simpl; destruct Hin; auto |].
  intros x [<-|Hx]; [lia | by apply Hall].
Qed.

(** [Math.max] of a non-empty list is its greatest element. *)
Lemma js_max_greatest (xs : list Z) :
  xs <> [] ->
  exists m, js_max xs = Fin m /\ In m xs /\ forall x, In x xs -> x <= m.
Proof.
  destruct xs as [|a xs]; [done|]. intros _. unfold js_max. simpl.
  destruct (js_max_from xs a) as (m & -> & Hin & Hle & Hall).
  exists m. split_and!; [done | simpl; destruct Hin; auto |].
  intros x [<-|Hx]; [lia | by apply Hall].
Qed.

Variable componentNameOf : string -> string.

(** The function entries give [ui] targets only. *)
Lemma ui_targets_not_visual (file : string) (ch : changes)
    (entries : list (string * string)) :
  List.filter is_visual (flat_map (uiTestOf componentNameOf file ch) entries) = [].
Proof.
  induction entries as [|[funcName changeType] entries IH]; [done|].
  simpl. by destruct (String.eqb changeType "deleted").
Qed.

(** C9, as the code has it.  Besides the [ui] targets, [generateUITests]
    emits one [visual] target when the [modified] list has more than ten
    lines or the [added] list has more than ten lines, each list counted
    on its own, and none otherwise.  Its area runs from the smallest to
    the largest line of the two lists together, and its scope is
    [component] when the largest exceeds the smallest by more than 50,
    [partial] otherwise. *)
Theorem C9_visual_target (file : string) (ch : changes) :
  let changed := modified (lines ch) ++ added (lines ch) in
  let visual := List.filter is_visual (generateUITests componentNameOf file ch) in
  ((10 < length (modified (lines ch)))%nat \/ (10 < length (added (lines ch)))%nat ->
   exists lo hi,
     visual = [VisualTest ("Visual Test: " +:+ file) file
                 (ImpactArea (Fin lo) (Fin hi)
                    (if 50 <? hi - lo then "component" else "partial"))
                 (1, 10)] /\
     In lo changed /\ In hi changed /\
     forall x, In x changed -> lo <= x <= hi) /\
  (~ ((10 < length (modified (lines ch)))%nat \/ (10 < length (added (lines ch)))%nat) ->
   visual = []).
Proof.
  intros changed visual. subst visual. unfold generateUITests.
  rewrite List.filter_app, ui_targets_not_visual. simpl.
  split.
  - intros Hmany.
    assert (changed <> []) as Hne.
    { subst changed. destruct (modified (lines ch)), (added (lines ch));
        simpl in *; try done. lia. }
    destruct (js_min_least changed Hne) as (lo & Hlo & Hlo_in & Hlo_le).
    destruct (js_max_greatest changed Hne) as (hi & Hhi & Hhi_in & Hhi_le).
    exists lo, hi. split_and!; try done.
    + replace ((10 <? length (modified (lines ch)))%nat
               || (10 <? length (added (lines ch)))%nat) with true.
      * simpl. unfold calculateUIImpactArea. fold changed.
        by rewrite Hlo, Hhi.
      * symmetry. apply orb_true_iff.
        destruct Hmany; [left | right]; by apply Nat.ltb_lt.
    + intros x Hx. split; auto.
  - intros Hfew.
    replace ((10 <? length (modified (lines ch)))%nat
             || (10 <? length (added (lines ch)))%nat) with false; [done|].
    symmetry. apply orb_false_iff. split; apply Nat.ltb_ge; lia.
Qed.

End VisualTarget.

(** C9, as stated.  A file with six modified and six added lines has
    twelve modified-or-added lines, more than ten, and gets no visual
    target.  A file with eleven modified lines from 1 to 11 and a deleted
    line at 100 has changed lines from 1 to 100, a span of more than 50,
    and its visual target has the scope [partial]. *)
Lemma C9_counterexample :
  (10 < length (modified (ChangeAwareTestGenerator.lines Scenarios.sixAndSix)
                ++ added (ChangeAwareTestGenerator.lines Scenarios.sixAndSix)))%nat /\
  List.filter ChangeAwareTestGenerator.is_visual
    (ChangeAwareTestGenerator.generateUITests (fun file => file)
       "components/Button.js" Scenarios.sixAndSix) = [] /\
  In 1 (allLines (ChangeAwareTestGenerator.lines Scenarios.elevenAndFar)) /\
  In 100 (allLines (ChangeAwareTestGenerator.lines Scenarios.elevenAndFar)) /\
  List.filter ChangeAwareTestGenerator.is_visual
    (ChangeAwareTestGenerator.generateUITests (fun file => file)
       "components/Button.js" Scenarios.elevenAndFar)
  = [ChangeAwareTestGenerator.VisualTest
       "Visual Test: components/Button.js" "components/Button.js"
       (ChangeAwareTestGenerator.ImpactArea
          (ChangeAwareTestGenerator.Fin 1) (ChangeAwareTestGenerator.Fin 11) "partial")
       (1, 10)].
Proof.
  split_and!; [simpl; lia | reflexivity | by left | simpl; tauto | reflexivity].
Qed.

(** A concrete instance of [C9_visual_target]: eleven modified lines
    spread over more than fifty lines. *)
Lemma C9_visual_target_witness :
  exists lo hi,
    List.filter ChangeAwareTestGenerator.is_visual
      (ChangeAwareTestGenerator.generateUITests (fun file => file)
         "components/Button.js"
         (ChangeAwareTestGenerator.Changes []
            (LineChanges [] [] [1; 2; 3; 4; 5; 6; 7; 8; 9; 10; 70])))
    = [ChangeAwareTestGenerator.VisualTest
         "Visual Test: components/Button.js" "components/Button.js"
         (ChangeAwareTestGenerator.ImpactArea
            (ChangeAwareTestGenerator.Fin lo) (ChangeAwareTestGenerator.Fin hi)
            (if 50 <? hi - lo then "component" else "partial"))
         (1, 10)] /\
    In lo ([1; 2; 3; 4; 5; 6; 7; 8; 9; 10; 70] ++ []) /\
    In hi ([1; 2; 3; 4; 5; 6; 7; 8; 9; 10; 70] ++ []) /\
    forall x, In x ([1; 2; 3; 4; 5; 6; 7; 8; 9; 10; 70] ++ []) -> lo <= x <= hi.
Proof.
  apply (proj1 (C9_visual_target (fun file => file) "components/Button.js"
    (ChangeAwareTestGenerator.Changes []
       (LineChanges [] [] [1; 2; 3; 4; 5; 6; 7; 8; 9; 10; 70])))).
  left. simpl. lia.
Defined.

(* ===================================================================== *)
(** * [SelfHealingTest.findElement]                                       *)
(* ===================================================================== *)

Section FindElement.

Import SelfHealingTest.

Variable count : page.

(** [resolve] stops at the first strategy of the list whose [try] body
    returns, and reports its number. *)
Lemma resolve_Some (strats : list (outcome (option locator))) (i : nat)
    (element : locator) (tier : nat) :
  resolve count strats i = Some (element, tier) ->
  exists k strategy,
    strats !! k = Some strategy /\
    try_strategy count strategy = Some element /\
    tier = S (i + k) /\
    forall j earlier, (j < k)%nat -> strats !! j = Some earlier ->
                      try_strategy count earlier = None.
Proof.
  revert i. induction strats as [|strategy strats IH]; intros i; simpl; [done|].
  destruct (try_strategy count strategy) as [el|] eqn:Htry.
  - intros [= -> <-]. exists 0%nat, strategy.
    split_and!; [done | done | f_equal; lia | intros; lia].
  - intros (k & st & Hk & Hst & -> & Hearlier)%IH.
    exists (S k), st. split_and!; [done | done | lia |].
    intros [|j] earlier Hj; simpl.
    + by intros [= <-].
    + apply Hearlier. lia.
Qed.

Lemma resolve_None (strats : list (outcome (option locator))) (i : nat) :
  resolve count strats i = None ->
  Forall (fun strategy => try_strategy count strategy = None) strats.
Proof.
  revert i. induction strats as [|strategy strats IH]; intros i; simpl; [done|].
  destruct (try_strategy count strategy) eqn:Htry; [done|].
  intros H. constructor; [done | by eapply IH].
Qed.

(** What a strategy hands over has one match at least. *)
Lemma try_strategy_counts (strategy : outcome (option locator)) (element : locator) :
  try_strategy count strategy = Some element ->
  strategy = Returns (Some element) /\
  exists c, count element = Some c /\ (1 <= c)%nat.
Proof.
  destruct strategy as [[el|]|]; simpl; try done.
  destruct (count el) as [c|] eqn:Hc; [|done].
  destruct (0 <? c)%nat eqn:Hpos; [|done].
  intros [= ->]. split; [done|]. exists c. split; [done|].
  by apply Nat.ltb_lt in Hpos.
Qed.

(** The last tier hands over a candidate with exactly one match. *)
Lemma first_unique_counts (attempts : list locator) (element : locator) :
  first_unique count attempts = Returns (Some element) ->
  count element = Some 1%nat.
Proof.
  induction attempts as [|attempt rest IH]; simpl; [done|].
  destruct (count attempt) as [c|] eqn:Hc; [|done].
  destruct (Nat.eqb_spec c 1) as [->|]; [|done].
  by intros [= <-].
Qed.

Lemma tier6_counts (s : selectors) (element : locator) :
  tier6 count s = Returns (Some element) -> count element = Some 1%nat.
Proof.
  unfold tier6. destruct (truthy (description s)); [|done].
  apply first_unique_counts.
Qed.

(** The array has six strategies. *)
Lemma strategies_length (s : selectors) (context : option locator) :
  length (strategies count s context) = 6%nat.
Proof. reflexivity. Qed.

(** Every call appends one record, and the record agrees with the
    result: the number of the first strategy that succeeded, or
    ['failed'] with the error that carries the descriptor. *)
Lemma findElement_ledger (now : Z) (ledger : list healingAttempt)
    (s : selectors) (context : option locator) :
  (exists element tier strategy,
     findElement count now ledger s context
     = (inl element, ledger ++ [HealingAttempt s (Tier tier) true now]) /\
     (1 <= tier <= 6)%nat /\
     strategies count s context !! (tier - 1)%nat = Some strategy /\
     try_strategy count strategy = Some element /\
     forall j earlier, (j < tier - 1)%nat ->
       strategies count s context !! j = Some earlier ->
       try_strategy count earlier = None) \/
  (findElement count now ledger s context
   = (inr (ElementNotFound s), ledger ++ [HealingAttempt s Failed false now]) /\
   Forall (fun strategy => try_strategy count strategy = None)
          (strategies count s context)).
Proof.
  unfold findElement.
  destruct (resolve count (strategies count s context) 0) as [[element tier]|] eqn:E.
  - left. apply resolve_Some in E as (k & strategy & Hk & Htry & -> & Hearlier).
    assert (k < 6)%nat.
    { rewrite <- (strategies_length s context). by eapply lookup_lt_Some. }
    exists element, (S (0 + k)), strategy.
    replace (S (0 + k) - 1)%nat with k by lia.
    split_and!; [done | lia | lia | done | done | done].
  - right. split; [done|]. by eapply resolve_None.
Qed.

(** Scenario D on any page where the test id matches nothing and the CSS
    selector matches one element. *)
Lemma findElement_scenario_D (now : Z) (ledger : list healingAttempt) :
  count (Locate (byTestId "x")) = Some 0%nat ->
  count (Locate ".y") = Some 1%nat ->
  findElement count now ledger Scenarios.descriptorD None
  = (inl (Locate ".y"),
     ledger ++ [HealingAttempt Scenarios.descriptorD (Tier 2) true now]).
Proof.
  intros Hx Hy. unfold findElement.
  cbn [strategies resolve try_strategy tier1 tier2 truthy Scenarios.descriptorD
       testId css String.eqb Ascii.eqb Bool.eqb].
  rewrite Hx. cbn [Nat.ltb Nat.leb]. by rewrite Hy.
Qed.

End FindElement.

(** C5.  Every call of [findElement] appends exactly one record to the
    ledger.  When a tier succeeds the record is
    [{selectors, strategy: tier, success: true, timestamp}] with the
    number (1 to 6) of the first tier that succeeded, and the element of
    that tier is returned; when all tiers fail the record is
    [{selectors, strategy: 'failed', success: false, timestamp}] and the
    call fails with the error that carries the descriptor.  For the
    descriptor [{testId: "x", css: ".y"}], when the test id matches
    nothing and [.y] matches one element, the call succeeds at tier 2 and
    the record has tier 2 and success. *)
Theorem C5_ledger_record :
  (forall count now ledger s context,
     (exists element tier strategy,
        SelfHealingTest.findElement count now ledger s context
        = (inl element,
           ledger ++ [SelfHealingTest.HealingAttempt s (SelfHealingTest.Tier tier) true now]) /\
        (1 <= tier <= 6)%nat /\
        SelfHealingTest.strategies count s context !! (tier - 1)%nat = Some strategy /\
        SelfHealingTest.try_strategy count strategy = Some element /\
        forall j earlier, (j < tier - 1)%nat ->
          SelfHealingTest.strategies count s context !! j = Some earlier ->
          SelfHealingTest.try_strategy count earlier = None) \/
     (SelfHealingTest.findElement count now ledger s context
      = (inr (SelfHealingTest.ElementNotFound s),
         ledger ++ [SelfHealingTest.HealingAttempt s SelfHealingTest.Failed false now]) /\
      Forall (fun strategy => SelfHealingTest.try_strategy count strategy = None)
             (SelfHealingTest.strategies count s context))) /\
  (forall count now ledger,
     count (SelfHealingTest.Locate (SelfHealingTest.byTestId "x")) = Some 0%nat ->
     count (SelfHealingTest.Locate ".y") = Some 1%nat ->
     SelfHealingTest.findElement count now ledger Scenarios.descriptorD None
     = (inl (SelfHealingTest.Locate ".y"),
        ledger ++ [SelfHealingTest.HealingAttempt Scenarios.descriptorD
                     (SelfHealingTest.Tier 2) true now])).
Proof.
  split.
  - intros. apply findElement_ledger.
  - intros. by apply findElement_scenario_D.
Qed.

(** Scenario D on the page [Scenarios.pageD]. *)
Lemma C5_ledger_record_witness :
  SelfHealingTest.findElement Scenarios.pageD 1700000000000 [] Scenarios.descriptorD None
  = (inl (SelfHealingTest.Locate ".y"),
     [] ++ [SelfHealingTest.HealingAttempt Scenarios.descriptorD
              (SelfHealingTest.Tier 2) true 1700000000000]).
Proof.
  apply (proj2 C5_ledger_record Scenarios.pageD 1700000000000 []); reflexivity.
Defined.

(** C4, as stated: on a page where [.y] matches two elements and the
    XPath [//z] matches one, the descriptor [{css: ".y", xpath: "//z"}]
    resolves at tier 2 to the locator with two matches; tier 3 is not
    tried. *)
Lemma C4_counterexample :
  SelfHealingTest.findElement Scenarios.pageTwo 0 [] Scenarios.descriptorTwo None
  = (inl (SelfHealingTest.Locate ".y"),
     [SelfHealingTest.HealingAttempt Scenarios.descriptorTwo
        (SelfHealingTest.Tier 2) true 0]) /\
  Scenarios.pageTwo (SelfHealingTest.Locate ".y") = Some 2%nat /\
  Scenarios.pageTwo (SelfHealingTest.Locate "xpath=//z") = Some 1%nat.
Proof. by vm_compute. Qed.

(** C4, as the code has it.  [findElement] returns an element exactly
    when some tier hands over a locator with one match or more, and the
    element is that of the first such tier, in order: an earlier tier
    that hands over a locator is skipped because the count throws or is
    0, never because it is above 1.  The ledger gets the number of that
    tier.  Only tier 6 holds its candidates to exactly one match. *)
Theorem C4_returned_match_count
    (count : SelfHealingTest.page) (now : Z)
    (ledger : list SelfHealingTest.healingAttempt)
    (s : SelfHealingTest.selectors) (context : option SelfHealingTest.locator) :
  (forall element ledger',
     SelfHealingTest.findElement count now ledger s context = (inl element, ledger')
     <->
     exists k c,
       SelfHealingTest.strategies count s context !! k
       = Some (SelfHealingTest.Returns (Some element)) /\
       count element = Some c /\ (1 <= c)%nat /\
       (forall j earlier, (j < k)%nat ->
          SelfHealingTest.strategies count s context !! j
          = Some (SelfHealingTest.Returns (Some earlier)) ->
          count earlier = None \/ count earlier = Some 0%nat) /\
       ledger' = ledger ++ [SelfHealingTest.HealingAttempt s
                              (SelfHealingTest.Tier (S k)) true now]) /\
  (forall element,
     SelfHealingTest.strategies count s context !! 5%nat
     = Some (SelfHealingTest.Returns (Some element)) ->
     count element = Some 1%nat).
Proof.
  split.
  - intros element ledger'. split.
    + intros Hfind.
      destruct (findElement_ledger count now ledger s context)
        as [(el & tier & strategy & Heq & Hrange & Hk & Htry & Hearlier)|[Heq _]];
        rewrite Heq in Hfind; [|done].
      injection Hfind as -> <-.
      apply try_strategy_counts in Htry as [-> (c & Hc & Hpos)].
      exists (tier - 1)%nat, c. split_and!; try done.
      * intros j earlier Hj Hlookup.
        specialize (Hearlier j _ Hj Hlookup). simpl in Hearlier.
        destruct (count earlier) as [[|c']|]; [by right | done | by left].
      * by replace (S (tier - 1)) with tier by lia.
    + intros (k & c & Hk & Hc & Hpos & Hearlier & ->).
      destruct (findElement_ledger count now ledger s context)
        as [(el & tier & strategy & Heq & Hrange & Hk' & Htry & Hearlier')
           |[Heq Hnone]].
      * apply try_strategy_counts in Htry as [-> (c' & Hc' & Hpos')].
        destruct (Nat.lt_trichotomy (tier - 1) k) as [Hlt|[Heq'|Hgt]].
        -- destruct (Hearlier _ _ Hlt Hk') as [Hno|Hno]; rewrite Hno in Hc'.
           ++ done.
           ++ injection Hc' as <-. lia.
        -- subst k. rewrite Hk in Hk'. injection Hk' as ->.
           rewrite Heq. by replace (S (tier - 1)) with tier by lia.
        -- specialize (Hearlier' _ _ Hgt Hk). simpl in Hearlier'.
           rewrite Hc in Hearlier'. destruct c; [lia | done].
      * exfalso. rewrite Forall_forall in Hnone.
        apply list_elem_of_lookup_2, Hnone in Hk. simpl in Hk.
        rewrite Hc in Hk. destruct c; [lia | done].
  - intros element [= Hk]. by apply (tier6_counts count s).
Qed.

(** [C4_returned_match_count] on the page with two matches for [.y]:
    tier 2 answers with the two matches, after tier 1 without a hint. *)
Lemma C4_returned_match_count_witness :
  SelfHealingTest.findElement Scenarios.pageTwo 0 [] Scenarios.descriptorTwo None
  = (inl (SelfHealingTest.Locate ".y"),
     [] ++ [SelfHealingTest.HealingAttempt Scenarios.descriptorTwo
              (SelfHealingTest.Tier 2) true 0]).
Proof.
  apply (proj1 (C4_returned_match_count Scenarios.pageTwo 0 []
                  Scenarios.descriptorTwo None)).
  exists 1%nat, 2%nat. split_and!; [reflexivity | reflexivity | lia | | reflexivity].
  intros [|j] earlier Hj; [discriminate | lia].
Defined.

(* ===================================================================== *)
(** * [SelfHealingAPI.executeWithFallbacks]                               *)
(* ===================================================================== *)

Section Fallbacks.

Import SelfHealingAPI.

Variable baseURL : string.
Variable fetch : transport.
Variable t : test.

Lemma executeRequest_inl (e : string) (result : requestResult) :
  executeRequest baseURL fetch e (method t) = inl result <->
  exists r, fetch (baseURL +:+ e) (method t) = Resolves r /\ ok r = true /\
            result = RequestResult (status r) (json r) (headers r).
Proof.
  unfold executeRequest.
  destruct (fetch (baseURL +:+ e) (method t)) as [r|reason].
  - destruct (ok r) eqn:Hok; simpl; split.
    + intros [= <-]. by exists r.
    + by intros (r' & [= <-] & _ & ->).
    + done.
    + intros (r' & [= <-] & Hok' & _). congruence.
  - split; [done|]. by intros (r & ? & _).
Qed.

Lemma executeRequest_inr (e : string) :
  request_fails baseURL fetch (method t) e <->
  exists err, executeRequest baseURL fetch e (method t) = inr err.
Proof.
  unfold request_fails, executeRequest.
  destruct (fetch (baseURL +:+ e) (method t)) as [r|reason].
  - destruct (ok r); simpl; split; try done.
    + by intros [err ?].
    + intros _. by eexists.
  - split; [|done]. intros _. by eexists.
Qed.

(** The loop stops at the first endpoint whose request resolves with an
    [ok] response; otherwise it requests every endpoint and ends with
    the error of the last one. *)
Lemma fallbacks_spec (strats : list string) (i : nat) (lastError : option error)
    (requests : list string) :
  (exists k e r,
     strats !! k = Some e /\
     fetch (baseURL +:+ e) (method t) = Resolves r /\ ok r = true /\
     (forall j e', (j < k)%nat -> strats !! j = Some e' ->
                   request_fails baseURL fetch (method t) e') /\
     fallbacks baseURL fetch t strats i lastError requests
     = (inl (Healed t (RequestResult (status r) (json r) (headers r)) true
                    (i + k) (0 <? i + k)%nat),
        requests ++ take (S k) strats)) \/
  (Forall (request_fails baseURL fetch (method t)) strats /\
   exists err,
     fallbacks baseURL fetch t strats i lastError requests
     = (inr err, requests ++ strats) /\
     match last strats with
     | Some e => exists err', err = Some err' /\
                              executeRequest baseURL fetch e (method t) = inr err'
     | None => err = lastError
     end).
Proof.
  revert i lastError requests.
  induction strats as [|e strats IH]; intros i lastError requests.
  - right. split; [done|]. exists lastError. simpl. by rewrite app_nil_r.
  - simpl. destruct (executeRequest baseURL fetch e (method t)) as [result|err] eqn:E.
    + left. apply executeRequest_inl in E as (r & Hr & Hok & ->).
      exists 0%nat, e, r. rewrite Nat.add_0_r, take_0.
      split_and!; try done. intros; lia.
    + assert (request_fails baseURL fetch (method t) e) as Hfail.
      { apply executeRequest_inr. by exists err. }
      destruct (IH (S i) (Some err) (requests ++ [e]))
        as [(k & e' & r & Hk & Hr & Hok & Hearlier & ->)
           |(Hall & err' & -> & Hlast)].
      * left. exists (S k), e', r. split_and!; try done.
        -- intros [|j] e'' Hj; simpl; [by intros [= <-]|].
           apply Hearlier. lia.
        -- rewrite <- app_assoc. simpl.
           by replace (i + S k)%nat with (S i + k)%nat by lia.
      * right. split; [by constructor|]. exists err'.
        split; [by rewrite <- app_assoc|].
        destruct strats as [|e2 strats]; simpl in *.
        -- exists err. by subst.
        -- rewrite last_cons. rewrite last_cons in Hlast.
           by destruct (last strats).
Qed.

End Fallbacks.

(** The error [executeRequest] raises for a response that is not [ok]
    names its status. *)
Lemma executeRequest_not_ok (baseURL : string) (fetch : SelfHealingAPI.transport)
    (e m : string) (r : SelfHealingAPI.response) :
  fetch (baseURL +:+ e) m = SelfHealingAPI.Resolves r ->
  SelfHealingAPI.ok r = false ->
  SelfHealingAPI.executeRequest baseURL fetch e m
  = inr (SelfHealingAPI.RequestFailed m e (SelfHealingAPI.status r)).
Proof. intros Hr Hok. unfold SelfHealingAPI.executeRequest. by rewrite Hr, Hok. Qed.

(** C6, as stated: the exact path answers 404, a response that is not a
    network error, and is not accepted; the resolver goes on to [/v1]. *)
Lemma C6_counterexample :
  Scenarios.transportV1 ("http://localhost:3000" +:+ "/users") "GET"
  = SelfHealingAPI.Resolves Scenarios.notFound /\
  SelfHealingAPI.executeWithFallbacks "http://localhost:3000"
    Scenarios.transportV1 Scenarios.getUsers
  = (inl (SelfHealingAPI.Healed Scenarios.getUsers
            (SelfHealingAPI.RequestResult 200 (Some "[]") []) true 1 true),
     ["/users"; "/v1/users"]).
Proof. by vm_compute. Qed.

(** C6, as the code has it.  The first tier whose request resolves with
    an [ok] response is accepted, with the status, body and headers of
    that response; a response that is not [ok] makes its tier fail, as a
    rejected request does, and is never the accepted one; when every tier
    fails the call throws the error of the last tier, the request without
    the trailing slash. *)
Theorem C6_first_ok_response
    (baseURL : string) (fetch : SelfHealingAPI.transport) (t : SelfHealingAPI.test) :
  (forall k e r,
     SelfHealingAPI.strategies t !! k = Some e ->
     (forall j e', (j < k)%nat -> SelfHealingAPI.strategies t !! j = Some e' ->
        SelfHealingAPI.request_fails baseURL fetch (SelfHealingAPI.method t) e') ->
     fetch (baseURL +:+ e) (SelfHealingAPI.method t) = SelfHealingAPI.Resolves r ->
     SelfHealingAPI.ok r = true ->
     (SelfHealingAPI.executeWithFallbacks baseURL fetch t).1
     = inl (SelfHealingAPI.Healed t
              (SelfHealingAPI.RequestResult (SelfHealingAPI.status r)
                 (SelfHealingAPI.json r) (SelfHealingAPI.headers r))
              true k (0 <? k)%nat)) /\
  (forall k e r h,
     SelfHealingAPI.strategies t !! k = Some e ->
     fetch (baseURL +:+ e) (SelfHealingAPI.method t) = SelfHealingAPI.Resolves r ->
     SelfHealingAPI.ok r = false ->
     (SelfHealingAPI.executeWithFallbacks baseURL fetch t).1 = inl h ->
     SelfHealingAPI.healingStrategy h <> k) /\
  (Forall (SelfHealingAPI.request_fails baseURL fetch (SelfHealingAPI.method t))
          (SelfHealingAPI.strategies t) ->
   exists err,
     SelfHealingAPI.executeRequest baseURL fetch
       (SelfHealingAPI.strip_slash (SelfHealingAPI.endpoint t)) (SelfHealingAPI.method t)
     = inr err /\
     (SelfHealingAPI.executeWithFallbacks baseURL fetch t).1 = inr (Some err)).
Proof.
  unfold SelfHealingAPI.executeWithFallbacks.
  destruct (fallbacks_spec baseURL fetch t (SelfHealingAPI.strategies t) 0 None [])
    as [(k0 & e0 & r0 & Hk0 & Hr0 & Hok0 & Hearlier0 & ->)
       |(Hall & err & -> & Hlast)]; simpl.
  - split_and!.
    + intros k e r Hk Hearlier Hr Hok.
      destruct (Nat.lt_trichotomy k0 k) as [Hlt|[->|Hlt]].
      * specialize (Hearlier k0 e0 Hlt Hk0).
        unfold SelfHealingAPI.request_fails in Hearlier.
        rewrite Hr0 in Hearlier. congruence.
      * rewrite Hk0 in Hk. injection Hk as ->.
        rewrite Hr0 in Hr. by injection Hr as ->.
      * specialize (Hearlier0 k e Hlt Hk).
        unfold SelfHealingAPI.request_fails in Hearlier0.
        rewrite Hr in Hearlier0. congruence.
    + intros k e r h Hk Hr Hok [= <-]. simpl. intros <-.
      rewrite Hk0 in Hk. injection Hk as ->.
      rewrite Hr0 in Hr. injection Hr as ->. congruence.
    + intros Hall. exfalso.
      rewrite Forall_forall in Hall.
      specialize (Hall e0 (list_elem_of_lookup_2 _ _ _ Hk0)).
      unfold SelfHealingAPI.request_fails in Hall. rewrite Hr0 in Hall. congruence.
  - split_and!.
    + intros k e r Hk _ Hr Hok. exfalso.
      rewrite Forall_forall in Hall.
      specialize (Hall e (list_elem_of_lookup_2 _ _ _ Hk)).
      unfold SelfHealingAPI.request_fails in Hall. rewrite Hr in Hall. congruence.
    + done.
    + intros _. simpl in Hlast. destruct Hlast as (err' & -> & Herr).
      by exists err'.
Qed.

(** [C6_first_ok_response] on the server that answers under [/v1] only:
    the second tier is accepted with its status 200. *)
Lemma C6_first_ok_response_witness :
  (SelfHealingAPI.executeWithFallbacks "http://localhost:3000"
     Scenarios.transportV1 Scenarios.getUsers).1
  = inl (SelfHealingAPI.Healed Scenarios.getUsers
           (SelfHealingAPI.RequestResult
              (SelfHealingAPI.status Scenarios.found)
              (SelfHealingAPI.json Scenarios.found)
              (SelfHealingAPI.headers Scenarios.found))
           true 1 (0 <? 1)%nat).
Proof.
  apply (proj1 (C6_first_ok_response "http://localhost:3000"
                  Scenarios.transportV1 Scenarios.getUsers) 1%nat "/v1/users").
  - reflexivity.
  - intros [|j] e' Hj; [|lia]. intros [= <-]. reflexivity.
  - reflexivity.
  - reflexivity.
Defined.

(* ===================================================================== *)
(** * [APITester.testChangedEndpoint]                                     *)
(* ===================================================================== *)

Section Healing.

Import APITester.

Variable testResult : Type.
Variable exec : string -> string -> change -> option testResult.
Variable c : change.

(** The loop hands the URLs to [executeEndpointTest] in list order and
    stops at the first call that returns. *)
Lemma heal_spec (strats : list strategy) (st : healingState testResult) :
  (exists k s r,
     strats !! k = Some s /\
     exec (url s) (method c) c = Some r /\
     (forall j s', (j < k)%nat -> strats !! j = Some s' ->
                   exec (url s') (method c) c = None) /\
     heal exec c strats st
     = HealingState
         (tests st ++ [HealedTest r (version s) (negb (String.eqb (version s) ""))])
         true (Some (version s))
         (attempted st ++ map url (take (S k) strats))) \/
  (Forall (fun s => exec (url s) (method c) c = None) strats /\
   heal exec c strats st
   = HealingState (tests st) (success st) (healingUsed st)
                  (attempted st ++ map url strats)).
Proof.
  revert st. induction strats as [|s strats IH]; intros st.
  - right. split; [done|]. simpl. rewrite app_nil_r. by destruct st.
  - simpl. destruct (exec (url s) (method c) c) as [r|] eqn:E.
    + left. exists 0%nat, s, r. split_and!; try done. intros; lia.
    + destruct (IH (HealingState (tests st) (success st) (healingUsed st)
                                 (attempted st ++ [url s])))
        as [(k & s' & r & Hk & Hr & Hearlier & ->)|(Hall & ->)]; simpl.
      * left. exists (S k), s', r. split_and!; try done.
        -- intros [|j] s'' Hj; simpl; [by intros [= <-]|].
           apply Hearlier. lia.
        -- by rewrite <- app_assoc.
      * right. split; [by constructor|]. by rewrite <- app_assoc.
Qed.

End Healing.

Lemma lookup_map {A B} (f : A -> B) (l : list A) (k : nat) :
  map f l !! k = f <$> (l !! k).
Proof.
  revert k. induction l as [|x l IH]; intros [|k]; simpl; by try apply IH.
Qed.

(** With the class's own [executeEndpointTest], which catches the
    errors of its test cases, the first call returns: the exact path is
    the only URL tried and no healing is recorded. *)
Lemma testChangedEndpoint_own_executor {testCase caseResult : Type}
    (generateTestCases : string -> APITester.change -> list testCase)
    (runCase : string -> string -> testCase -> APITester.change -> caseResult)
    (case_success : caseResult -> bool) (baseURL : string) (c : APITester.change) :
  let out := APITester.testChangedEndpoint
               (APITester.executeEndpointTest generateTestCases runCase
                  case_success baseURL) c in
  out.2 = [APITester.endpoint c] /\
  APITester.er_success out.1 = true /\
  APITester.er_healingUsed out.1 = Some "".
Proof. done. Qed.

(** C7, on the code of [SelfHealingAPI]: with no server reachable the
    endpoint [/widget/] is requested as itself, under [/v1], under [/v2],
    pluralized and then without its slash; [/api/widget/] is never
    requested, and the pluralized form comes before the stripped one. *)
Lemma C7_counterexample :
  (SelfHealingAPI.executeWithFallbacks "http://localhost:3000"
     Scenarios.transportDown Scenarios.getWidget).2
  = ["/widget/"; "/v1/widget/"; "/v2/widget/"; "/widgets"; "/widget"] /\
  Rules.six_tiers SelfHealingAPI.pluralize "/widget/"
  = ["/widget/"; "/api/widget/"; "/v1/widget/"; "/v2/widget/"; "/widget"; "/widgets"] /\
  (SelfHealingAPI.executeWithFallbacks "http://localhost:3000"
     Scenarios.transportDown Scenarios.getWidget).2
  <> Rules.six_tiers SelfHealingAPI.pluralize "/widget/".
Proof. by vm_compute. Qed.

(** C7, as the code has it.  [APITester.testChangedEndpoint] tries the
    six URLs in the order exact, [/api], [/v1], [/v2], without the
    trailing slash, pluralized, and stops at the first call of
    [executeEndpointTest] that returns: the URLs tried are the list up to
    that one, all six when every call throws.
    [SelfHealingAPI.executeWithFallbacks] requests five endpoints in the
    order exact, [/v1], [/v2], pluralized, without the trailing slash, and
    stops at the first [ok] response.  In both, when the exact path
    succeeds it is the only one tried. *)
Theorem C7_tier_order :
  (forall (testResult : Type)
          (exec : string -> string -> APITester.change -> option testResult)
          (c : APITester.change),
     let urls := Rules.six_tiers APITester.pluralizeEndpoint (APITester.endpoint c) in
     let out := APITester.testChangedEndpoint exec c in
     map APITester.url (APITester.healingStrategies c) = urls /\
     ((exists k u r,
         urls !! k = Some u /\ exec u (APITester.method c) c = Some r /\
         (forall j u', (j < k)%nat -> urls !! j = Some u' ->
                       exec u' (APITester.method c) c = None) /\
         out.2 = take (S k) urls /\ APITester.er_success out.1 = true) \/
      (Forall (fun u => exec u (APITester.method c) c = None) urls /\
       out.2 = urls /\ APITester.er_success out.1 = false)) /\
     (forall r, exec (APITester.endpoint c) (APITester.method c) c = Some r ->
                out.2 = [APITester.endpoint c])) /\
  (forall (baseURL : string) (fetch : SelfHealingAPI.transport) (t : SelfHealingAPI.test),
     let urls := Rules.five_tiers (SelfHealingAPI.endpoint t) in
     let out := SelfHealingAPI.executeWithFallbacks baseURL fetch t in
     SelfHealingAPI.strategies t = urls /\
     ((exists k u r,
         urls !! k = Some u /\
         fetch (baseURL +:+ u) (SelfHealingAPI.method t) = SelfHealingAPI.Resolves r /\
         SelfHealingAPI.ok r = true /\
         (forall j u', (j < k)%nat -> urls !! j = Some u' ->
            SelfHealingAPI.request_fails baseURL fetch (SelfHealingAPI.method t) u') /\
         out.2 = take (S k) urls) \/
      (Forall (SelfHealingAPI.request_fails baseURL fetch (SelfHealingAPI.method t)) urls /\
       out.2 = urls)) /\
     (forall r,
        fetch (baseURL +:+ SelfHealingAPI.endpoint t) (SelfHealingAPI.method t)
        = SelfHealingAPI.Resolves r ->
        SelfHealingAPI.ok r = true ->
        out.2 = [SelfHealingAPI.endpoint t])).
Proof.
  split.
  - intros testResult exec c urls out.
    assert (map APITester.url (APITester.healingStrategies c) = urls) as Hurls by done.
    split; [done|].
    assert (forall k u, urls !! k = Some u ->
              exists s, APITester.healingStrategies c !! k = Some s /\ APITester.url s = u)
      as Hback.
    { intros k u. rewrite <- Hurls, lookup_map.
      destruct (APITester.healingStrategies c !! k) as [s|]; [|done].
      intros [= <-]. by exists s. }
    subst out. unfold APITester.testChangedEndpoint.
    destruct (heal_spec testResult exec c (APITester.healingStrategies c)
                (APITester.HealingState [] false None []))
      as [(k & s & r & Hk & Hr & Hearlier & ->)|(Hall & ->)];
      cbn [fst snd APITester.attempted APITester.success APITester.er_success app].
    + rewrite <- List.firstn_map, Hurls. split.
      * left. exists k, (APITester.url s), r. split_and!; try done.
        -- by rewrite <- Hurls, lookup_map, Hk.
        -- intros j u' Hj Hu'. destruct (Hback j u' Hu') as (s' & Hs' & <-).
           by eapply Hearlier.
      * intros r0 Hr0. destruct k as [|k]; [done|].
        specialize (Hearlier 0%nat _ ltac:(lia) eq_refl). simpl in Hearlier.
        congruence.
    + rewrite Hurls. split.
      * right. split_and!; try done.
        rewrite <- Hurls. by apply List.Forall_map.
      * intros r0 Hr0. exfalso.
        apply Forall_inv in Hall. simpl in Hall. congruence.
  - intros baseURL fetch t urls out. split; [done|].
    subst out. unfold SelfHealingAPI.executeWithFallbacks.
    change (SelfHealingAPI.strategies t) with urls.
    destruct (fallbacks_spec baseURL fetch t urls 0 None [])
      as [(k & e & r & Hk & Hr & Hok & Hearlier & ->)|(Hall & err & -> & _)];
      cbn [fst snd app].
    + split.
      * left. by exists k, e, r.
      * intros r0 Hr0 Hok0. destruct k as [|k]; [done|].
        specialize (Hearlier 0%nat _ ltac:(lia) eq_refl).
        unfold SelfHealingAPI.request_fails in Hearlier.
        rewrite Hr0 in Hearlier. congruence.
    + split; [by right|].
      intros r0 Hr0 Hok0. exfalso.
      apply Forall_inv in Hall. unfold SelfHealingAPI.request_fails in Hall.
      rewrite Hr0 in Hall. congruence.
Qed.

(** [C7_tier_order] for an executor that returns at once: the exact path
    is the only URL tried. *)
Lemma C7_tier_order_witness :
  (APITester.testChangedEndpoint (fun u _ _ => Some u) Scenarios.getUserById).2
  = ["/users/:id"].
Proof.
  apply (proj2 (proj2 (proj1 C7_tier_order string (fun u _ _ => Some u)
                         Scenarios.getUserById)) "/users/:id").
  reflexivity.
Defined.

(* ===================================================================== *)
(** * [ChangeAnalyzer.detectFunctionChanges]                              *)
(* ===================================================================== *)

Section Attribution.

Variable lc : lineChanges.

Lemma existsb_has_line (ls : list Z) (first last : Z) :
  existsb (in_range first last) ls = true <-> Rules.has_line ls first last.
Proof.
  rewrite existsb_exists. unfold Rules.has_line, in_range.
  split; intros (l & Hin & Hl); exists l; (split; [done|]).
  - apply andb_prop in Hl as [?%Z.leb_le ?%Z.leb_le]. lia.
  - apply andb_true_intro. split; apply Z.leb_le; lia.
Qed.

Lemma not_existsb_has_line (ls : list Z) (first last : Z) :
  existsb (in_range first last) ls = false <-> ~ Rules.has_line ls first last.
Proof. rewrite <- existsb_has_line. by destruct (existsb _ _). Qed.

(** The nested conditional follows the order deleted, added, modified. *)
Lemma classify_classified (first last : Z) :
  Rules.classified lc first last (classify lc first last).
Proof.
  unfold classify.
  destruct (existsb (in_range first last) (deleted lc)) eqn:Hd.
  - apply Rules.classified_deleted. by apply existsb_has_line.
  - apply not_existsb_has_line in Hd.
    destruct (existsb (in_range first last) (added lc)) eqn:Ha.
    + apply Rules.classified_added; [done|]. by apply existsb_has_line.
    + apply Rules.classified_modified; [done|]. by apply not_existsb_has_line.
Qed.

(** The classification of a range is unique. *)
Lemma classified_unique (first last : Z) (c : string) :
  Rules.classified lc first last c -> c = classify lc first last.
Proof.
  unfold classify. intros [Hd|Hd Ha|Hd Ha].
  - apply existsb_has_line in Hd. by rewrite Hd.
  - apply not_existsb_has_line in Hd. apply existsb_has_line in Ha.
    by rewrite Hd, Ha.
  - apply not_existsb_has_line in Hd. apply not_existsb_has_line in Ha.
    by rewrite Hd, Ha.
Qed.

(** The loop with [break] assigns once, when some line is in range. *)
Lemma attribute_existsb (lines : list Z) (name : string) (first last : Z)
    (functions : gmap string string) :
  attribute lines lc name first last functions
  = if existsb (in_range first last) lines
    then obj_set functions name (classify lc first last)
    else functions.
Proof.
  induction lines as [|line lines IH]; simpl; [done|].
  by destruct (in_range first last line).
Qed.

Lemma lookup_obj_set (functions : gmap string string) (name value key : string) :
  obj_set functions name value !! key
  = if String.eqb name key && negb (String.eqb key "__proto__")
    then Some value else functions !! key.
Proof.
  unfold obj_set.
  destruct (String.eqb_spec name key) as [->|Hne]; simpl.
  - destruct (String.eqb key "__proto__"); simpl; [done|].
    by rewrite lookup_insert_eq.
  - destruct (String.eqb name "__proto__"); [done|].
    by rewrite lookup_insert_ne.
Qed.

(** What one visitor leaves, seen from a key. *)
Lemma lookup_record (functions : gmap string string) (n : node) (key : string) :
  key <> "__proto__" ->
  record lc functions n !! key
  = if Rules.changed_as lc key n
    then Some (classify lc (node_range n).1 (node_range n).2)
    else functions !! key.
Proof.
  intros Hkey. unfold record, Rules.changed_as.
  destruct (node_name n) as [name| |]; [|done|done].
  rewrite attribute_existsb.
  destruct (existsb _ (allLines lc)); [|by rewrite andb_false_r].
  rewrite lookup_obj_set, andb_true_r.
  destruct (String.eqb_spec key "__proto__"); [done|].
  by rewrite andb_true_r.
Qed.

Lemma lookup_record_proto (functions : gmap string string) (n : node) :
  record lc functions n !! "__proto__" = functions !! "__proto__".
Proof.
  unfold record. destruct (node_name n) as [name| |]; [|done|done].
  rewrite attribute_existsb. destruct (existsb _ _); [|done].
  rewrite lookup_obj_set. by rewrite andb_false_r.
Qed.

(** The visitors in a row, seen from a key: the last node recorded
    under the key decides. *)
Lemma lookup_records (ast : list node) (functions : gmap string string)
    (key : string) :
  key <> "__proto__" ->
  fold_left (record lc) ast functions !! key
  = match List.find (Rules.changed_as lc key) (rev ast) with
    | Some n => Some (classify lc (node_range n).1 (node_range n).2)
    | None => functions !! key
    end.
Proof.
  intros Hkey. revert functions.
  induction ast as [|n ast IH] using rev_ind; intros functions; [done|].
  rewrite fold_left_app, rev_unit. simpl.
  rewrite lookup_record by done.
  destruct (Rules.changed_as lc key n); [done|]. apply IH.
Qed.

Lemma lookup_records_proto (ast : list node) (functions : gmap string string) :
  fold_left (record lc) ast functions !! "__proto__" = functions !! "__proto__".
Proof.
  revert functions. induction ast as [|n ast IH]; intros functions; [done|].
  simpl. by rewrite IH, lookup_record_proto.
Qed.

(** The traversal throws exactly when it comes to a node whose visitor
    throws; otherwise it returns what the visitors leave. *)
Lemma traverse_throws (ast : list node) (functions : gmap string string) :
  traverse lc ast functions
  = if existsb throws ast then None else Some (fold_left (record lc) ast functions).
Proof.
  revert functions. induction ast as [|n ast IH]; intros functions; [done|].
  cbn [traverse existsb fold_left]. unfold visit.
  destruct (throws n); [done|]. cbn [mbind option_bind orb]. apply IH.
Qed.

(** A node named by its visitor does not throw. *)
Lemma changed_as_named (key : string) (n : node) :
  Rules.changed_as lc key n = true ->
  node_name n = Named key /\
  Rules.has_line (allLines lc) (node_range n).1 (node_range n).2.
Proof.
  unfold Rules.changed_as.
  destruct (node_name n) as [name| |]; [|done|done].
  by intros [->%String.eqb_eq Hhit%existsb_has_line]%andb_prop.
Qed.

(** The record of a tree without a class method, key by key. *)
Lemma detectFunctionChanges_lookup (ast : list node) :
  existsb throws ast = false ->
  exists functions,
    detectFunctionChanges ast lc = Some functions /\
    functions = fold_left (record lc) ast ∅ /\
    functions !! "__proto__" = None /\
    forall key,
      key <> "__proto__" ->
      functions !! key
      = match List.find (Rules.changed_as lc key) (rev ast) with
        | Some n => Some (classify lc (node_range n).1 (node_range n).2)
        | None => None
        end.
Proof.
  intros Hast. unfold detectFunctionChanges. rewrite traverse_throws, Hast.
  eexists. split_and!; [done | done | |].
  - by rewrite lookup_records_proto, lookup_empty.
  - intros key Hkey. rewrite lookup_records by done. by rewrite lookup_empty.
Qed.

(** The record of a declaration whose name no other declaration bears. *)
Lemma lookup_unique_name (ast : list node) (functions : gmap string string)
    (n : node) (name : string) :
  (forall key,
     key <> "__proto__" ->
     functions !! key
     = match List.find (Rules.changed_as lc key) (rev ast) with
       | Some n => Some (classify lc (node_range n).1 (node_range n).2)
       | None => None
       end) ->
  In n ast -> node_name n = Named name -> name <> "__proto__" ->
  (forall n', In n' ast -> node_name n' = Named name -> n' = n) ->
  functions !! name
  = if existsb (in_range (node_range n).1 (node_range n).2) (allLines lc)
    then Some (classify lc (node_range n).1 (node_range n).2)
    else None.
Proof.
  intros Hlookup Hin Hname Hproto Hunique. rewrite Hlookup by done.
  destruct (List.find _ _) as [n'|] eqn:Hfind.
  - apply List.find_some in Hfind as [Hin' Hn']. apply in_rev in Hin'.
    destruct (changed_as_named _ _ Hn') as [Hname' Hhit'].
    rewrite (Hunique n' Hin' Hname') in *.
    apply existsb_has_line in Hhit'. by rewrite Hhit'.
  - eapply List.find_none in Hfind; [|by apply in_rev in Hin].
    unfold Rules.changed_as in Hfind. rewrite Hname, String.eqb_refl in Hfind.
    simpl in Hfind. by rewrite Hfind.
Qed.

End Attribution.

(** C3, as stated: of two declarations bound to the name [cb], the first
    (lines 2 to 4) contains the deleted line 3 and the second (lines 10
    to 12) the added line 11; the record holds [cb] once, as [added]. *)
Lemma C3_counterexample :
  let lc := LineChanges [11] [3] [] in
  detectFunctionChanges Scenarios.twoCallbacks lc = Some {[ "cb" := "added" ]} /\
  nth_error Scenarios.twoCallbacks 0
    = Some (ArrowFunctionExpression "VariableDeclarator" (Some "cb") 2 4) /\
  In 3 (deleted lc) /\ in_range 2 4 3 = true.
Proof. split_and!; [by vm_compute | done | by left | done]. Qed.

(** C3, as the code has it, for a tree on which the traversal runs
    through: one without a class method.  The call returns a record.  A
    name other than [__proto__] is a key of it exactly when some
    declaration of that name has a changed (added, modified or deleted)
    line in its range, and its value is the classification of the last
    such declaration in visiting order: [deleted] if the range has a
    deleted line, otherwise [added] if it has an added line, otherwise
    [modified].  Every key stands for a declaration with a changed line
    in range.  For a declaration whose name no other declaration bears,
    the record has it if and only if its range has a changed line, with
    that classification; the function [getUser] at lines 5 to 9 with line
    7 modified gives [{getUser: "modified"}]. *)
Theorem C3_attribution :
  (forall ast lc,
     existsb throws ast = false ->
     exists functions,
       detectFunctionChanges ast lc = Some functions /\
       (forall key,
          key <> "__proto__" ->
          functions !! key
          = match List.find (Rules.changed_as lc key) (rev ast) with
            | Some n => Some (classify lc (node_range n).1 (node_range n).2)
            | None => None
            end) /\
       (forall key c,
          functions !! key = Some c ->
          exists n,
            In n ast /\ node_name n = Named key /\
            Rules.has_line (allLines lc) (node_range n).1 (node_range n).2 /\
            Rules.classified lc (node_range n).1 (node_range n).2 c) /\
       (forall n name,
          In n ast -> node_name n = Named name -> name <> "__proto__" ->
          (forall n', In n' ast -> node_name n' = Named name -> n' = n) ->
          (Rules.has_line (allLines lc) (node_range n).1 (node_range n).2 ->
           exists c, functions !! name = Some c /\
                     Rules.classified lc (node_range n).1 (node_range n).2 c) /\
          (~ Rules.has_line (allLines lc) (node_range n).1 (node_range n).2 ->
           functions !! name = None))) /\
  detectFunctionChanges [Scenarios.getUserNode] (LineChanges [] [] [7])
  = Some {[ "getUser" := "modified" ]}.
Proof.
  split; [|reflexivity].
  intros ast lc Hast.
  destruct (detectFunctionChanges_lookup lc ast Hast)
    as (functions & Heq & _ & Hproto & Hlookup).
  exists functions. split_and!; [done | done | |].
  - intros key c Hc.
    destruct (String.eqb_spec key "__proto__") as [->|Hkey]; [congruence|].
    rewrite Hlookup in Hc by done.
    destruct (List.find _ _) as [n|] eqn:Hfind; [|done].
    injection Hc as <-.
    apply List.find_some in Hfind as [Hin Hn]. apply in_rev in Hin.
    destruct (changed_as_named _ _ _ Hn) as [Hname Hhit].
    exists n. split_and!; try done. apply classify_classified.
  - intros n name Hin Hname Hkey Hunique.
    rewrite (lookup_unique_name lc ast functions n name) by done.
    split.
    + intros Hhit%existsb_has_line. rewrite Hhit.
      eexists. split; [done|]. apply classify_classified.
    + intros Hmiss%not_existsb_has_line. by rewrite Hmiss.
Qed.

(** Scenario B through the uniqueness clause of [C3_attribution]. *)
Lemma C3_attribution_witness :
  exists functions,
    detectFunctionChanges [Scenarios.getUserNode] (LineChanges [] [] [7])
    = Some functions /\
    exists c,
      functions !! "getUser" = Some c /\
      Rules.classified (LineChanges [] [] [7]) 5 9 c.
Proof.
  destruct (proj1 C3_attribution [Scenarios.getUserNode] (LineChanges [] [] [7])
              eq_refl) as (functions & Heq & _ & _ & Hunique).
  exists functions. split; [exact Heq|].
  apply (proj1 (Hunique Scenarios.getUserNode "getUser"
                  ltac:(by left) eq_refl ltac:(done)
                  ltac:(by intros n' [<-|[]] _))).
  exists 7. split; [simpl; tauto | simpl; lia].
Defined.

(* ===================================================================== *)
(** * [ChangeAnalyzer.parseGitDiff]: reconciliation                       *)
(* ===================================================================== *)

Section Reconciliation.

Variables adds dels : list Z.

Lemma find_near_None (a : Z) (del : list Z) (j : nat) :
  find_near a del j = None -> forall d, d ∈ del -> near a d = false.
Proof.
  revert j. induction del as [|d0 del IH]; intros j; simpl.
  - intros _ d Hd. by apply elem_of_nil in Hd.
  - destruct (near a d0) eqn:Hnear; [done|].
    intros Hrest d [->|Hd]%elem_of_cons; [done|]. by eapply IH.
Qed.

Lemma splice1_sublist {A} (i : nat) (l : list A) : splice1 i l `sublist_of` l.
Proof.
  unfold splice1. rewrite <- (take_drop i l) at 3.
  apply sublist_app; [done|].
  replace (drop (S i) l) with (drop 1 (drop i l)); [apply sublist_drop|].
  rewrite drop_drop. f_equal. lia.
Qed.

Lemma splice1_length {A} (i : nat) (l : list A) :
  (i < length l)%nat -> length (splice1 i l) = (length l - 1)%nat.
Proof.
  intros Hi. unfold splice1.
  rewrite length_app, length_take, length_drop. lia.
Qed.

Lemma splice1_lookup_lt {A} (i k : nat) (l : list A) :
  (k < i)%nat -> splice1 i l !! k = l !! k.
Proof.
  intros Hk. unfold splice1.
  destruct (decide (i <= length l)%nat) as [Hi|Hi].
  - rewrite lookup_app_l by (rewrite length_take; lia).
    by apply lookup_take_lt.
  - rewrite take_ge, drop_ge by lia. by rewrite app_nil_r.
Qed.

Lemma splice1_perm {A} (i : nat) (l : list A) (x : A) :
  l !! i = Some x -> x :: splice1 i l ≡ₚ l.
Proof.
  intros Hx. rewrite <- (take_drop_middle l i x Hx) at 2.
  unfold splice1. by rewrite Permutation_middle.
Qed.

(** With fuel for every remaining element of [added] the loop ends, and
    what held before every iteration holds at the end, when [i] has
    reached the length of [added]. *)
Lemma reconcile_loop_ends (fuel : nat) (r : recon) :
  (length (r_added r) - r_i r <= fuel)%nat ->
  reconciling adds dels r ->
  exists r',
    reconcile_loop fuel r = Some r' /\ reconciling adds dels r' /\
    (length (r_added r') <= r_i r')%nat.
Proof.
  revert r. induction fuel as [|fuel IH]; intros [i added deleted modified];
    simpl; intros Hfuel (Hfar & Hperm & Hsub); simpl in *.
  - destruct (added !! i) as [a|] eqn:Ha.
    + apply lookup_lt_Some in Ha. lia.
    + eexists. split; [done|]. split; [done|]. simpl.
      by apply lookup_ge_None.
  - destruct (added !! i) as [a|] eqn:Ha.
    + pose proof (lookup_lt_Some _ _ _ Ha) as Hi.
      destruct (find_near a deleted 0) as [j|] eqn:Hfind.
      * apply IH; simpl.
        { rewrite splice1_length by done. lia. }
        split_and!; simpl.
        -- intros k a' d Hk Ha' Hd. rewrite splice1_lookup_lt in Ha' by done.
           eapply Hfar; [done | done |].
           eapply elem_of_sublist; [done | apply splice1_sublist].
        -- rewrite <- Hperm, <- app_assoc. simpl.
           by rewrite (splice1_perm i added a Ha).
        -- etrans; [apply splice1_sublist | done].
      * apply IH; simpl; [lia|].
        split_and!; simpl; [|done|done].
        intros k a' d Hk Ha' Hd.
        destruct (decide (k = i)) as [->|Hne].
        -- rewrite Ha in Ha'. injection Ha' as <-.
           by eapply find_near_None.
        -- eapply Hfar; [|done|done]. lia.
    + eexists. split; [done|]. split; [done|]. simpl.
      by apply lookup_ge_None.
Qed.

(** The reconciliation ends: [parseGitDiff_total] below. *)
Lemma reconcile_ends :
  exists r,
    reconcile adds dels = Some r /\
    (forall a d, a ∈ r_added r -> d ∈ r_deleted r -> near a d = false) /\
    r_modified r ++ r_added r ≡ₚ adds /\
    r_deleted r `sublist_of` dels.
Proof.
  destruct (reconcile_loop_ends (length adds) (Recon 0 adds dels []))
    as (r & Hr & (Hfar & Hperm & Hsub) & Hexit).
  - simpl. lia.
  - split_and!; simpl; [intros; lia | done | done].
  - exists r. split_and!; try done.
    intros a d [k Hk]%list_elem_of_lookup Hd.
    eapply Hfar; [|done|done].
    apply lookup_lt_Some in Hk. lia.
Qed.

End Reconciliation.

(* ===================================================================== *)
(** * [ChangeAnalyzer.parseGitDiff]: the scan                             *)
(* ===================================================================== *)

Lemma step_before_cursor (st : scan) (line : string) :
  headers_clear st [line] = true ->
  before_cursor st -> before_cursor (step st line).
Proof.
  unfold before_cursor, step. simpl. rewrite andb_true_r.
  intros Hclear [Hnodup Hlt].
  destruct (JS.startsWith line "@@").
  { destruct (header_match line) as [g2|]; [|by split]. simpl.
    split; [done|]. intros a Ha%list_elem_of_In.
    rewrite forallb_forall in Hclear. by apply Z.ltb_lt, Hclear. }
  destruct (JS.startsWith line "+" && negb (JS.startsWith line "+++")); simpl.
  { split.
    - apply NoDup_app. split_and!; [done| |apply NoDup_singleton].
      intros a Ha ->%list_elem_of_singleton. specialize (Hlt _ Ha). lia.
    - intros a [Ha| ->%list_elem_of_singleton]%elem_of_app; [|lia].
      specialize (Hlt a Ha). lia. }
  destruct (JS.startsWith line "-" && negb (JS.startsWith line "---")); simpl;
    [by split|].
  destruct (negb (JS.startsWith line JS.backslash)); simpl; [|by split].
  split; [done|]. intros a Ha. specialize (Hlt a Ha). lia.
Qed.

(** When every header starts beyond the lines added before it, no line
    number is recorded twice as added. *)
Lemma scan_before_cursor (lines : list string) (st : scan) :
  headers_clear st lines = true ->
  before_cursor st -> before_cursor (fold_left step lines st).
Proof.
  revert st. induction lines as [|line lines IH]; intros st; [done|].
  cbn [headers_clear fold_left].
  intros [Hline Hrest]%andb_prop Hst. apply IH; [done|].
  apply step_before_cursor; [|done]. simpl. by rewrite Hline.
Qed.

(** The call returns, for every diff. *)
Lemma parseGitDiff_total (diff : string) :
  exists lc hs, parseGitDiff diff = Some (lc, hs).
Proof.
  unfold parseGitDiff.
  destruct (reconcile_ends (s_added (scan_diff diff)) (s_deleted (scan_diff diff)))
    as (r & -> & _).
  simpl. by eexists _, _.
Qed.

(** C1, as stated: three lines replaced by one put line 1 in [modified]
    and leave line 1 in [deleted]. *)
Lemma C1_counterexample :
  fst <$> parseGitDiff Scenarios.diffThreeForOne
  = Some (LineChanges [] [1; 1] [1]) /\
  In 1 (modified (LineChanges [] [1; 1] [1])) /\
  In 1 (deleted (LineChanges [] [1; 1] [1])).
Proof. split_and!; [by vm_compute | by left | by left]. Qed.

(** Why [C1_reconciled_sets] looks at the headers: in a diff without
    context lines whose deleted lines begin with [--], the cursor runs
    ahead, line 3 is recorded twice as added, and one copy stays in
    [added] while the other becomes modified. *)
Lemma misread_deletions :
  headers_clear scan0 (JS.split "010"%char Scenarios.diffDashes) = false /\
  fst <$> parseGitDiff Scenarios.diffDashes = Some (LineChanges [3] [] [3]).
Proof. by vm_compute. Qed.

(** The diffs Git prints for a changed and for a new file pass the test
    on the headers, the lines before the first hunk included. *)
Lemma git_headers_clear :
  headers_clear scan0 (JS.split "010"%char Scenarios.diffGit) = true /\
  headers_clear scan0 (JS.split "010"%char Scenarios.diffNewFile) = true /\
  fst <$> parseGitDiff Scenarios.diffGit = Some (LineChanges [13] [] [1]) /\
  fst <$> parseGitDiff Scenarios.diffNewFile = Some (LineChanges [1; 2] [] []).
Proof. by vm_compute. Qed.

(** C1, as the code has it.  For every diff the parser returns, and
    after the reconciliation no line number is both in [added] and in
    [deleted]: an added line and a deleted line that remain are more than
    one line apart.  When every hunk header starts beyond the lines
    recorded as added before it (the hunks of one file in ascending
    order, whatever precedes the first hunk and wherever it starts), no
    line number is both in [added] and in [modified], and neither list
    holds a line number twice; in general this is so exactly when the
    scan has recorded no line number twice as added.  A line number can
    be in [modified] and in [deleted]. *)
Theorem C1_reconciled_sets (diff : string) :
  exists lc hs,
    parseGitDiff diff = Some (lc, hs) /\
    (forall a d, In a (added lc) -> In d (deleted lc) -> 1 < Z.abs (a - d)) /\
    (forall n, In n (added lc) -> ~ In n (deleted lc)) /\
    (headers_clear scan0 (JS.split "010"%char diff) = true ->
     (forall n, In n (added lc) -> ~ In n (modified lc)) /\
     NoDup (added lc) /\ NoDup (modified lc)) /\
    ((forall n, In n (added lc) -> ~ In n (modified lc)) /\
     NoDup (added lc) /\ NoDup (modified lc)
     <-> NoDup (s_added (scan_diff diff))).
Proof.
  unfold parseGitDiff.
  destruct (reconcile_ends (s_added (scan_diff diff)) (s_deleted (scan_diff diff)))
    as (r & -> & Hfar & Hperm & _).
  simpl. eexists _, _. split; [done|]. simpl.
  assert (forall a d, In a (r_added r) -> In d (r_deleted r) -> 1 < Z.abs (a - d))
    as Hapart.
  { intros a d Ha%list_elem_of_In Hd%list_elem_of_In.
    specialize (Hfar a d Ha Hd). unfold near in Hfar.
    apply Z.leb_gt in Hfar. lia. }
  split_and!.
  - exact Hapart.
  - intros n Ha Hd. specialize (Hapart n n Ha Hd).
    rewrite Z.sub_diag in Hapart. simpl in Hapart. lia.
  - intros Hclear.
    assert (NoDup (r_modified r ++ r_added r)) as Hnodup.
    { rewrite Hperm. unfold scan_diff.
      apply scan_before_cursor; [done|].
      split; [apply NoDup_nil_2 | by intros a' Ha'%elem_of_nil]. }
    apply NoDup_app in Hnodup as (Hmodified & Hdisjoint & Hadded).
    split_and!; [|done|done].
    intros n Ha%list_elem_of_In Hm%list_elem_of_In. by apply (Hdisjoint n).
  - rewrite <- Hperm, NoDup_app. split.
    + intros (Hdisjoint & Hadded & Hmodified). split_and!; [done| |done].
      intros n Hm%list_elem_of_In Ha%list_elem_of_In. by apply (Hdisjoint n).
    + intros (Hmodified & Hdisjoint & Hadded). split_and!; [|done|done].
      intros n Ha%list_elem_of_In Hm%list_elem_of_In. by apply (Hdisjoint n).
Qed.

(** [C1_reconciled_sets] on the diff of one file as Git prints it, with
    the four lines before the first hunk, which starts at line 1: line 1
    is modified, line 13 added. *)
Lemma C1_reconciled_sets_witness :
  exists lc hs,
    parseGitDiff Scenarios.diffGit = Some (lc, hs) /\
    (forall n, In n (added lc) -> ~ In n (modified lc)) /\
    NoDup (added lc) /\ NoDup (modified lc).
Proof.
  destruct (C1_reconciled_sets Scenarios.diffGit)
    as (lc & hs & Hparse & _ & _ & Hdisjoint & _).
  exists lc, hs. split; [exact Hparse|].
  apply Hdisjoint. reflexivity.
Defined.

(* ===================================================================== *)
(** * [ChangeAnalyzer.parseGitDiff]: the cursor                           *)
(* ===================================================================== *)

(** The greedy digit run takes a string of digits whole when no digit
    follows it. *)
Lemma span_digits_app (ds rest : string) :
  JS.all_chars JS.is_digit ds = true ->
  JS.no_digit_ahead rest = true ->
  JS.span_digits (ds +:+ rest) = (ds, rest).
Proof.
  intros Hds Hrest. induction ds as [|c ds IH]; simpl in *.
  - destruct rest as [|c rest]; [done|]. simpl in *.
    by apply negb_true_iff in Hrest as ->.
  - apply andb_prop in Hds as [-> Hds]. by rewrite (IH Hds).
Qed.

Lemma digits_string_of_uint (u : Decimal.uint) :
  JS.all_chars JS.is_digit (NilEmpty.string_of_uint u) = true.
Proof. induction u; simpl; by rewrite ?IHu. Qed.

Lemma parseInt_string_of_uint (u : Decimal.uint) (acc : nat) :
  fold_left (fun acc c => 10 * acc + (Z.of_nat (nat_of_ascii c) - 48))
            (list_ascii_of_string (NilEmpty.string_of_uint u)) (Z.of_nat acc)
  = Z.of_nat (Nat.of_uint_acc u acc).
Proof.
  revert acc. induction u as [|u IH|u IH|u IH|u IH|u IH|u IH|u IH|u IH|u IH|u IH];
    intros acc; [done|..];
    cbn [NilEmpty.string_of_uint list_ascii_of_string fold_left Nat.of_uint_acc];
    rewrite Nat.tail_mul_spec, <- IH; f_equal;
    match goal with
    | |- context [nat_of_ascii ?c] =>
        let n := eval vm_compute in (nat_of_ascii c) in
        change (nat_of_ascii c) with n
    end; lia.
Qed.

Lemma decimal_digits (n : nat) : JS.all_chars JS.is_digit (Rules.decimal n) = true.
Proof. apply digits_string_of_uint. Qed.

Lemma decimal_nonempty (n : nat) : Rules.decimal n <> "".
Proof.
  unfold Rules.decimal.
  rewrite <- (DecimalNat.Unsigned.of_to n) at 1.
  rewrite DecimalNat.Unsigned.to_of. unfold Decimal.unorm.
  by destruct (Decimal.nzhead (Nat.to_uint n)).
Qed.

(** [parseInt] reads a decimal numeral back. *)
Lemma parseInt_decimal (n : nat) : JS.parseInt (Rules.decimal n) = Z.of_nat n.
Proof.
  unfold JS.parseInt, Rules.decimal.
  change 0 with (Z.of_nat 0).
  rewrite (parseInt_string_of_uint (Nat.to_uint n) 0).
  f_equal. apply DecimalNat.Unsigned.of_to.
Qed.

Lemma span_digits_count (b : option nat) (rest : string) :
  (JS.span_digits (JS.skip_comma (Rules.count_text b +:+ String " "%char rest))).2
  = String " "%char rest.
Proof.
  destruct b as [b|]; simpl; [|done].
  by rewrite span_digits_app by (done || apply decimal_digits).
Qed.

(** The digit run before the count of a header stops at the comma or
    at the space. *)
Lemma span_digits_number (n : nat) (b : option nat) (rest : string) :
  JS.span_digits (Rules.decimal n +:+ Rules.count_text b +:+ String " "%char rest)
  = (Rules.decimal n, Rules.count_text b +:+ String " "%char rest).
Proof.
  apply span_digits_app; [apply decimal_digits|]. by destruct b.
Qed.

(** A header [@@ -a,b +c,d @@] matches at the head of its line, and the
    second group is the numeral of [c]. *)
Lemma header_match_shape (a : nat) (b : option nat) (c : nat) (d : option nat)
    (rest : string) :
  header_match (Rules.header_text a b c d rest) = Some (Rules.decimal c).
Proof.
  assert (header_at (Rules.header_text a b c d rest) = Some (Rules.decimal c)) as Hat.
  { unfold header_at, Rules.header_text.
    cbn [JS.strip_prefix String.append]. rewrite !Ascii.eqb_refl.
    cbn [mbind option_bind].
    change (" +" +:+ ?x) with (String " "%char (String "+"%char x)).
    rewrite span_digits_number.
    destruct (String.eqb_spec (Rules.decimal a) ""); [by apply decimal_nonempty in e|].
    pose proof (span_digits_count b (String "+" (Rules.decimal c +:+
      Rules.count_text d +:+ " @@" +:+ rest))) as Hb.
    destruct (JS.span_digits _) as [skipped s3] eqn:E in Hb |- *.
    simpl in Hb. subst s3.
    cbn [JS.strip_prefix]. rewrite !Ascii.eqb_refl. cbn [mbind option_bind].
    change (" @@" +:+ rest) with (String " "%char ("@@" +:+ rest)).
    rewrite span_digits_number.
    destruct (String.eqb_spec (Rules.decimal c) ""); [by apply decimal_nonempty in e|].
    pose proof (span_digits_count d ("@@" +:+ rest)) as Hd.
    destruct (JS.span_digits _) as [skipped' s6] eqn:E' in Hd |- *.
    simpl in Hd. subst s6.
    cbn [JS.strip_prefix String.append]. by rewrite !Ascii.eqb_refl. }
  unfold header_match. destruct (Rules.header_text a b c d rest); by rewrite Hat.
Qed.

Lemma startsWith_cons (line p : string) (c : ascii) :
  JS.startsWith line (String c p) = true ->
  exists line', line = String c line' /\ JS.startsWith line' p = true.
Proof.
  unfold JS.startsWith. destruct line as [|c' line']; simpl; [done|].
  intros [->%Ascii.eqb_eq H]%andb_prop. by exists line'.
Qed.

(** A line that begins with a plus, a minus or a backslash is no header
    line. *)
Lemma not_header_line (line p : string) (c : ascii) :
  c <> "@"%char ->
  JS.startsWith line (String c p) = true -> JS.startsWith line "@@" = false.
Proof.
  intros Hc (line' & -> & _)%startsWith_cons. unfold JS.startsWith. simpl.
  destruct (Ascii.eqb_spec "@" c); [congruence | done].
Qed.

(** C2, as stated: the marker line of Git begins with no plus, no minus
    and no [@@], and leaves the cursor where it is; in the diff of
    [Scenarios.diffNoNewline] the two added lines are therefore recorded
    at 1 and 2, and line 1 becomes modified, line 2 added. *)
Lemma C2_counterexample :
  JS.startsWith Scenarios.noNewline "+" = false /\
  JS.startsWith Scenarios.noNewline "-" = false /\
  JS.startsWith Scenarios.noNewline "@@" = false /\
  currentLine (step (Scan 1 [] [1] []) Scenarios.noNewline) = 1 /\
  fst <$> parseGitDiff Scenarios.diffNoNewline = Some (LineChanges [2] [] [1]).
Proof. by vm_compute. Qed.

(** C2, as the code has it.  A header line [@@ -a,b +c,d @@] sets the
    cursor to [c] and opens a hunk.  A line that begins with [+] but not
    [+++] records the cursor in [added] and advances it; a line that
    begins with [-] but not [---] records the cursor in [deleted] and
    leaves it.  Of the other lines, one that begins with a backslash
    changes nothing, one that begins with [@@] without the header pattern
    changes nothing, and every other line advances the cursor without
    recording.  The diff of scenario A gives [added = {11}] and nothing
    modified or deleted. *)
Theorem C2_cursor_rules :
  (forall st a b c d rest,
     step st (Rules.header_text a b c d rest)
     = Scan (Z.of_nat c) (s_added st) (s_deleted st)
            (hunks st ++ [Hunk (Z.of_nat c) []])) /\
  (forall st line,
     JS.startsWith line "+" = true -> JS.startsWith line "+++" = false ->
     step st line
     = Scan (currentLine st + 1) (s_added st ++ [currentLine st]) (s_deleted st)
            (push_content line (hunks st))) /\
  (forall st line,
     JS.startsWith line "-" = true -> JS.startsWith line "---" = false ->
     step st line
     = Scan (currentLine st) (s_added st) (s_deleted st ++ [currentLine st])
            (push_content line (hunks st))) /\
  (forall st line,
     JS.startsWith line JS.backslash = true -> step st line = st) /\
  (forall st line,
     JS.startsWith line "@@" = true -> header_match line = None ->
     step st line = st) /\
  (forall st line,
     JS.startsWith line "@@" = false ->
     JS.startsWith line "+" && negb (JS.startsWith line "+++") = false ->
     JS.startsWith line "-" && negb (JS.startsWith line "---") = false ->
     JS.startsWith line JS.backslash = false ->
     step st line
     = Scan (currentLine st + 1) (s_added st) (s_deleted st) (hunks st)) /\
  fst <$> parseGitDiff Scenarios.diffA = Some (LineChanges [11] [] []).
Proof.
  split_and!.
  - intros st a b c d rest. unfold step.
    rewrite header_match_shape, parseInt_decimal.
    by replace (JS.startsWith _ "@@") with true by reflexivity.
  - intros st line Hplus Hplus3. unfold step.
    rewrite (not_header_line line "" "+") by done.
    by rewrite Hplus, Hplus3.
  - intros st line Hminus Hminus3. unfold step.
    rewrite (not_header_line line "" "-") by done.
    assert (JS.startsWith line "+" = false) as ->.
    { by apply startsWith_cons in Hminus as (line' & -> & _). }
    by rewrite Hminus, Hminus3.
  - intros st line Hback. unfold step.
    rewrite (not_header_line line "" "092") by done.
    apply startsWith_cons in Hback as (line' & -> & _).
    unfold JS.startsWith. simpl. by destruct st.
  - intros st line Hat Hnone. unfold step. by rewrite Hat, Hnone.
  - intros st line Hat Hplus Hminus Hback. unfold step.
    by rewrite Hat, Hplus, Hminus, Hback.
  - by vm_compute.
Qed.

(** The rule of [C2_cursor_rules] for added lines on a line of
    scenario A, read with the cursor at 11. *)
Lemma C2_cursor_rules_witness :
  step (Scan 11 [] [] [Hunk 10 []]) "+const b = 2;"
  = Scan (11 + 1) ([] ++ [11]) [] (push_content "+const b = 2;" [Hunk 10 []]).
Proof.
  apply (proj1 (proj2 C2_cursor_rules) (Scan 11 [] [] [Hunk 10 []]) "+const b = 2;");
    reflexivity.
Defined.

(* ===================================================================== *)
(** * [ChangeAnalyzer.parseGitDiff]: what is counted                      *)
(* ===================================================================== *)

Section Counting.

Import DiffLines.

Lemma added_not_header (line : string) :
  is_added_line line = true -> JS.startsWith line "@@" = false.
Proof.
  intros [H _]%andb_prop. by apply (not_header_line line "" "+").
Qed.

Lemma deleted_not_header (line : string) :
  is_deleted_line line = true -> JS.startsWith line "@@" = false.
Proof.
  intros [H _]%andb_prop. by apply (not_header_line line "" "-").
Qed.

Lemma added_not_deleted (line : string) :
  is_added_line line = true -> is_deleted_line line = false.
Proof.
  intros [(line' & -> & _)%startsWith_cons _]%andb_prop. done.
Qed.

Lemma header_not_recorded (line : string) :
  JS.startsWith line "@@" = true ->
  is_added_line line = false /\ is_deleted_line line = false.
Proof.
  intros (line' & -> & _)%startsWith_cons. done.
Qed.

(** One step of the scan, by the kind of the line. *)
Lemma step_cases (st : scan) (line : string) :
  (is_added_line line = true /\
   step st line = Scan (currentLine st + 1) (s_added st ++ [currentLine st])
                       (s_deleted st) (push_content line (hunks st))) \/
  (is_added_line line = false /\ is_deleted_line line = true /\
   step st line = Scan (currentLine st) (s_added st)
                       (s_deleted st ++ [currentLine st])
                       (push_content line (hunks st))) \/
  (is_added_line line = false /\ is_deleted_line line = false /\
   s_added (step st line) = s_added st /\ s_deleted (step st line) = s_deleted st /\
   (hunks (step st line) = hunks st \/
    exists n, JS.startsWith line "@@" = true /\ is_Some (header_match line) /\
              hunks (step st line) = hunks st ++ [Hunk n []])).
Proof.
  unfold step, is_added_line, is_deleted_line.
  destruct (JS.startsWith line "@@") eqn:Hat.
  - destruct (header_not_recorded line Hat) as [Ha Hd].
    unfold is_added_line, is_deleted_line in Ha, Hd. rewrite Ha, Hd.
    right. right. split_and!; try done;
      destruct (header_match line) as [g2|]; simpl; try done; try by left.
    right. by eexists.
  - destruct (JS.startsWith line "+" && negb (JS.startsWith line "+++")) eqn:Ha.
    { by left. }
    destruct (JS.startsWith line "-" && negb (JS.startsWith line "---")) eqn:Hd.
    { right. by left. }
    right. right. split_and!; try done;
      destruct (negb (JS.startsWith line JS.backslash)); simpl; try done; by left.
Qed.

Lemma push_content_lengths (line : string) (hs : list hunk) :
  hs <> [] ->
  fold_right (fun h acc => length (content h) + acc)%nat 0%nat (push_content line hs)
  = S (fold_right (fun h acc => length (content h) + acc)%nat 0%nat hs).
Proof.
  induction hs as [|h hs IH]; [done|]. intros _.
  destruct hs as [|h' hs].
  - simpl. rewrite length_app. simpl. lia.
  - change (push_content line (h :: h' :: hs))
      with (h :: push_content line (h' :: hs)).
    cbn [fold_right]. rewrite IH by done. simpl. lia.
Qed.

Lemma push_content_nonempty (line : string) (hs : list hunk) :
  hs <> [] -> push_content line hs <> [].
Proof. destruct hs as [|h [|h' hs]]; done. Qed.

Lemma push_content_recorded (line : string) (hs : list hunk) :
  is_added_line line || is_deleted_line line = true ->
  Forall (fun h => Forall (fun l => is_added_line l || is_deleted_line l = true)
                          (content h)) hs ->
  Forall (fun h => Forall (fun l => is_added_line l || is_deleted_line l = true)
                          (content h)) (push_content line hs).
Proof.
  intros Hline. induction hs as [|h hs IH]; [done|].
  intros [Hh Hhs]%Forall_cons. destruct hs as [|h' hs].
  - simpl. constructor; [|done]. simpl. apply Forall_app. split; [done|].
    by constructor.
  - change (push_content line (h :: h' :: hs))
      with (h :: push_content line (h' :: hs)).
    constructor; [done | by apply IH].
Qed.

(** The scan records one number per added line and one per deleted
    line, and puts only such lines in the hunks. *)
Lemma scan_counting (lines seen : list string) (st : scan) :
  counting seen st -> counting (seen ++ lines) (fold_left step lines st).
Proof.
  revert seen st. induction lines as [|line lines IH]; intros seen st Hst.
  { by rewrite app_nil_r. }
  replace (seen ++ line :: lines) with ((seen ++ [line]) ++ lines)
    by by rewrite <- app_assoc.
  cbn [fold_left]. apply IH. destruct Hst as (Ha & Hd & Hh).
  unfold counting. rewrite !List.filter_app. cbn [List.filter].
  destruct (step_cases st line)
    as [[Hadd ->]|[(Hadd & Hdel & ->)|(Hadd & Hdel & Hsa & Hsd & Hhunks)]]; simpl.
  - rewrite Hadd, (added_not_deleted line Hadd), !length_app. simpl.
    split_and!; [lia | lia |].
    apply push_content_recorded; [by rewrite Hadd | done].
  - rewrite Hadd, Hdel, !length_app. simpl.
    split_and!; [lia | lia |].
    apply push_content_recorded; [by rewrite Hdel, orb_true_r | done].
  - rewrite Hadd, Hdel, Hsa, Hsd, !length_app. simpl.
    split_and!; [lia | lia |].
    destruct Hhunks as [->|(n & _ & _ & ->)]; [done|].
    apply Forall_app. split; [done|]. by repeat constructor.
Qed.

(** Once a header has opened a hunk before any added or deleted line,
    every recorded line is in some hunk. *)
Lemma scan_hunks_hold_all (lines : list string) (st : scan) :
  hunks_hold_all st -> hunks_hold_all (fold_left step lines st).
Proof.
  revert st. induction lines as [|line lines IH]; intros st Hst; [done|].
  cbn [fold_left]. apply IH. destruct Hst as [Hne Hsum]. unfold hunks_hold_all.
  destruct (step_cases st line)
    as [[Hadd ->]|[(Hadd & Hdel & ->)|(Hadd & Hdel & Hsa & Hsd & Hhunks)]]; simpl.
  - split; [by apply push_content_nonempty|].
    rewrite push_content_lengths, length_app by done. simpl. lia.
  - split; [by apply push_content_nonempty|].
    rewrite push_content_lengths, length_app by done. simpl. lia.
  - rewrite Hsa, Hsd. destruct Hhunks as [->|(n & _ & _ & ->)]; [done|].
    split; [by destruct (hunks st)|].
    rewrite fold_right_app. simpl. exact Hsum.
Qed.

Lemma scan_header_leads (lines : list string) (st : scan) :
  header_leads lines = true ->
  s_added st = [] -> s_deleted st = [] -> hunks st = [] ->
  (s_added (fold_left step lines st) = [] /\
   s_deleted (fold_left step lines st) = [] /\
   hunks (fold_left step lines st) = []) \/
  hunks_hold_all (fold_left step lines st).
Proof.
  revert st. induction lines as [|line lines IH]; intros st Hlead Ha Hd Hh.
  { by left. }
  cbn [header_leads fold_left] in *.
  destruct (step_cases st line)
    as [[Hadd Hstep]|[(Hadd & Hdel & Hstep)|(Hadd & Hdel & Hsa & Hsd & Hhunks)]].
  - rewrite (added_not_header line Hadd), Hadd in Hlead. done.
  - rewrite (deleted_not_header line Hdel), Hadd, Hdel in Hlead. done.
  - destruct Hhunks as [Hsame|(n & Hat & Hmatch & Hopen)].
    + apply IH; [|congruence..].
      destruct (JS.startsWith line "@@") eqn:Hat.
      * destruct (header_match line) as [g2|] eqn:Hm; [|done].
        exfalso. unfold step in Hsame. rewrite Hat, Hm in Hsame. simpl in Hsame.
        rewrite Hh in Hsame. done.
      * by rewrite Hadd, Hdel in Hlead.
    + right. apply scan_hunks_hold_all. split.
      * rewrite Hopen. by destruct (hunks st).
      * rewrite Hopen, Hsa, Hsd, Ha, Hd, Hh. done.
Qed.

End Counting.

Section Pairing.

Import DiffLines.

Variables adds dels : list Z.

Lemma find_near_Some (a : Z) (del : list Z) (j0 j : nat) :
  find_near a del j0 = Some j ->
  exists d, del !! (j - j0)%nat = Some d /\ near a d = true /\ (j0 <= j)%nat.
Proof.
  revert j0. induction del as [|d0 del IH]; intros j0; simpl; [done|].
  destruct (near a d0) eqn:Hnear.
  - intros [= <-]. exists d0. rewrite Nat.sub_diag. by split_and!.
  - intros (d & Hd & Hn & Hle)%IH. exists d.
    replace (j - j0)%nat with (S (j - S j0)) by lia. split_and!; [done | done | lia].
Qed.

(** Every finished run of the loop keeps the counts: a pairing takes one
    line out of [added], one out of [deleted], and puts one in
    [modified]. *)
Lemma reconcile_loop_pairing (fuel : nat) (r r' : recon) :
  reconcile_loop fuel r = Some r' ->
  pairing adds dels r -> pairing adds dels r'.
Proof.
  revert r. induction fuel as [|fuel IH]; intros [i added deleted modified]; simpl.
  - destruct (added !! i); [done|]. by intros [= <-].
  - destruct (added !! i) as [a|] eqn:Ha; [|by intros [= <-]].
    pose proof (lookup_lt_Some _ _ _ Ha) as Hi.
    destruct (find_near a deleted 0) as [j|] eqn:Hfind.
    + intros Hloop (Hna & Hnd & Hsa & Hsd & Hm). simpl in *.
      apply find_near_Some in Hfind as (d & Hd & Hnear & _).
      rewrite Nat.sub_0_r in Hd.
      pose proof (lookup_lt_Some _ _ _ Hd) as Hj.
      apply (IH _ Hloop). unfold pairing. simpl.
      rewrite !splice1_length, length_app by done. simpl.
      split_and!; [lia | lia | | |].
      * intros x Hx. apply Hsa. eapply elem_of_sublist; [done | apply splice1_sublist].
      * intros x Hx. apply Hsd. eapply elem_of_sublist; [done | apply splice1_sublist].
      * intros m [Hin| ->%list_elem_of_singleton]%elem_of_app; [by apply Hm|].
        split; [by eapply Hsa, list_elem_of_lookup_2|].
        exists d. split; [by eapply Hsd, list_elem_of_lookup_2 | done].
    + intros Hloop Hpair. by apply (IH _ Hloop).
Qed.

Lemma reconcile_pairing (r : recon) :
  reconcile adds dels = Some r -> pairing adds dels r.
Proof.
  intros Hr. eapply reconcile_loop_pairing; [exact Hr|].
  unfold pairing. simpl. split_and!; [lia | lia | done | done |].
  intros m Hm. by apply elem_of_nil in Hm.
Qed.

End Pairing.

Lemma scan_diff_counting (diff : string) :
  DiffLines.counting (JS.split "010"%char diff) (scan_diff diff).
Proof.
  unfold scan_diff.
  apply (scan_counting (JS.split "010"%char diff) [] scan0). by split_and!.
Qed.

(** The counts of [X1_reconciliation_conserves], for reuse. *)
Lemma parseGitDiff_counts (diff : string) :
  exists lc hs,
    parseGitDiff diff = Some (lc, hs) /\
    (length (added lc) + length (modified lc)
     = DiffLines.count_lines DiffLines.is_added_line diff)%nat /\
    (length (deleted lc) + length (modified lc)
     = DiffLines.count_lines DiffLines.is_deleted_line diff)%nat /\
    hs = map finish_hunk (hunks (scan_diff diff)).
Proof.
  unfold parseGitDiff.
  destruct (reconcile_ends (s_added (scan_diff diff)) (s_deleted (scan_diff diff)))
    as (r & Hr & _).
  pose proof (reconcile_pairing _ _ _ Hr) as (Hna & Hnd & _).
  destruct (scan_diff_counting diff) as (Ha & Hd & _).
  rewrite Hr. simpl. eexists _, _. split; [done|]. simpl.
  unfold DiffLines.count_lines. split_and!; [lia | lia | done].
Qed.

(** X1.  The reconciliation loses no line: the added lines that remain
    and the modified lines are as many as the lines of the diff that
    begin with [+] (not [+++]), the deleted lines that remain and the
    modified lines as many as those that begin with [-] (not [---]); and
    every modified line was recorded for an added line, one line at most
    away from the number recorded for some deleted line. *)
Theorem X1_reconciliation_conserves (diff : string) :
  exists lc hs,
    parseGitDiff diff = Some (lc, hs) /\
    (length (added lc) + length (modified lc)
     = DiffLines.count_lines DiffLines.is_added_line diff)%nat /\
    (length (deleted lc) + length (modified lc)
     = DiffLines.count_lines DiffLines.is_deleted_line diff)%nat /\
    forall m, In m (modified lc) ->
      In m (s_added (scan_diff diff)) /\
      exists d, In d (s_deleted (scan_diff diff)) /\ Z.abs (m - d) <= 1.
Proof.
  unfold parseGitDiff.
  destruct (reconcile_ends (s_added (scan_diff diff)) (s_deleted (scan_diff diff)))
    as (r & Hr & _).
  pose proof (reconcile_pairing _ _ _ Hr) as (Hna & Hnd & _ & _ & Hm).
  destruct (scan_diff_counting diff) as (Ha & Hd & _).
  rewrite Hr. simpl. eexists _, _. split; [done|]. simpl.
  unfold DiffLines.count_lines. split_and!; [lia | lia |].
  intros m [Hin (d & Hd' & Hnear)]%list_elem_of_In%Hm.
  split; [by apply list_elem_of_In|].
  exists d. split; [by apply list_elem_of_In|].
  unfold near in Hnear. by apply Z.leb_le in Hnear.
Qed.

(** X2.  The three sets are all empty exactly when the diff has no line
    that begins with [+] (not [+++]) or with [-] (not [---]): so for the
    empty diff, and for one made of headers and context lines only. *)
Theorem X2_no_changed_lines (diff : string) :
  fst <$> parseGitDiff diff = Some (LineChanges [] [] []) <->
  DiffLines.count_lines DiffLines.is_added_line diff = 0%nat /\
  DiffLines.count_lines DiffLines.is_deleted_line diff = 0%nat.
Proof.
  destruct (parseGitDiff_counts diff) as (lc & hs & Hparse & Ha & Hd & _).
  rewrite Hparse. simpl. destruct lc as [a d m]. simpl in *. split.
  - intros [= -> -> ->]. simpl in *. lia.
  - intros [Ha0 Hd0]. destruct a, d, m; simpl in *; try lia. done.
Qed.

Lemma total_extent_finish (hs : list hunk) :
  DiffLines.total_extent (map finish_hunk hs)
  = Z.of_nat (fold_right (fun h acc => length (content h) + acc)%nat 0%nat hs).
Proof.
  induction hs as [|h hs IH]; [done|].
  cbn [map DiffLines.total_extent fold_right] in *.
  fold (DiffLines.total_extent (map finish_hunk hs)). rewrite IH. simpl. lia.
Qed.

(** X3.  A hunk holds the added and deleted lines that follow its
    header, not the context lines: its [end] exceeds its [start] by the
    number of those lines.  When no added or deleted line comes before
    the first header, the extents of all hunks add up to the added lines,
    the deleted lines and twice the modified lines of the result. *)
Theorem X3_hunk_extents (diff : string) :
  exists lc hs,
    parseGitDiff diff = Some (lc, hs) /\
    Forall (fun h =>
              h_end h = h_start h + Z.of_nat (length (h_content h)) /\
              Forall (fun line => DiffLines.is_added_line line
                                  || DiffLines.is_deleted_line line = true)
                     (h_content h)) hs /\
    (DiffLines.header_leads (JS.split "010"%char diff) = true ->
     DiffLines.total_extent hs
     = Z.of_nat (length (added lc) + length (deleted lc) + 2 * length (modified lc))).
Proof.
  destruct (parseGitDiff_counts diff) as (lc & hs & Hparse & Ha & Hd & ->).
  exists lc, (map finish_hunk (hunks (scan_diff diff))).
  destruct (scan_diff_counting diff) as (Hsa & Hsd & Hcontent).
  split_and!; [done | |].
  - apply List.Forall_map. eapply Forall_impl; [exact Hcontent|].
    intros h Hh. by split.
  - intros Hlead. rewrite total_extent_finish.
    unfold DiffLines.count_lines in *. f_equal.
    destruct (scan_header_leads (JS.split "010"%char diff) scan0 Hlead
                eq_refl eq_refl eq_refl) as [(Hna & Hnd & Hnh)|[_ Hsum]].
    + fold (scan_diff diff) in Hna, Hnd, Hnh.
      rewrite Hnh. rewrite Hna in Hsa. rewrite Hnd in Hsd. simpl in *. lia.
    + fold (scan_diff diff) in Hsum. lia.
Qed.

(** [X3_hunk_extents] on the diff that replaces three lines by one. *)
Lemma X3_hunk_extents_witness :
  exists lc hs,
    parseGitDiff Scenarios.diffThreeForOne = Some (lc, hs) /\
    DiffLines.total_extent hs
    = Z.of_nat (length (added lc) + length (deleted lc) + 2 * length (modified lc)).
Proof.
  destruct (X3_hunk_extents Scenarios.diffThreeForOne)
    as (lc & hs & Hparse & _ & Hextent).
  exists lc, hs. split; [exact Hparse|]. apply Hextent. reflexivity.
Defined.

(** [X2_no_changed_lines] on the empty diff. *)
Lemma X2_no_changed_lines_witness :
  fst <$> parseGitDiff "" = Some (LineChanges [] [] []).
Proof. apply X2_no_changed_lines. split; reflexivity. Defined.

(* ===================================================================== *)
(** * [ChangeAnalyzer]: testable files, impact tags, test targets         *)
(* ===================================================================== *)

Section ImpactFacts.

Import Impact.

Lemma is_prefix_inv (p s : string) :
  JS.is_prefix p s = true -> exists r, s = p +:+ r.
Proof.
  revert s. induction p as [|a p IH]; intros s; simpl.
  - intros _. by exists s.
  - destruct s as [|b s]; [done|].
    intros [->%Ascii.eqb_eq (r & ->)%IH]%andb_prop. by exists r.
Qed.

(** A name that ends with a suffix is a stem followed by the suffix. *)
Lemma endsWith_inv (s p : string) :
  JS.endsWith s p = true -> exists stem, s = stem +:+ p.
Proof.
  unfold JS.endsWith. intros (r & Hr)%is_prefix_inv.
  exists (JS.rev r).
  rewrite <- (rev_involutive s), Hr, rev_app. by rewrite rev_involutive.
Qed.

(** A string includes whatever it has in its middle. *)
Lemma includes_app (before w after : string) :
  JS.includes (before +:+ w +:+ after) w = true.
Proof.
  induction before as [|c before IH]; simpl.
  - pose proof (prefix_app w after) as H.
    destruct (w +:+ after); simpl; by rewrite H.
  - rewrite IH. apply orb_true_r.
Qed.

Lemma existsb_eqb (x : string) (seen : list string) :
  existsb (String.eqb x) seen = true <-> x ∈ seen.
Proof.
  rewrite existsb_exists. split.
  - intros (y & Hy & ->%String.eqb_eq). by apply list_elem_of_In.
  - intros Hx. exists x. split; [by apply list_elem_of_In | apply String.eqb_refl].
Qed.

Lemma elem_of_set_from (seen xs : list string) (x : string) :
  x ∈ set_from seen xs <-> x ∈ xs /\ x ∉ seen.
Proof.
  revert seen. induction xs as [|y xs IH]; intros seen; simpl.
  - split; [by intros ?%elem_of_nil | by intros [?%elem_of_nil _]].
  - destruct (existsb (String.eqb y) seen) eqn:E.
    + apply existsb_eqb in E. rewrite IH, elem_of_cons. split.
      * intros [? ?]. by split; [right|].
      * intros [[->|?] ?]; by split.
    + assert (y ∉ seen) by (intros ?%existsb_eqb; congruence).
      rewrite !elem_of_cons, IH, elem_of_cons. split.
      * intros [->|[? Hn]]; [by split; [left|]|].
        split; [by right|]. intros ?. apply Hn. by right.
      * intros [[->|?] Hn]; [by left|].
        destruct (decide (x = y)) as [->|Hne]; [by left|].
        right. split; [done|]. by intros [?|?].
Qed.

Lemma NoDup_set_from (seen xs : list string) : NoDup (set_from seen xs).
Proof.
  revert seen. induction xs as [|y xs IH]; intros seen; simpl; [constructor|].
  destruct (existsb (String.eqb y) seen); [apply IH|].
  constructor; [|apply IH].
  rewrite elem_of_set_from, elem_of_cons. intros [_ Hn]. apply Hn. by left.
Qed.

Lemma set_from_sublist (seen xs : list string) : set_from seen xs `sublist_of` xs.
Proof.
  revert seen. induction xs as [|y xs IH]; intros seen; simpl; [done|].
  destruct (existsb (String.eqb y) seen).
  - by apply sublist_cons.
  - by apply sublist_skip.
Qed.

Lemma set_from_NoDup_id (seen xs : list string) :
  NoDup xs -> (forall x, x ∈ xs -> x ∉ seen) -> set_from seen xs = xs.
Proof.
  revert seen. induction xs as [|y xs IH]; intros seen Hnd Hseen; simpl; [done|].
  apply NoDup_cons in Hnd as [Hy Hnd].
  destruct (existsb (String.eqb y) seen) eqn:E.
  - apply existsb_eqb in E. exfalso. eapply Hseen; [|done]. by left.
  - f_equal. apply IH; [done|].
    intros x Hx [->|Hin]%elem_of_cons; [done|].
    eapply Hseen; [|done]. by right.
Qed.

(** [[...new Set(xs)]] has the elements of [xs], each once, in the
    order of [xs]. *)
Lemma unique_spec (xs : list string) :
  NoDup (unique xs) /\ (forall x, x ∈ unique xs <-> x ∈ xs) /\
  unique xs `sublist_of` xs.
Proof.
  unfold unique. split_and!.
  - apply NoDup_set_from.
  - intros x. rewrite elem_of_set_from. split; [by intros [? _]|].
    intros Hx. split; [done|]. by intros ?%elem_of_nil.
  - apply set_from_sublist.
Qed.

End ImpactFacts.

(** X4.  A file whose name contains [node_modules], [dist], [build],
    [.git] or [coverage] anywhere, be it inside a file name such as
    [distance.js], is not testable; and a testable file has a name that
    ends in [.js], [.jsx], [.ts], [.tsx] or [.mjs]. *)
Theorem X4_testable_files :
  (forall before w after,
     In w Impact.excludePaths ->
     Impact.isTestableFile (before +:+ w +:+ after) = false) /\
  (forall filename,
     Impact.isTestableFile filename = true ->
     exists stem ext, In ext Impact.testableExtensions /\ filename = stem +:+ ext).
Proof.
  split.
  - intros before w after Hw. unfold Impact.isTestableFile.
    replace (existsb (JS.includes (before +:+ w +:+ after)) Impact.excludePaths)
      with true; [by rewrite andb_false_r|].
    symmetry. apply existsb_exists. exists w. split; [done|]. apply includes_app.
  - intros filename [Hext _]%andb_prop.
    apply existsb_exists in Hext as (ext & Hin & (stem & ->)%endsWith_inv).
    by exists stem, ext.
Qed.

(** [X4_testable_files] on [src/distance.js]. *)
Lemma X4_testable_files_witness :
  Impact.isTestableFile ("src/" +:+ "dist" +:+ "ance.js") = false.
Proof.
  apply (proj1 X4_testable_files "src/" "dist" "ance.js"). simpl. tauto.
Defined.

Lemma requestTags_range (names : list string) (t : string) :
  In t (flat_map Impact.requestTags names) ->
  In t ["GET requests"; "POST requests"; "PUT requests"; "DELETE requests"].
Proof.
  intros (f & _ & Ht)%in_flat_map. revert Ht. unfold Impact.requestTags.
  rewrite !in_app_iff.
  destruct (JS.includes f "get"), (JS.includes f "post"),
    (JS.includes f "put" || JS.includes f "update"), (JS.includes f "delete");
    simpl; intuition.
Qed.

(** Where a tag of [impacts] comes from. *)
Lemma in_impacts (file : string) (names : list string) (t : string) :
  In t (Impact.impacts file names) <->
  (JS.includes file "components/" || JS.includes file "pages/" = true /\
   (t = "UI rendering" \/
    (t = "User interactions" /\
     existsb (fun f => JS.includes f "handle" || JS.includes f "on") names = true))) \/
  (JS.includes file "api/" || JS.includes file "services/" = true /\
   (t = "API endpoints" \/ In t (flat_map Impact.requestTags names))) \/
  (JS.includes file "store/" || JS.includes file "redux/"
     || JS.includes file "context/" = true /\ t = "Application state") \/
  (JS.includes file "routes" || JS.includes file "router" = true /\ t = "Navigation").
Proof.
  unfold Impact.impacts. rewrite !in_app_iff.
  destruct (JS.includes file "components/" || JS.includes file "pages/");
  destruct (JS.includes file "api/" || JS.includes file "services/");
  destruct (JS.includes file "store/" || JS.includes file "redux/"
            || JS.includes file "context/");
  destruct (JS.includes file "routes" || JS.includes file "router");
  destruct (existsb (fun f => JS.includes f "handle" || JS.includes f "on") names);
  simpl; intuition (try congruence).
Qed.

(** X5.  [analyzeImpact] gives each tag once, out of nine tags;
    [UI rendering] exactly for a path with [components/] or [pages/];
    [User interactions] only together with [UI rendering], and a request
    tag only together with [API endpoints]; a path with none of the
    directory names gets no tag. *)
Theorem X5_impact_tags (file : string) (names : list string) :
  let tags := Impact.analyzeImpact file names in
  NoDup tags /\
  (forall t, In t tags -> In t Impact.allTags) /\
  (In "UI rendering" tags <->
   JS.includes file "components/" || JS.includes file "pages/" = true) /\
  (In "User interactions" tags -> In "UI rendering" tags) /\
  (forall t, In t ["GET requests"; "POST requests"; "PUT requests"; "DELETE requests"] ->
             In t tags -> In "API endpoints" tags) /\
  (JS.includes file "components/" || JS.includes file "pages/" = false ->
   JS.includes file "api/" || JS.includes file "services/" = false ->
   JS.includes file "store/" || JS.includes file "redux/"
     || JS.includes file "context/" = false ->
   JS.includes file "routes" || JS.includes file "router" = false ->
   tags = []).
Proof.
  intros tags. subst tags. unfold Impact.analyzeImpact.
  destruct (unique_spec (Impact.impacts file names)) as (Hnd & Hmem & _).
  assert (forall t, In t (Impact.unique (Impact.impacts file names)) <->
            In t (Impact.impacts file names)) as Hin.
  { intros t. by rewrite <- !list_elem_of_In. }
  split; [exact Hnd|]. split; [|split; [|split; [|split]]].
  - intros t [Hui|[Hapi|[Hst|Hnav]]]%Hin%in_impacts.
    + destruct Hui as [_ [->|[-> _]]]; simpl; tauto.
    + destruct Hapi as [_ [->|Hreq%requestTags_range]]; simpl in *; [tauto|].
      intuition.
    + destruct Hst as [_ ->]. simpl; tauto.
    + destruct Hnav as [_ ->]. simpl; tauto.
  - rewrite Hin, in_impacts. split.
    + intros [[? _]|[[_ [?|Hreq%requestTags_range]]|[[_ ?]|[_ ?]]]];
        simpl in *; try done. intuition congruence.
    + intros Hui. left. split; [done|]. by left.
  - rewrite !Hin, !in_impacts.
    intros [[? _]|[[_ [?|Hreq%requestTags_range]]|[[_ ?]|[_ ?]]]];
      simpl in *; try done; [by left; split; [|left] | intuition congruence].
  - intros t Ht. rewrite !Hin, !in_impacts.
    intros [[_ [->|[-> _]]]|[[? _]|[[_ ->]|[_ ->]]]];
      simpl in Ht; intuition congruence.
  - intros Hui Hapi Hst Hnav.
    destruct (Impact.unique (Impact.impacts file names)) as [|t tags] eqn:E; [done|].
    assert (In t (Impact.impacts file names)) as Ht by (apply Hin; by left).
    apply in_impacts in Ht. rewrite Hui, Hapi, Hst, Hnav in Ht.
    intuition congruence.
Qed.

(** [X5_impact_tags] on a file outside the tagged directories. *)
Lemma X5_impact_tags_witness :
  Impact.analyzeImpact "src/utils/math.js" ["add"; "onChange"] = [].
Proof.
  apply (proj2 (proj2 (proj2 (proj2 (proj2
    (X5_impact_tags "src/utils/math.js" ["add"; "onChange"]))))));
    reflexivity.
Defined.

(** X6.  The four lists of test targets that [saveResults] writes have
    no duplicates; [specificFunctions] holds exactly the function names
    of the changed files and [impactedAreas] exactly their impact tags;
    and since the file names are the keys of one object, [uiPaths] and
    [apiEndpoints] are the files with [components/] or [pages/], and with
    [api/] or [services/], in their order. *)
Theorem X6_test_targets (files : list (string * Impact.fileChange)) :
  let targets := Impact.targetsOf files in
  NoDup (Impact.uiPaths targets) /\ NoDup (Impact.apiEndpoints targets) /\
  NoDup (Impact.impactedAreas targets) /\ NoDup (Impact.specificFunctions targets) /\
  (forall f, In f (Impact.specificFunctions targets) <->
             exists file fc changeType,
               In (file, fc) files /\ In (f, changeType) (Impact.fc_functions fc)) /\
  (forall t, In t (Impact.impactedAreas targets) <->
             exists file fc, In (file, fc) files /\ In t (Impact.fc_impact fc)) /\
  (NoDup (map fst files) ->
   Impact.uiPaths targets
   = List.filter (fun file => JS.includes file "components/" || JS.includes file "pages/")
                 (map fst files) /\
   Impact.apiEndpoints targets
   = List.filter (fun file => JS.includes file "api/" || JS.includes file "services/")
                 (map fst files)).
Proof.
  intros targets. subst targets. unfold Impact.targetsOf. simpl.
  split_and!; try apply unique_spec.
  - intros f. rewrite <- list_elem_of_In, (proj1 (proj2 (unique_spec _)) f),
      list_elem_of_In, in_flat_map. split.
    + intros ([file fc] & Hin & [[f' ct] [<- Hf]]%in_map_iff). by exists file, fc, ct.
    + intros (file & fc & ct & Hin & Hf). exists (file, fc). split; [done|].
      apply in_map_iff. by exists (f, ct).
  - intros t. rewrite <- list_elem_of_In, (proj1 (proj2 (unique_spec _)) t),
      list_elem_of_In, in_flat_map. split.
    + intros ([file fc] & Hin & Ht). by exists file, fc.
    + intros (file & fc & Hin & Ht). by exists (file, fc).
  - intros Hnd. split; apply set_from_NoDup_id;
      try (by intros ? _ ?%elem_of_nil);
      by apply NoDup_ListNoDup, List.NoDup_filter, NoDup_ListNoDup.
Qed.

(** [X6_test_targets] on one component file. *)
Lemma X6_test_targets_witness :
  Impact.uiPaths
    (Impact.targetsOf
       [("src/components/Button.jsx",
         Impact.FileChange "src/components/Button.jsx" (LineChanges [] [] [3])
           [("handleClick", "modified")] [] ["UI rendering"])])
  = ["src/components/Button.jsx"].
Proof.
  apply (proj2 (proj2 (proj2 (proj2 (proj2 (proj2
    (X6_test_targets
       [("src/components/Button.jsx",
         Impact.FileChange "src/components/Button.jsx" (LineChanges [] [] [3])
           [("handleClick", "modified")] [] ["UI rendering"])]))))))).
  simpl. apply NoDup_singleton.
Defined.

Lemma countFile_total (sm : Impact.summary) (f : Impact.diffFile) :
  Impact.totalChanges sm
  = (Impact.sm_added sm + Impact.sm_modified sm + Impact.sm_deleted sm)%nat ->
  let sm' := Impact.countFile sm f in
  Impact.totalChanges sm'
  = (Impact.sm_added sm' + Impact.sm_modified sm' + Impact.sm_deleted sm')%nat /\
  Impact.totalChanges sm'
  = (Impact.totalChanges sm
     + if Impact.isTestableFile (Impact.df_file f) then 1 else 0)%nat.
Proof.
  intros Hsm. unfold Impact.countFile.
  destruct (Impact.isTestableFile (Impact.df_file f)); simpl; [|lia].
  destruct (Impact.positive (Impact.df_insertions f)
            && Impact.zero (Impact.df_deletions f)); simpl; [lia|].
  destruct (Impact.positive (Impact.df_deletions f)
            && Impact.zero (Impact.df_insertions f)); simpl; lia.
Qed.

(** X7.  When the Git analysis runs through, the summary counts every
    testable file of the diff once, as added, deleted or modified:
    [totalChanges] is the sum of the three counters and the number of
    testable files. *)
Theorem X7_summary_counts (files : list Impact.diffFile) :
  let sm := Impact.summaryOf files in
  Impact.totalChanges sm
  = (Impact.sm_added sm + Impact.sm_modified sm + Impact.sm_deleted sm)%nat /\
  Impact.totalChanges sm
  = length (List.filter Impact.isTestableFile (map Impact.df_file files)).
Proof.
  unfold Impact.summaryOf.
  assert (forall sm0,
            Impact.totalChanges sm0
            = (Impact.sm_added sm0 + Impact.sm_modified sm0 + Impact.sm_deleted sm0)%nat ->
            let sm := fold_left Impact.countFile files sm0 in
            Impact.totalChanges sm
            = (Impact.sm_added sm + Impact.sm_modified sm + Impact.sm_deleted sm)%nat /\
            Impact.totalChanges sm
            = (Impact.totalChanges sm0
               + length (List.filter Impact.isTestableFile
                           (map Impact.df_file files)))%nat) as Hgen.
  { induction files as [|f files IH]; intros sm0 Hsm0; simpl.
    - split; [done | lia].
    - destruct (countFile_total sm0 f Hsm0) as [Hsum Hstep].
      destruct (IH _ Hsum) as [Hsum' Hcount]. split; [done|].
      rewrite Hcount, Hstep.
      destruct (Impact.isTestableFile (Impact.df_file f)); simpl; lia. }
  destruct (Hgen (Impact.Summary 0 0 0 0) eq_refl) as [H1 H2].
  split; [exact H1 | exact H2].
Qed.

(* ===================================================================== *)
(** * [ChangeAnalyzer.detectFunctionChanges]: nested declarations         *)
(* ===================================================================== *)

Lemma has_line_widen (ls : list Z) (first last first' last' : Z) :
  first' <= first -> last <= last' ->
  Rules.has_line ls first last -> Rules.has_line ls first' last'.
Proof. intros ? ? (l & Hl & ?). exists l. split; [done | lia]. Qed.

Lemma has_line_all (lc : lineChanges) (first last : Z) :
  Rules.has_line (deleted lc) first last -> Rules.has_line (allLines lc) first last.
Proof.
  intros (l & Hl & ?). exists l. split; [|done].
  unfold allLines. rewrite !in_app_iff. tauto.
Qed.

(** X8.  A changed line inside a nested declaration counts for the
    declarations around it.  In a tree without a class method, when the
    range of a uniquely named declaration encloses a range that contains
    a changed line, the declaration is recorded, and it is recorded as
    [deleted] when the enclosed range contains a deleted line. *)
Theorem X8_enclosing_declaration (ast : list node) (lc : lineChanges)
    (outer : node) (name : string) (first last : Z) :
  existsb throws ast = false ->
  In outer ast -> node_name outer = Named name -> name <> "__proto__" ->
  (forall n', In n' ast -> node_name n' = Named name -> n' = outer) ->
  (node_range outer).1 <= first -> last <= (node_range outer).2 ->
  Rules.has_line (allLines lc) first last ->
  exists functions c,
    detectFunctionChanges ast lc = Some functions /\
    functions !! name = Some c /\
    (Rules.has_line (deleted lc) first last -> c = "deleted").
Proof.
  intros Hast Hin Hname Hproto Hunique Hfirst Hlast Hline.
  destruct (detectFunctionChanges_lookup lc ast Hast)
    as (functions & Heq & _ & _ & Hlookup).
  exists functions.
  rewrite (lookup_unique_name lc ast functions outer name) by done.
  apply (has_line_widen _ _ _ _ _ Hfirst Hlast), existsb_has_line in Hline.
  rewrite Hline. eexists. split_and!; [done | done |].
  intros Hdel%(has_line_widen _ _ _ _ _ Hfirst Hlast)%existsb_has_line.
  unfold classify. by rewrite Hdel.
Qed.

(** [X8_enclosing_declaration]: the function [total] at lines 1 to 20
    around the callback [add] at lines 5 to 7 with the deleted line 6. *)
Lemma X8_enclosing_declaration_witness :
  exists functions c,
    detectFunctionChanges Scenarios.totalAndAdd (LineChanges [] [6] [])
    = Some functions /\
    functions !! "total" = Some c /\
    (Rules.has_line (deleted (LineChanges [] [6] [])) 5 7 -> c = "deleted").
Proof.
  apply (X8_enclosing_declaration Scenarios.totalAndAdd (LineChanges [] [6] [])
           (FunctionDeclaration (Some "total") 1 20) "total" 5 7).
  - reflexivity.
  - by left.
  - reflexivity.
  - discriminate.
  - intros n' [<-|[<-|[]]]; [done | discriminate].
  - simpl. lia.
  - simpl. lia.
  - exists 6. split; [simpl; tauto | lia].
Defined.

(* ===================================================================== *)
(** * [SelfHealingTest.getHealingStats]                                   *)
(* ===================================================================== *)

Section Stats.

Import SelfHealingTest HealingStats.

Lemma lookup_bump (counts : gmap string nat) (a : healingAttempt) (k : string) :
  bump counts a !! k
  = if String.eqb (key (ha_strategy a)) k
    then Some (default 0%nat (counts !! k) + 1)%nat
    else counts !! k.
Proof.
  unfold bump. destruct (String.eqb_spec (key (ha_strategy a)) k) as [Heq|Hne].
  - rewrite Heq. apply lookup_insert_eq.
  - by apply lookup_insert_ne.
Qed.

(** The count under a key is the number of attempts with that key; a
    key without attempts is missing. *)
Lemma byStrategy_counts (ledger : list healingAttempt) (counts : gmap string nat)
    (k : string) :
  default 0%nat (fold_left bump ledger counts !! k)
  = (default 0%nat (counts !! k) + recorded k ledger)%nat /\
  (fold_left bump ledger counts !! k = None <->
   counts !! k = None /\ recorded k ledger = 0%nat).
Proof.
  revert counts. induction ledger as [|a ledger IH]; intros counts.
  { unfold recorded. simpl. split; [lia | tauto]. }
  cbn [fold_left]. destruct (IH (bump counts a)) as [IH1 IH2].
  rewrite lookup_bump in IH1, IH2.
  unfold recorded in *. cbn [List.filter].
  destruct (String.eqb (key (ha_strategy a)) k); simpl in *.
  - split; [lia|]. rewrite IH2. split; [by intros [? _] | by intros [_ ?]].
  - done.
Qed.

Lemma decimal_inj (n m : nat) : Rules.decimal n = Rules.decimal m -> n = m.
Proof.
  intros H. apply Nat2Z.inj. by rewrite <- !parseInt_decimal, H.
Qed.

Lemma key_inj (s t : strategyTag) : key s = key t -> s = t.
Proof.
  destruct s as [n|], t as [m|]; simpl; try done.
  - by intros ->%decimal_inj.
  - intros H. exfalso.
    pose proof (decimal_digits n) as Hd. rewrite H in Hd. done.
  - intros H. exfalso.
    pose proof (decimal_digits m) as Hd. rewrite <- H in Hd. done.
Qed.

(** A series of calls appends one well-formed record per call. *)
Lemma session_ledger (calls : list call) (ledger : list healingAttempt) :
  exists new,
    (session calls ledger).2 = ledger ++ new /\
    length new = length calls /\
    length (session calls ledger).1 = length calls /\
    Forall well_formed new /\
    length (List.filter ha_success new) = returned (session calls ledger).1.
Proof.
  revert ledger. induction calls as [|c calls IH]; intros ledger.
  { exists []. simpl. by rewrite app_nil_r. }
  cbn [session].
  destruct (findElement_ledger (c_page c) (c_now c) ledger (c_selectors c)
              (c_context c))
    as [(el & tier & strategy & -> & Hrange & _)|[-> _]];
    match goal with
    | |- context [session calls (ledger ++ [?a])] =>
        destruct (IH (ledger ++ [a])) as (new & Hl & Hn & Hr & Hwf & Hs);
        destruct (session calls (ledger ++ [a])) as [results ledger''];
        simpl in *; exists (a :: new)
    end; subst ledger''; rewrite <- app_assoc; simpl;
    (split_and!; [done | lia | lia | | ]).
  - constructor; [|done]. left. by exists tier.
  - unfold returned in *. simpl. lia.
  - constructor; [|done]. by right.
  - unfold returned in *. simpl. lia.
Qed.

End Stats.

Section StatsFacts.

Import SelfHealingTest HealingStats.

Lemma filter_length_all {A} (p : A -> bool) (l : list A) :
  (length (List.filter p l) <= length l)%nat /\
  (length (List.filter p l) = length l <-> forall a, In a l -> p a = true).
Proof.
  induction l as [|x l [IHle IHeq]]; simpl; [by split; [lia | split]|].
  destruct (p x) eqn:Hx; simpl.
  - split; [lia|]. split.
    + intros Hl a [<-|Ha]; [done|]. apply IHeq; [lia | done].
    + intros Hall. f_equal. apply IHeq. intros a Ha. apply Hall. by right.
  - split; [lia|]. split; [lia|].
    intros Hall. specialize (Hall x (or_introl eq_refl)). congruence.
Qed.

Lemma filter_length_some {A} (p : A -> bool) (l : list A) :
  length (List.filter p l) <> length l -> exists a, In a l /\ p a = false.
Proof.
  induction l as [|x l IH]; simpl; [done|].
  destruct (p x) eqn:Hx; simpl.
  - intros Hne. destruct IH as (a & Ha & Hpa); [lia|]. exists a. by split; [right|].
  - intros _. exists x. by split; [left|].
Qed.

Lemma well_formed_counts (ledger : list healingAttempt) :
  Forall well_formed ledger ->
  (length (List.filter ha_success ledger) + recorded "failed" ledger
   = length ledger)%nat.
Proof.
  unfold recorded. induction 1 as [|a ledger Ha _ IH]; simpl; [done|].
  destruct Ha as [(t & _ & Ht & ->)|[Ht ->]]; rewrite Ht; simpl.
  - destruct (String.eqb_spec (Rules.decimal t) "failed") as [Heq|_]; simpl; [|lia].
    pose proof (decimal_digits t) as Hd. rewrite Heq in Hd. done.
  - lia.
Qed.

Lemma well_formed_key (a : healingAttempt) :
  well_formed a ->
  In (key (ha_strategy a)) ["1"; "2"; "3"; "4"; "5"; "6"; "failed"].
Proof.
  intros [(t & Ht & -> & _)|[-> _]]; simpl; [|tauto].
  destruct t as [|[|[|[|[|[|[|t]]]]]]]; try lia; vm_compute; tauto.
Qed.

End StatsFacts.

(** X9.  After a series of [findElement] calls on a fresh
    [SelfHealingTest], [getHealingStats] reports as [total] the number of
    calls and as [successful] the number of calls that returned an
    element; the failed calls are counted under ['failed'], so that
    [successful] and the ['failed'] count add up to [total]; and every key
    of [byStrategy] is one of ['1'] to ['6'] or ['failed'], with the
    number of attempts recorded under it. *)
Theorem X9_stats_of_session (calls : list HealingStats.call) :
  let out := HealingStats.session calls [] in
  let st := HealingStats.getHealingStats out.2 in
  HealingStats.total st = length calls /\
  HealingStats.successful st = HealingStats.returned out.1 /\
  (HealingStats.successful st
   + default 0%nat (HealingStats.byStrategy st !! "failed")
   = HealingStats.total st)%nat /\
  forall k n,
    HealingStats.byStrategy st !! k = Some n ->
    In k ["1"; "2"; "3"; "4"; "5"; "6"; "failed"] /\
    n = HealingStats.recorded k out.2 /\ (0 < n)%nat.
Proof.
  intros out st. subst out st.
  destruct (session_ledger calls []) as (new & Hl & Hn & _ & Hwf & Hs).
  simpl in Hl. rewrite Hl. unfold HealingStats.getHealingStats. simpl.
  destruct (byStrategy_counts new ∅ "failed") as [Hfailed _].
  rewrite lookup_empty in Hfailed. simpl in Hfailed.
  pose proof (well_formed_counts new Hwf) as Hsum.
  split_and!; [done | done | lia |].
  intros k n Hk. destruct (byStrategy_counts new ∅ k) as [Hcount Hnone].
  rewrite Hk, lookup_empty in Hcount. simpl in Hcount.
  assert (n <> 0%nat) as Hpos.
  { intros ->. rewrite Hk in Hnone.
    destruct Hnone as [_ Hnone]. by specialize (Hnone (conj (lookup_empty _) (eq_sym Hcount))). }
  split_and!; [| done | lia].
  unfold HealingStats.recorded in Hcount.
  destruct (List.filter
              (fun a => String.eqb (HealingStats.key (SelfHealingTest.ha_strategy a)) k) new)
    as [|a l] eqn:E; [simpl in Hcount; lia|].
  assert (In a (List.filter
                  (fun a => String.eqb (HealingStats.key (SelfHealingTest.ha_strategy a)) k) new))
    as [Hin Hkey%String.eqb_eq]%filter_In by (rewrite E; by left).
  rewrite <- Hkey. apply well_formed_key.
  rewrite Forall_forall in Hwf. by apply Hwf, list_elem_of_In.
Qed.

(** X10.  [TestRunner.executeAction] reports [healingUsed] exactly when
    the ledger of the test holds an attempt that was not resolved at tier
    1: a failed attempt counts as healing, and once one such attempt is
    recorded every later action of the same test reports healing. *)
Theorem X10_healing_used (ledger : list SelfHealingTest.healingAttempt) :
  HealingStats.healingUsed (HealingStats.getHealingStats ledger) = true <->
  exists a, In a ledger /\
            SelfHealingTest.ha_strategy a <> SelfHealingTest.Tier 1.
Proof.
  unfold HealingStats.healingUsed, HealingStats.getHealingStats. simpl.
  destruct (byStrategy_counts ledger ∅ "1") as [Hcount Hnone].
  rewrite lookup_empty in Hcount, Hnone. simpl in Hcount.
  unfold HealingStats.recorded in *.
  destruct (filter_length_all
              (fun a => String.eqb (HealingStats.key (SelfHealingTest.ha_strategy a)) "1") ledger)
    as [Hle Hall].
  assert (forall a : SelfHealingTest.healingAttempt,
            String.eqb (HealingStats.key (SelfHealingTest.ha_strategy a)) "1" = true <->
            SelfHealingTest.ha_strategy a = SelfHealingTest.Tier 1) as Hkey.
  { intros a. rewrite String.eqb_eq. split.
    - intros H. by apply key_inj.
    - by intros ->. }
  rewrite andb_true_iff, Nat.ltb_lt, negb_true_iff, bool_decide_eq_false. split.
  - intros [Hpos Hne].
    destruct (filter_length_some
                (fun a => String.eqb (HealingStats.key (SelfHealingTest.ha_strategy a)) "1") ledger)
      as (a & Ha & Hka).
    + intros Heq. apply Hne.
      destruct (fold_left HealingStats.bump ledger ∅ !! "1") as [n|] eqn:E;
        simpl in Hcount; [by rewrite Hcount, Heq|].
      destruct Hnone as [Hnone _]. specialize (Hnone eq_refl) as [_ Hzero]. lia.
    + exists a. split; [done|]. intros Ht%Hkey. congruence.
  - intros (a & Ha & Hta). split.
    + destruct ledger; [done | simpl; lia].
    + intros Hsome. rewrite Hsome in Hcount. simpl in Hcount.
      apply Hta, Hkey. apply Hall; [lia | done].
Qed.

(* ===================================================================== *)
(** * The generated tests                                                 *)
(* ===================================================================== *)

Section GeneratedTests.

Import ChangeAwareTestGenerator Generation.

Lemma is_prefix_lower (p s : string) :
  JS.is_prefix p s = true ->
  JS.is_prefix (JS.toLowerCase p) (JS.toLowerCase s) = true.
Proof.
  revert s. induction p as [|a p IH]; intros s; [done|].
  destruct s as [|b s]; simpl; [done|].
  intros [Hab Hps]%andb_true_iff. apply Ascii.eqb_eq in Hab as ->.
  rewrite Ascii.eqb_refl. simpl. by apply IH.
Qed.

Lemma includes_lower (s w : string) :
  JS.includes s w = true ->
  JS.includes (JS.toLowerCase s) (JS.toLowerCase w) = true.
Proof.
  induction s as [|c s IH]; simpl.
  - rewrite orb_false_r. intros H. apply is_prefix_lower in H. simpl in H.
    by rewrite H.
  - intros [H|H]%orb_true_iff.
    + apply is_prefix_lower in H. simpl in H. by rewrite H.
    + rewrite (IH H). by rewrite orb_true_r.
Qed.

Lemma in_generateAPITests (file : string) (ch : changes) (t : apiTest) :
  In t (generateAPITests file ch) <->
  exists funcName changeType,
    In (funcName, changeType) (live ch) /\
    t = APITest ("API Test: " +:+ funcName +:+ " in " +:+ file) file funcName
                (deriveEndpoint file funcName) (deriveHTTPMethod funcName)
                changeType (modified (lines ch))
                (generateValidations funcName ch).
Proof.
  unfold generateAPITests, live. rewrite in_flat_map. split.
  - intros ([funcName changeType] & Hin & Ht). unfold apiTestOf in Ht.
    destruct (String.eqb changeType "deleted") eqn:E; [done|].
    destruct Ht as [<-|[]]. exists funcName, changeType. split; [|done].
    apply filter_In. split; [done|]. simpl. by rewrite E.
  - intros (funcName & changeType & [Hin Hlive]%filter_In & ->).
    exists (funcName, changeType). split; [done|]. unfold apiTestOf.
    simpl in Hlive. apply negb_true_iff in Hlive. rewrite Hlive. by left.
Qed.

Lemma generateAPITests_length (file : string) (ch : changes) :
  length (generateAPITests file ch) = length (live ch).
Proof.
  unfold generateAPITests, live.
  induction (functions ch) as [|[funcName changeType] l IH]; simpl; [done|].
  rewrite length_app, IH.
  by destruct (String.eqb changeType "deleted").
Qed.

End GeneratedTests.

Section GeneratedCounts.

Import ChangeAwareTestGenerator Generation.

Variable componentNameOf : string -> string.

Lemma typed_app (type : string) (l1 l2 : list test) :
  typed type (l1 ++ l2) = (typed type l1 + typed type l2)%nat.
Proof. unfold typed. by rewrite List.filter_app, length_app. Qed.

Lemma typed_api_tests (type : string) (l : list apiTest) :
  typed type (map API l) = if String.eqb "api" type then length l else 0%nat.
Proof.
  unfold typed. induction l as [|t l IH]; [by destruct (String.eqb "api" type)|].
  cbn [map List.filter]. change (has_type type (API t)) with (String.eqb "api" type).
  destruct (String.eqb "api" type); cbn [length]; by rewrite IH.
Qed.

Lemma typed_ui_entries (type : string) (file : string) (ch : changes)
    (entries : list (string * string)) :
  typed type (map UI (flat_map (uiTestOf componentNameOf file ch) entries))
  = if String.eqb "ui" type
    then length (List.filter (fun entry => negb (String.eqb entry.2 "deleted")) entries)
    else 0%nat.
Proof.
  unfold typed. induction entries as [|[funcName changeType] entries IH].
  { by destruct (String.eqb "ui" type). }
  cbn [flat_map uiTestOf List.filter snd].
  destruct (String.eqb changeType "deleted"); cbn [negb app]; [done|].
  cbn [map List.filter].
  match goal with
  | |- context [has_type type (UI ?t)] =>
      change (has_type type (UI t)) with (String.eqb "ui" type)
  end.
  destruct (String.eqb "ui" type); cbn [length]; by rewrite IH.
Qed.

Lemma typed_ui_tests (type : string) (file : string) (ch : changes) :
  typed type (map UI (generateUITests componentNameOf file ch))
  = ((if String.eqb "ui" type then length (live ch) else 0) +
     (if String.eqb "visual" type && significant ch then 1 else 0))%nat.
Proof.
  unfold generateUITests. rewrite map_app, typed_app, typed_ui_entries.
  f_equal. fold (significant ch). destruct (significant ch).
  - unfold typed. cbn [map List.filter].
    match goal with
    | |- context [has_type type (UI ?t)] =>
        change (has_type type (UI t)) with (String.eqb "visual" type)
    end.
    by destruct (String.eqb "visual" type).
  - by rewrite andb_false_r.
Qed.

Lemma typed_partition (tests : list test) :
  length tests = (typed "ui" tests + typed "api" tests + typed "visual" tests)%nat.
Proof.
  unfold typed. induction tests as [|t tests IH]; [done|].
  cbn [List.filter].
  destruct t as [[]|];
    repeat match goal with
           | |- context [has_type ?type ?t] =>
               let b := eval cbv in (has_type type t) in
               change (has_type type t) with b
           end;
    cbn [length]; lia.
Qed.

End GeneratedCounts.

Lemma typed_if (type : string) (b : bool) (tests : list Generation.test) :
  Generation.typed type (if b then tests else [])
  = if b then Generation.typed type tests else 0%nat.
Proof. by destruct b. Qed.

Section APITargets.

Import ChangeAwareTestGenerator Generation.

Lemma in_generateValidations (funcName : string) (ch : changes) (v : validation) :
  In v (generateValidations funcName ch) <->
  (JS.includes funcName "get" = true /\
   v = Validation (Some 200) (Some "hasData") None) \/
  (JS.includes funcName "create" || JS.includes funcName "post" = true /\
   v = Validation (Some 201) (Some "hasId") None) \/
  (JS.includes funcName "update" || JS.includes funcName "put" = true /\
   v = Validation (Some 200) (Some "dataUpdated") None) \/
  (JS.includes funcName "delete" = true /\ v = Validation (Some 204) None None) \/
  (existsb auth_line (ChangeAnalyzer.modified (lines ch)) = true /\
   v = Validation None None (Some "auth-check")).
Proof.
  unfold generateValidations. rewrite !in_app_iff.
  destruct (JS.includes funcName "get"),
    (JS.includes funcName "create" || JS.includes funcName "post"),
    (JS.includes funcName "update" || JS.includes funcName "put"),
    (JS.includes funcName "delete"),
    (existsb auth_line (ChangeAnalyzer.modified (lines ch)));
    cbn [In]; intuition (try discriminate; auto).
Qed.

Lemma generator_method_verbs (funcName : string) :
  In (deriveHTTPMethod funcName) ["GET"; "POST"; "PUT"; "PATCH"; "DELETE"].
Proof.
  unfold deriveHTTPMethod. set (has := JS.includes (JS.toLowerCase funcName)).
  repeat match goal with
         | |- context [has ?k] => destruct (has k); cbn [orb]
         end; cbn [In]; tauto.
Qed.

End APITargets.

(** X11.  Every target of [generateAPITests] stands for a function of
    the record that is not ['deleted'], has one of the five methods and
    an endpoint under [/api/].  It carries the ['auth-check'] validation
    exactly when some modified line of the file lies between 10 and 20,
    whatever the function; a target that expects [hasData] has the method
    GET, and one that expects a 201 with [hasId] has the method POST or
    GET. *)
Theorem X11_api_targets (file : string) (ch : ChangeAwareTestGenerator.changes)
    (t : Generation.apiTest) :
  In t (Generation.generateAPITests file ch) ->
  Generation.at_changeType t <> "deleted" /\
  In (Generation.at_function t, Generation.at_changeType t)
     (ChangeAwareTestGenerator.functions ch) /\
  In (Generation.at_method t) ["GET"; "POST"; "PUT"; "PATCH"; "DELETE"] /\
  JS.startsWith (Generation.at_endpoint t) "/api/" = true /\
  (In (Generation.Validation None None (Some "auth-check"))
      (Generation.at_validations t) <->
   exists line,
     In line (modified (ChangeAwareTestGenerator.lines ch)) /\ 10 <= line <= 20) /\
  (In (Generation.Validation (Some 200) (Some "hasData") None)
      (Generation.at_validations t) ->
   Generation.at_method t = "GET") /\
  (In (Generation.Validation (Some 201) (Some "hasId") None)
      (Generation.at_validations t) ->
   Generation.at_method t = "POST" \/ Generation.at_method t = "GET").
Proof.
  intros (funcName & changeType & [Hin Hlive]%filter_In & ->)%in_generateAPITests.
  cbn [Generation.at_changeType Generation.at_function Generation.at_method
       Generation.at_endpoint Generation.at_validations].
  simpl in Hlive. apply negb_true_iff in Hlive.
  split_and!.
  - intros ->. done.
  - done.
  - apply generator_method_verbs.
  - rewrite generator_endpoint_shape.
    unfold JS.startsWith. apply prefix_app.
  - rewrite in_generateValidations. split.
    + intros [[_ [=]]|[[_ [=]]|[[_ [=]]|[[_ [=]]|[Hsome _]]]]].
      apply existsb_exists in Hsome as (line & Hline & Hrange).
      exists line. split; [done|]. unfold Generation.auth_line in Hrange. lia.
    + intros (line & Hline & Hrange). do 4 right. split; [|done].
      apply existsb_exists. exists line. split; [done|].
      unfold Generation.auth_line. lia.
  - rewrite in_generateValidations.
    intros [[Hget _]|[[_ [=]]|[[_ [=]]|[[_ [=]]|[_ [=]]]]]].
    apply includes_lower in Hget.
    unfold ChangeAwareTestGenerator.deriveHTTPMethod.
    change (JS.toLowerCase "get") with "get" in Hget. by rewrite Hget.
  - rewrite in_generateValidations.
    intros [[_ [=]]|[[Hpost _]|[[_ [=]]|[[_ [=]]|[_ [=]]]]]].
    unfold ChangeAwareTestGenerator.deriveHTTPMethod.
    destruct (JS.includes (JS.toLowerCase funcName) "get"
              || JS.includes (JS.toLowerCase funcName) "fetch"); [by right|].
    left. apply orb_true_iff in Hpost as [H|H]; apply includes_lower in H.
    + change (JS.toLowerCase "create") with "create" in H.
      by rewrite H, orb_true_r.
    + change (JS.toLowerCase "post") with "post" in H. by rewrite H.
Qed.

(** [X11_api_targets] on the file [api/users.js] with the function
    [getUserById] modified at line 12. *)
Lemma X11_api_targets_witness :
  exists t,
    In t (Generation.generateAPITests "api/users.js"
            (ChangeAwareTestGenerator.Changes [("getUserById", "modified")]
               (LineChanges [] [] [12]))) /\
    Generation.at_method t = "GET" /\
    In (Generation.Validation None None (Some "auth-check"))
       (Generation.at_validations t).
Proof.
  eexists. split; [by left|].
  pose proof (X11_api_targets "api/users.js"
                (ChangeAwareTestGenerator.Changes [("getUserById", "modified")]
                   (LineChanges [] [] [12])) _ (or_introl eq_refl))
    as (_ & _ & _ & _ & Hauth & Hget & _).
  split.
  - apply Hget. by left.
  - apply Hauth. exists 12. split; [by left | lia].
Defined.

(** X12.  [generateTests] gives one ['ui'] target for each function
    that is not ['deleted'] of each file with [components/] or [pages/]
    in its path, one ['api'] target for each such function of each file
    with [api/] or [services/], and at most one ['visual'] target for a
    file of the first kind; a file of neither kind gives nothing, one of
    both kinds gives both.  The three filters of [TestRunner.execute]
    leave no generated test out. *)
Theorem X12_generated_tests (componentNameOf : string -> string)
    (files : list (string * ChangeAwareTestGenerator.changes)) :
  let tests := Generation.generateTests componentNameOf files in
  let functions_of (kind : string -> bool) :=
    list_sum (map (fun entry => length (Generation.live entry.2))
                  (List.filter (fun entry => kind entry.1) files)) in
  Generation.typed "ui" tests = functions_of Generation.ui_file /\
  Generation.typed "api" tests = functions_of Generation.api_file /\
  Generation.typed "visual" tests
  = length (List.filter (fun entry => Generation.ui_file entry.1
                                      && Generation.significant entry.2) files) /\
  length tests
  = (Generation.typed "ui" tests + Generation.typed "api" tests
     + Generation.typed "visual" tests)%nat.
Proof.
  intros tests functions_of. subst tests functions_of.
  split_and!; [| | |apply typed_partition].
  all: unfold Generation.generateTests.
  all: induction files as [|[file ch] files IH]; [done|].
  all: cbn [flat_map List.filter fst snd].
  all: rewrite typed_app, IH; clear IH.
  all: unfold Generation.testsOf, Generation.ui_file, Generation.api_file.
  all: rewrite typed_app, !typed_if, typed_ui_tests, typed_api_tests.
  all: repeat match goal with
              | |- context [String.eqb ?a ?b] =>
                  let v := eval cbv in (String.eqb a b) in
                  change (String.eqb a b) with v
              end.
  all: destruct (JS.includes file "components/" || JS.includes file "pages/"),
         (JS.includes file "api/" || JS.includes file "services/"),
         (Generation.significant ch);
         cbn [map length fst snd andb];
         repeat match goal with
                | |- context [list_sum (?a :: ?l)] =>
                    change (list_sum (a :: l)) with (a + list_sum l)%nat
                end; rewrite ?generateAPITests_length; lia.
Qed.

(* ===================================================================== *)
(** * The generated descriptors                                           *)
(* ===================================================================== *)

Section GeneratedDescriptor.

Import SelfHealingTest ChangeAwareTestGenerator.

Lemma lower_char_not_upper (c : ascii) : JS.is_upper (JS.lower_char c) = false.
Proof. by destruct c as [[] [] [] [] [] [] [] []]. Qed.

Lemma toLowerCase_no_capital (s : string) :
  JS.all_chars (fun c => negb (JS.is_upper c)) (JS.toLowerCase s) = true.
Proof.
  induction s as [|c s IH]; [done|].
  cbn [JS.toLowerCase JS.all_chars]. by rewrite lower_char_not_upper, IH.
Qed.

Lemma toLowerCase_app (s t : string) :
  JS.toLowerCase (s +:+ t) = JS.toLowerCase s +:+ JS.toLowerCase t.
Proof. induction s as [|c s IH]; simpl; [done | by rewrite IH]. Qed.

End GeneratedDescriptor.

(** X13.  The descriptor that [generateSelectors] builds has a test id
    without capital letters, the lower-cased component name, a hyphen and
    the lower-cased function name; it has no XPath, no [text] or
    [partialText] of its own (the texts sit under [fallback], which
    [findElement] does not read) and a role but no name.  So
    [findElement] resolves it at tier 1, 2 or 6 or fails, never at tier
    3, 4 or 5. *)
Theorem X13_generated_descriptor (componentNameOf : string -> string)
    (count : SelfHealingTest.page) (now : Z)
    (ledger : list SelfHealingTest.healingAttempt) (file funcName : string)
    (context : option SelfHealingTest.locator) :
  let s := ChangeAwareTestGenerator.generateSelectors componentNameOf file funcName in
  let t := JS.toLowerCase (componentNameOf file) +:+ "-" +:+ JS.toLowerCase funcName in
  SelfHealingTest.testId s = Some t /\
  JS.all_chars (fun c => negb (JS.is_upper c)) t = true /\
  SelfHealingTest.tier1 s
  = Some (SelfHealingTest.Locate (SelfHealingTest.byTestId t)) /\
  SelfHealingTest.tier3 s = None /\
  SelfHealingTest.tier4 s = None /\
  SelfHealingTest.tier5 s = None /\
  exists tag,
    (SelfHealingTest.findElement count now ledger s context).2
    = ledger ++ [SelfHealingTest.HealingAttempt s tag
                   (match tag with
                    | SelfHealingTest.Failed => false
                    | SelfHealingTest.Tier _ => true
                    end) now] /\
    In tag [SelfHealingTest.Tier 1; SelfHealingTest.Tier 2;
            SelfHealingTest.Tier 6; SelfHealingTest.Failed].
Proof.
  intros s t.
  assert (JS.toLowerCase (componentNameOf file +:+ "-" +:+ funcName) = t) as Ht.
  { by rewrite !toLowerCase_app. }
  assert (SelfHealingTest.tier5 s = None) as H5.
  { unfold SelfHealingTest.tier5. subst s. cbn [SelfHealingTest.role SelfHealingTest.name
      ChangeAwareTestGenerator.generateSelectors SelfHealingTest.truthy].
    by destruct (String.eqb _ _). }
  split_and!.
  - subst s. cbn [ChangeAwareTestGenerator.generateSelectors SelfHealingTest.testId].
    by rewrite Ht.
  - rewrite <- Ht. apply toLowerCase_no_capital.
  - subst s. unfold SelfHealingTest.tier1.
    cbn [ChangeAwareTestGenerator.generateSelectors SelfHealingTest.testId].
    rewrite Ht. subst t.
    by destruct (JS.toLowerCase (componentNameOf file)).
  - done.
  - done.
  - done.
  - destruct (findElement_ledger count now ledger s context)
      as [(element & tier & strategy & -> & Hrange & Hk & Htry & _)|[-> _]].
    + exists (SelfHealingTest.Tier tier). split; [done|].
      destruct tier as [|[|[|[|[|[|[|tier]]]]]]]; try lia; cbn [In]; try tauto.
      * injection Hk as <-. done.
      * injection Hk as <-. done.
      * injection Hk as <-. simpl in Htry. by rewrite H5 in Htry.
    + exists SelfHealingTest.Failed. split; [done|]. cbn [In]. tauto.
Qed.

(* ===================================================================== *)
(** * The runner of the UI tests                                          *)
(* ===================================================================== *)

Section Runner.

Import SelfHealingTest HealingStats ChangeAwareTestGenerator TestRunner.

Lemma healingUsed_healed (l : list healingAttempt) :
  healingUsed (getHealingStats l) = true <-> healed l.
Proof.
  unfold healingUsed, getHealingStats, healed. simpl.
  destruct (byStrategy_counts l ∅ "1") as [Hcount Hnone].
  rewrite lookup_empty in Hcount, Hnone. simpl in Hcount.
  unfold recorded in *.
  set (tier1 := fun a : healingAttempt => String.eqb (key (ha_strategy a)) "1") in *.
  destruct (filter_length_all tier1 l) as [_ Hall].
  assert (forall a, tier1 a = true <-> ha_strategy a = Tier 1) as Hkey.
  { intros a. unfold tier1. rewrite String.eqb_eq. split.
    - intros H. by apply key_inj.
    - by intros ->. }
  rewrite andb_true_iff, Nat.ltb_lt, negb_true_iff, bool_decide_eq_false. split.
  - intros [Hpos Hne].
    destruct (filter_length_some tier1 l) as (a & Ha & Hka).
    + intros Heq. apply Hne.
      destruct (fold_left bump l ∅ !! "1") as [n|] eqn:E;
        simpl in Hcount; [by rewrite Hcount, Heq|].
      destruct Hnone as [Hnone _]. specialize (Hnone eq_refl) as [_ Hzero]. lia.
    + exists a. split; [done|]. intros Ht%Hkey. congruence.
  - intros (a & Ha & Hta). split.
    + destruct l; [done | simpl; lia].
    + intros Hsome. rewrite Hsome in Hcount. simpl in Hcount.
      apply Hta, Hkey. apply Hall; [lia | done].
Qed.

Lemma healed_app (l new : list healingAttempt) :
  healed l -> healed (l ++ new).
Proof.
  intros (a & Ha & Hta). exists a. split; [|done]. apply in_app_iff. by left.
Qed.

Variable b : browser.

Lemma sound_ret {A : Type} (a : A) : sound (ret a).
Proof.
  intros st. split; [exists []; simpl; by rewrite app_nil_r | done].
Qed.

Lemma sound_operate : sound (operate b).
Proof.
  intros st. unfold operate. simpl. split.
  - exists []. by rewrite app_nil_r.
  - by destruct (performs b (tick st)).
Qed.

Lemma find_cases (s : selectors) (st : state) :
  (exists element tier,
     find b s st
     = (inl element,
        State (S (tick st))
              (ledger st ++ [HealingAttempt s (Tier tier) true (clock b (tick st))])) /\
     (1 <= tier <= 6)%nat /\
     (tier1 s = None -> tier <> 1%nat)) \/
  find b s st
  = (inr (NotFound s),
     State (S (tick st))
           (ledger st ++ [HealingAttempt s Failed false (clock b (tick st))])).
Proof.
  unfold find.
  destruct (findElement_ledger (pageAt b (tick st)) (clock b (tick st)) (ledger st) s None)
    as [(element & tier & strategy & -> & Hrange & Hk & Htry & _)|[-> _]].
  - left. exists element, tier. split_and!; [done | lia | lia |].
    intros Hnone ->. simpl in Hk. injection Hk as <-. by rewrite Hnone in Htry.
  - by right.
Qed.

Lemma sound_find (s : selectors) : sound (find b s).
Proof.
  intros st.
  destruct (find_cases s st) as [(element & tier & -> & _)| ->]; simpl.
  - split; [by eexists | done].
  - split; [by eexists|]. intros _ _.
    exists (HealingAttempt s Failed false (clock b (tick st))). split; [|done].
    apply in_app_iff. right. by left.
Qed.

Lemma sound_bind {A B : Type} (m : M A) (f : A -> M B) :
  sound m -> (forall a, sound (f a)) -> sound (bind m f).
Proof.
  intros Hm Hf st. unfold bind. specialize (Hm st) as [[new Hnew] Hfail].
  destruct (m st) as [[a|e] st1]; simpl in *.
  - destruct (Hf a st1) as [[new' Hnew'] Hfail']. split; [|done].
    exists (new ++ new'). by rewrite Hnew', Hnew, app_assoc.
  - split; [by exists new|]. intros s [= ->]. by apply (Hfail s).
Qed.

Lemma sound_attempt {A : Type} (m : M A) : sound m -> sound (attempt m).
Proof.
  intros Hm st. unfold attempt. simpl. split; [apply Hm | done].
Qed.

Lemma sound_perform (a : action) (s : selectors) : sound (perform b a s).
Proof.
  unfold perform, clickElement, typeInElement, waitForElement.
  repeat match goal with
         | |- sound (if ?c then _ else _) => destruct c
         | |- sound (bind _ _) => apply sound_bind; [|intros ?]
         | |- sound (attempt _) => apply sound_attempt
         | |- sound (find _ _) => apply sound_find
         | |- sound (operate _) => apply sound_operate
         | |- sound (ret _) => apply sound_ret
         end.
Qed.

Lemma executeAction_cases (a : action) (s : selectors) (st : state) :
  exists new,
    ledger (executeAction b a s st).2 = ledger st ++ new /\
    match (executeAction b a s st).1 with
    | inl used => used = true <-> healed (ledger st ++ new)
    | inr (NotFound _) => healed (ledger st ++ new)
    | inr OperationFailed => True
    end.
Proof.
  unfold executeAction, bind.
  destruct (sound_perform a s st) as [[new Hnew] Hfail].
  destruct (perform b a s st) as [[[]|e] st1]; simpl in *; exists new.
  - split; [done|]. rewrite <- Hnew. apply healingUsed_healed.
  - split; [done|]. destruct e as [s'|]; [|done].
    destruct (Hfail s' eq_refl) as (x & Hx & Hfailed).
    rewrite <- Hnew. exists x. split; [done|]. by rewrite Hfailed.
Qed.

End Runner.

Section RunnerActions.

Import SelfHealingTest HealingStats ChangeAwareTestGenerator TestRunner.

Variable b : browser.

Lemma runActions_cons (a : action) (rest : list action) (s : selectors) (st : state) :
  runActions b (a :: rest) s st
  = (match (executeAction b a s st).1 with
     | inl used => ActionResult (a_type a) true (Some used) None
     | inr e => ActionResult (a_type a) false None (Some e)
     end :: (runActions b rest s (executeAction b a s st).2).1,
     (runActions b rest s (executeAction b a s st).2).2).
Proof.
  cbn [runActions]. destruct (executeAction b a s st) as [r st']. cbn [fst snd].
  by destruct (runActions b rest s st').
Qed.

Lemma runActions_types (actions : list action) (s : selectors) (st : state) :
  map ar_type (runActions b actions s st).1 = map a_type actions.
Proof.
  revert st. induction actions as [|a rest IH]; intros st; [done|].
  rewrite runActions_cons. cbn [fst map]. rewrite IH.
  by destruct (executeAction b a s st).1.
Qed.

Lemma runActions_healed (actions : list action) (s : selectors) (st : state) :
  healed (ledger st) ->
  forall r, In r (runActions b actions s st).1 ->
            ar_success r = true -> ar_healingUsed r = Some true.
Proof.
  revert st. induction actions as [|a rest IH]; intros st Hhealed r; [done|].
  rewrite runActions_cons. cbn [fst In].
  destruct (executeAction_cases b a s st) as (new & Hnew & Hcase).
  intros [<-|Hin].
  - destruct (executeAction b a s st).1 as [used|e]; [|done].
    intros _. cbn [ar_healingUsed]. f_equal. apply Hcase. by apply healed_app.
  - apply (IH (executeAction b a s st).2); [|done].
    rewrite Hnew. by apply healed_app.
Qed.

End RunnerActions.

(** X14.  Healing sticks to a test.  The results of the actions of a
    test come in the order of the actions; once an action has reported
    [healingUsed], or has failed because [findElement] found nothing,
    every later action of the test that succeeds reports [healingUsed]
    too, whatever tier its own elements were found at: the ledger of the
    test is never reset. *)
Theorem X14_healing_sticks (b : TestRunner.browser)
    (actions : list ChangeAwareTestGenerator.action)
    (s : SelfHealingTest.selectors) (st : TestRunner.state) :
  let results := (TestRunner.runActions b actions s st).1 in
  map TestRunner.ar_type results = map ChangeAwareTestGenerator.a_type actions /\
  forall i j ri rj,
    (i < j)%nat -> results !! i = Some ri -> results !! j = Some rj ->
    TestRunner.ar_healingUsed ri = Some true \/
    (exists s', TestRunner.ar_error ri = Some (TestRunner.NotFound s')) ->
    TestRunner.ar_success rj = true ->
    TestRunner.ar_healingUsed rj = Some true.
Proof.
  intros results. subst results. split; [apply runActions_types|].
  revert st. induction actions as [|a rest IH]; intros st i j ri rj Hij; [done|].
  rewrite runActions_cons. cbn [fst].
  destruct j as [|j]; [lia|]. destruct i as [|i]; cbn [lookup list_lookup].
  - intros [= <-] Hj Hi Hsucc.
    apply (runActions_healed b rest s (TestRunner.executeAction b a s st).2);
      [|by eapply list_elem_of_In, list_elem_of_lookup_2|done].
    destruct (executeAction_cases b a s st) as (new & -> & Hcase).
    destruct (TestRunner.executeAction b a s st).1 as [used|e];
      cbn [TestRunner.ar_healingUsed TestRunner.ar_error] in Hi.
    + destruct Hi as [[= ->]|[s' [=]]]. by apply Hcase.
    + destruct Hi as [[=]|[s' [= ->]]]. done.
  - apply IH. lia.
Qed.

(** [X14_healing_sticks] on two clicks: the first finds the element by
    its class at tier 2, the second by its test id at tier 1, and reports
    healing all the same. *)
Lemma X14_healing_sticks_witness :
  exists ri rj,
    (TestRunner.runActions Runs.browserLate [Runs.click; Runs.click]
       Scenarios.descriptorD (TestRunner.State 1 [])).1 = [ri; rj] /\
    TestRunner.ledger
      (TestRunner.runActions Runs.browserLate [Runs.click; Runs.click]
         Scenarios.descriptorD (TestRunner.State 1 [])).2
    = [SelfHealingTest.HealingAttempt Scenarios.descriptorD (SelfHealingTest.Tier 2) true 1;
       SelfHealingTest.HealingAttempt Scenarios.descriptorD (SelfHealingTest.Tier 1) true 4] /\
    TestRunner.ar_healingUsed rj = Some true.
Proof.
  eexists _, _. split; [by vm_compute|]. split; [by vm_compute|].
  eapply (proj2 (X14_healing_sticks Runs.browserLate [Runs.click; Runs.click]
                   Scenarios.descriptorD (TestRunner.State 1 [])) 0%nat 1%nat).
  - lia.
  - by vm_compute.
  - by vm_compute.
  - by left.
  - done.
Defined.

Section RunnerProbes.

Import SelfHealingTest HealingStats ChangeAwareTestGenerator TestRunner.

Variable b : browser.

Lemma probe_healed (s : selectors) (st : state) :
  tier1 s = None -> healed (ledger (waitForElement b s st).2).
Proof.
  intros Hnone. unfold waitForElement, bind at 1.
  destruct (find_cases b s st) as [(element & tier & -> & _ & Hne)| ->].
  - unfold bind, operate, ret. cbn [tick ledger].
    exists (HealingAttempt s (Tier tier) true (clock b (tick st))). split.
    + destruct (performs b (S (tick st))); cbn [snd ledger];
        apply in_app_iff; right; by left.
    + cbn [ha_strategy]. intros [= ->]. by apply Hne.
  - cbn [snd ledger].
    exists (HealingAttempt s Failed false (clock b (tick st))). split; [|done].
    apply in_app_iff. right. by left.
Qed.

Lemma perform_probe (a : action) (s : selectors) (st st1 : state) :
  perform b a s st = (inl tt, st1) ->
  (a_type a = "input" /\ a_verify a = "validation") \/
  (a_type a = "submit" /\ a_verify a = "success") ->
  healed (ledger st1).
Proof.
  unfold perform. intros Hp [[Ht Hv]|[Ht Hv]]; rewrite Ht, Hv in Hp;
    repeat match type of Hp with
           | context [String.eqb ?x ?y] =>
               let v := eval cbv in (String.eqb x y) in
               change (String.eqb x y) with v in Hp
           end;
    cbv iota in Hp; unfold bind at 1 in Hp.
  - destruct (typeInElement b s _ st) as [[[]|e] st0]; [|done].
    unfold attempt in Hp. injection Hp as <-. by apply probe_healed.
  - destruct (clickElement b (submitSelectors s) st) as [[[]|e] st0]; [|done].
    unfold bind at 1 in Hp.
    pose proof (probe_healed successSelectors st0 eq_refl) as Hhealed.
    destruct (waitForElement b successSelectors st0) as [[element|e] st2]; [|done].
    unfold ret in Hp. by injection Hp as <-.
Qed.

Lemma in_generateActions (funcName : string) (ch : changes) (a : action) :
  In a (generateActions funcName ch) ->
  a = Action "click" None "response" \/
  a = Action "input" (Some "test") "validation" \/
  a = Action "submit" None "success".
Proof.
  unfold generateActions. rewrite !in_app_iff.
  repeat match goal with
         | |- context [if ?c then _ else _] => destruct c
         end; cbn [In]; intuition auto.
Qed.

End RunnerProbes.

(** X15.  The actions that [generateActions] gives are a [click] that
    verifies the [response], an [input] that verifies the [validation]
    and a [submit] that verifies the [success].  The second and the third
    look for a message by a descriptor without test id, which
    [findElement] can resolve from tier 2 on only, or not at all: so
    whenever such an action succeeds it reports [healingUsed], also when
    its own element was found at tier 1 and, for the input, when no error
    message shows. *)
Theorem X15_probe_reports_healing (b : TestRunner.browser) :
  (forall funcName ch a,
     In a (ChangeAwareTestGenerator.generateActions funcName ch) ->
     a = ChangeAwareTestGenerator.Action "click" None "response" \/
     a = ChangeAwareTestGenerator.Action "input" (Some "test") "validation" \/
     a = ChangeAwareTestGenerator.Action "submit" None "success") /\
  (forall a s st used st',
     TestRunner.executeAction b a s st = (inl used, st') ->
     (ChangeAwareTestGenerator.a_type a = "input" /\
      ChangeAwareTestGenerator.a_verify a = "validation") \/
     (ChangeAwareTestGenerator.a_type a = "submit" /\
      ChangeAwareTestGenerator.a_verify a = "success") ->
     used = true).
Proof.
  split; [apply in_generateActions|].
  intros a s st used st' Hrun Hkind.
  unfold TestRunner.executeAction, TestRunner.bind in Hrun.
  destruct (TestRunner.perform b a s st) as [[[]|e] st1] eqn:Hp; [|done].
  injection Hrun as <- <-. apply healingUsed_healed.
  by eapply perform_probe.
Qed.

(** [X15_probe_reports_healing] on a valid input: the field is found by
    its test id, no error message shows, and the action reports
    healing. *)
Lemma X15_probe_reports_healing_witness :
  exists st',
    TestRunner.executeAction Runs.browserValid Runs.input Scenarios.descriptorD
      (TestRunner.State 1 [])
    = (inl true, st') /\
    SelfHealingTest.ha_strategy <$> TestRunner.ledger st'
    = [SelfHealingTest.Tier 1; SelfHealingTest.Failed].
Proof.
  destruct (TestRunner.executeAction Runs.browserValid Runs.input Scenarios.descriptorD
              (TestRunner.State 1 [])) as [[used|e] st'] eqn:Hrun;
    [|by vm_compute in Hrun].
  exists st'. split.
  - f_equal. f_equal.
    apply (proj2 (X15_probe_reports_healing Runs.browserValid) _ _ _ _ _ Hrun).
    by left.
  - vm_compute in Hrun. by injection Hrun as _ <-.
Defined.

Section RunnerSummary.

Import SelfHealingTest HealingStats ChangeAwareTestGenerator TestRunner.

Lemma merge_lookup (acc m : gmap string nat) (k : string) :
  map_fold (fun strategy count acc =>
              <[strategy := (default 0 (acc !! strategy) + count)%nat]> acc) acc m !! k
  = match m !! k with
    | Some count => Some (default 0 (acc !! k) + count)%nat
    | None => acc !! k
    end.
Proof.
  revert k.
  apply (map_fold_weak_ind
           (fun r m => forall k,
              r !! k = match m !! k with
                       | Some count => Some (default 0 (acc !! k) + count)%nat
                       | None => acc !! k
                       end)).
  - intros k. by rewrite lookup_empty.
  - intros i x m' r Hi IH k. destruct (decide (i = k)) as [->|Hne].
    + rewrite !lookup_insert_eq. by rewrite IH, Hi.
    + rewrite !lookup_insert_ne by done. apply IH.
Qed.

Lemma mergeStats_app (l1 l2 : list healingAttempt) :
  mergeStats (healingOf l1) (getHealingStats l2) = healingOf (l1 ++ l2).
Proof.
  unfold mergeStats, healingOf, getHealingStats.
  cbn [attempts h_successful h_byStrategy total successful byStrategy].
  rewrite List.filter_app, !length_app, fold_left_app. f_equal.
  apply map_eq. intros k. rewrite merge_lookup.
  destruct (byStrategy_counts l2 ∅ k) as [Hcount Hnone].
  destruct (byStrategy_counts l2 (fold_left bump l1 ∅) k) as [Hcount' Hnone'].
  rewrite lookup_empty in Hcount, Hnone. simpl in Hcount.
  destruct (fold_left bump l2 ∅ !! k) as [c|] eqn:E; simpl in Hcount.
  - assert (recorded k l2 <> 0%nat) as Hpos.
    { intros Hzero. by destruct Hnone as [_ Hnone]; specialize (Hnone (conj eq_refl Hzero)). }
    destruct (fold_left bump l2 (fold_left bump l1 ∅) !! k) as [n|] eqn:E'.
    + simpl in Hcount'. f_equal. lia.
    + destruct Hnone' as [Hnone' _]. specialize (Hnone' eq_refl) as [_ Hzero]. done.
  - destruct Hnone as [Hnone _]. specialize (Hnone eq_refl) as [_ Hzero].
    rewrite Hzero, Nat.add_0_r in Hcount'.
    destruct (fold_left bump l2 (fold_left bump l1 ∅) !! k) as [n|] eqn:E';
      destruct (fold_left bump l1 ∅ !! k) as [n1|] eqn:E1; simpl in Hcount'.
    + by rewrite Hcount'.
    + destruct Hnone' as [_ Hnone']. by specialize (Hnone' (conj eq_refl Hzero)).
    + destruct Hnone' as [Hnone' _]. by specialize (Hnone' eq_refl) as [? _].
    + done.
Qed.

Lemma runUITests_healing (tests : list (browser * uiTest)) (l0 : list healingAttempt) :
  (runUITests tests (healingOf l0)).1.2
  = healingOf (l0 ++ (runUITests tests (healingOf l0)).2) /\
  map ur_name (runUITests tests (healingOf l0)).1.1 = map (fun bt => ut_name bt.2) tests.
Proof.
  revert l0. induction tests as [|[b t] tests IH]; intros l0.
  { simpl. by rewrite app_nil_r. }
  cbn [runUITests]. unfold runUITest.
  destruct (performs b 0).
  - destruct (runActions b (ut_actions t) (ut_selectors t) (State 1 [])) as [results st].
    rewrite mergeStats_app. specialize (IH (l0 ++ ledger st)) as [IH1 IH2].
    destruct (runUITests tests (healingOf (l0 ++ ledger st))) as [[rs h] ls].
    simpl in *. split; [by rewrite IH1, app_assoc | by rewrite IH2].
  - specialize (IH l0) as [IH1 IH2].
    destruct (runUITests tests (healingOf l0)) as [[rs h] ls].
    simpl in *. split; [done | by rewrite IH2].
Qed.

End RunnerSummary.

(** X16.  The healing summary of [runUITests] is the statistics of all
    the attempts of all its tests taken together: [attempts] is the
    number of [findElement] calls of the run, [successful] the number of
    those that returned an element, and the count under each strategy key
    the number of attempts recorded under it; a test whose navigation
    failed adds nothing.  There is one result for each test, in order. *)
Theorem X16_healing_summary (tests : list (TestRunner.browser * TestRunner.uiTest)) :
  let out := TestRunner.runUITests tests (TestRunner.Healing 0 0 ∅) in
  let ledgers := out.2 in
  TestRunner.attempts out.1.2 = length ledgers /\
  TestRunner.h_successful out.1.2
  = length (List.filter SelfHealingTest.ha_success ledgers) /\
  (forall k, default 0%nat (TestRunner.h_byStrategy out.1.2 !! k)
             = HealingStats.recorded k ledgers) /\
  map TestRunner.ur_name out.1.1 = map (fun bt => TestRunner.ut_name bt.2) tests.
Proof.
  intros out ledgers. subst out ledgers.
  destruct (runUITests_healing tests []) as [Hhealing Hnames].
  change (TestRunner.healingOf []) with (TestRunner.Healing 0 0 ∅) in Hhealing, Hnames.
  rewrite Hhealing. cbn [app].
  split_and!; [done | done | | done].
  intros k. unfold TestRunner.healingOf. cbn [TestRunner.h_byStrategy].
  destruct (byStrategy_counts
              (TestRunner.runUITests tests (TestRunner.Healing 0 0 ∅)).2 ∅ k)
    as [Hcount _].
  by rewrite Hcount, lookup_empty.
Qed.

(** X17.  A function whose name has none of the words [handle], [on],
    [validate], [check], [submit] and [save] gets no action; its UI test
    then looks for no element and passes as soon as the navigation
    returns, and it leaves the healing summary as it was. *)
Theorem X17_no_action_passes (funcName : string)
    (ch : ChangeAwareTestGenerator.changes) :
  (ChangeAwareTestGenerator.generateActions funcName ch = [] <->
   forallb (fun w => negb (JS.includes funcName w))
           ["handle"; "on"; "validate"; "check"; "submit"; "save"] = true) /\
  forall b name file s h,
    ChangeAwareTestGenerator.generateActions funcName ch = [] ->
    TestRunner.performs b 0 = true ->
    TestRunner.runUITest b
      (TestRunner.UiTest name file s
         (ChangeAwareTestGenerator.generateActions funcName ch)) h
    = (TestRunner.UIResult name file [] true None, h, []).
Proof.
  split.
  - unfold ChangeAwareTestGenerator.generateActions. cbn [forallb].
    destruct (JS.includes funcName "handle"), (JS.includes funcName "on"),
      (JS.includes funcName "validate"), (JS.includes funcName "check"),
      (JS.includes funcName "submit"), (JS.includes funcName "save");
      cbn [orb negb andb app]; split; (done || by intros [=]).
  - intros b name file s h -> Hgoto. unfold TestRunner.runUITest.
    rewrite Hgoto. cbn [TestRunner.ut_actions TestRunner.runActions
      TestRunner.ut_name TestRunner.ut_file forallb TestRunner.ledger].
    unfold TestRunner.mergeStats, HealingStats.getHealingStats.
    cbn [HealingStats.total HealingStats.successful HealingStats.byStrategy
         List.filter length fold_left].
    rewrite map_fold_empty, !Nat.add_0_r. by destruct h.
Qed.

(** [X17_no_action_passes] on the function [render]. *)
Lemma X17_no_action_passes_witness :
  TestRunner.runUITest Runs.browserValid
    (TestRunner.UiTest "UI Test: render in components/Card.jsx" "components/Card.jsx"
       Scenarios.descriptorD
       (ChangeAwareTestGenerator.generateActions "render"
          (ChangeAwareTestGenerator.Changes [] (LineChanges [] [] []))))
    (TestRunner.Healing 0 0 ∅)
  = (TestRunner.UIResult "UI Test: render in components/Card.jsx"
       "components/Card.jsx" [] true None, TestRunner.Healing 0 0 ∅, []).
Proof.
  apply (proj2 (X17_no_action_passes "render"
                  (ChangeAwareTestGenerator.Changes [] (LineChanges [] [] [])))).
  - apply (proj2 (proj1 (X17_no_action_passes "render"
                           (ChangeAwareTestGenerator.Changes [] (LineChanges [] [] []))))).
    reflexivity.
  - reflexivity.
Defined.

(* ===================================================================== *)
(** * The endpoints of [SelfHealingAPI]                                   *)
(* ===================================================================== *)

Section FallbackEndpoints.

Import SelfHealingAPI.

Lemma span_word_spec (s : string) :
  s = (span_word s).1 +:+ (span_word s).2 /\
  JS.all_chars JS.is_word (span_word s).1 = true.
Proof.
  induction s as [|c s [IH1 IH2]]; [done|].
  cbn [span_word]. destruct (JS.is_word c) eqn:Hc; [|done].
  destruct (span_word s) as [w rest]. cbn [fst snd] in *.
  split; [by rewrite IH1 at 1 | by cbn [JS.all_chars]; rewrite Hc].
Qed.

Lemma word_at_end_Some (s w : string) :
  word_at_end s = Some w ->
  JS.all_chars JS.is_word w = true /\ (s = w \/ s = w +:+ "/").
Proof.
  unfold word_at_end. destruct (span_word_spec s) as [Hs Hw].
  destruct (span_word s) as [w' rest]. cbn [fst snd] in *.
  destruct (String.eqb w' ""); [done|].
  destruct (String.eqb_spec rest "") as [->|_]; simpl.
  - intros [= <-]. split; [done|]. left. by rewrite append_empty_r in Hs.
  - destruct (String.eqb_spec rest "/") as [->|_]; [|done].
    intros [= <-]. split; [done|]. by right.
Qed.

Lemma pluralize_cons (a : ascii) (x : string) :
  pluralize (String a x)
  = match word_at_end (String a x) with
    | Some w => w +:+ "s"
    | None => String a (pluralize x)
    end.
Proof. done. Qed.

Lemma app_last_inj (s t : string) (c d : ascii) :
  s +:+ String c "" = t +:+ String d "" -> s = t /\ c = d.
Proof.
  intros H. apply (f_equal JS.rev) in H. rewrite !rev_app in H.
  cbn in H. injection H as -> H. split; [|done].
  by rewrite <- (rev_involutive s), H, rev_involutive.
Qed.

Lemma all_word_last (s : string) (c : ascii) :
  JS.all_chars JS.is_word (s +:+ String c "") = true -> JS.is_word c = true.
Proof.
  induction s as [|a s IH]; cbn [String.append JS.all_chars].
  - by intros [? _]%andb_prop.
  - by intros [_ ?%IH]%andb_prop.
Qed.

Lemma app_char (s : string) (c : ascii) (t : string) :
  s +:+ String c t = (s +:+ String c "") +:+ t.
Proof. by rewrite append_assoc. Qed.

Lemma not_word_slash : JS.is_word "/" = false.
Proof. done. Qed.

Lemma pluralize_word (s : string) (c : ascii) :
  JS.is_word c = true ->
  pluralize (s +:+ String c "") = s +:+ String c "s" /\
  pluralize (s +:+ String c "/") = s +:+ String c "s".
Proof.
  intros Hc. induction s as [|a s [IH1 IH2]].
  - cbn [String.append]. rewrite !pluralize_cons. unfold word_at_end.
    cbn [span_word]. by rewrite Hc, not_word_slash.
  - cbn [String.append]. rewrite !pluralize_cons. split.
    + destruct (word_at_end _) as [w|] eqn:E; [|by rewrite IH1].
      apply word_at_end_Some in E as [Hw [<-|E]].
      * by rewrite (app_char s c "s").
      * change (String a (s +:+ String c "")) with (String a s +:+ String c "") in E.
        apply app_last_inj in E as [_ ->]. by rewrite not_word_slash in Hc.
    + destruct (word_at_end _) as [w|] eqn:E; [|by rewrite IH2].
      apply word_at_end_Some in E as [Hw [<-|E]].
      * change (String a (s +:+ String c "/")) with (String a s +:+ String c "/") in Hw.
        rewrite app_char in Hw. apply all_word_last in Hw.
        by rewrite not_word_slash in Hw.
      * change (String a (s +:+ String c "/")) with (String a s +:+ String c "/") in E.
        rewrite app_char in E. apply app_last_inj in E as [<- _].
        by rewrite (app_char s c "s").
Qed.

Lemma pluralize_other (s : string) (c : ascii) :
  JS.is_word c = false ->
  (c <> "/"%char -> pluralize (s +:+ String c "") = s +:+ String c "") /\
  pluralize (s +:+ String c "/") = s +:+ String c "/".
Proof.
  intros Hc. induction s as [|a s [IH1 IH2]].
  - cbn [String.append]. rewrite !pluralize_cons. unfold word_at_end.
    cbn [span_word]. by rewrite Hc, ?not_word_slash.
  - cbn [String.append]. rewrite !pluralize_cons. split.
    + intros Hne. destruct (word_at_end _) as [w|] eqn:E; [|by rewrite IH1].
      apply word_at_end_Some in E as [Hw [<-|E]].
      * change (String a (s +:+ String c "")) with (String a s +:+ String c "") in Hw.
        apply all_word_last in Hw. congruence.
      * change (String a (s +:+ String c "")) with (String a s +:+ String c "") in E.
        by apply app_last_inj in E as [_ ->].
    + destruct (word_at_end _) as [w|] eqn:E; [|by rewrite IH2].
      apply word_at_end_Some in E as [Hw [<-|E]].
      * change (String a (s +:+ String c "/")) with (String a s +:+ String c "/") in Hw.
        rewrite app_char in Hw. apply all_word_last in Hw.
        by rewrite not_word_slash in Hw.
      * change (String a (s +:+ String c "/")) with (String a s +:+ String c "/") in E.
        rewrite app_char in E. apply app_last_inj in E as [<- _].
        apply all_word_last in Hw. congruence.
Qed.

Lemma strip_slash_last (s : string) (c : ascii) :
  strip_slash (s +:+ String c "/") = s +:+ String c "" /\
  (c <> "/"%char -> strip_slash (s +:+ String c "") = s +:+ String c "").
Proof.
  induction s as [|a s [IH1 IH2]].
  - cbn [String.append strip_slash]. split.
    + by rewrite andb_false_r.
    + intros Hne. by destruct (Ascii.eqb_spec c "/").
  - cbn [String.append strip_slash].
    assert (forall t, String.eqb (s +:+ String c t) "" = false) as Hnonempty.
    { intros t. by destruct s. }
    rewrite !Hnonempty, !andb_false_r. split.
    + by rewrite IH1.
    + intros Hne. by rewrite IH2.
Qed.

End FallbackEndpoints.

(** X18.  The five endpoints of [executeWithFallbacks], by the end of
    the endpoint under test.  When it ends in a letter, a digit or an
    underscore, the pluralized endpoint is the endpoint with an [s]
    appended, also when it ends in [s] already, and the last tier
    requests the exact endpoint again.  When it ends in such a character
    and a slash, the slash is replaced by the [s] in the fourth tier and
    dropped in the fifth.  After any other character the pluralization
    changes nothing. *)
Theorem X18_fallback_endpoints (t : SelfHealingAPI.test) (s : string) (c : ascii) :
  let e := SelfHealingAPI.endpoint t in
  (JS.is_word c = true -> e = s +:+ String c "" ->
   SelfHealingAPI.strategies t = [e; "/v1" +:+ e; "/v2" +:+ e; e +:+ "s"; e]) /\
  (JS.is_word c = true -> e = s +:+ String c "/" ->
   SelfHealingAPI.strategies t
   = [e; "/v1" +:+ e; "/v2" +:+ e; s +:+ String c "s"; s +:+ String c ""]) /\
  (JS.is_word c = false -> c <> "/"%char -> e = s +:+ String c "" ->
   SelfHealingAPI.strategies t = [e; "/v1" +:+ e; "/v2" +:+ e; e; e]) /\
  (JS.is_word c = false -> e = s +:+ String c "/" ->
   SelfHealingAPI.strategies t
   = [e; "/v1" +:+ e; "/v2" +:+ e; e; s +:+ String c ""]).
Proof.
  intros e. subst e. unfold SelfHealingAPI.strategies.
  destruct (strip_slash_last s c) as [Hslash Hkeep].
  split_and!.
  - intros Hc ->. destruct (pluralize_word s c Hc) as [-> _].
    rewrite Hkeep; [by rewrite (app_char s c "s")|].
    intros ->. by rewrite not_word_slash in Hc.
  - intros Hc ->. destruct (pluralize_word s c Hc) as [_ ->]. by rewrite Hslash.
  - intros Hc Hne ->. destruct (pluralize_other s c Hc) as [Hsame _].
    by rewrite Hsame, Hkeep.
  - intros Hc ->. destruct (pluralize_other s c Hc) as [_ ->]. by rewrite Hslash.
Qed.

(** [X18_fallback_endpoints] on the endpoint [/users]. *)
Lemma X18_fallback_endpoints_witness :
  SelfHealingAPI.strategies Scenarios.getUsers
  = ["/users"; "/v1/users"; "/v2/users"; "/userss"; "/users"].
Proof.
  apply (proj1 (X18_fallback_endpoints Scenarios.getUsers "/user" "s")); reflexivity.
Defined.

Section TestEndpoint.

Import SelfHealingAPI Endpoints.

Variable baseURL : string.
Variable fetch : transport.

Lemma executeWithFallbacks_cases (t : test) :
  (exists h,
     (executeWithFallbacks baseURL fetch t).1 = inl h /\
     result_ok baseURL fetch t (Returned h) (executeWithFallbacks baseURL fetch t).2) \/
  (exists err,
     (executeWithFallbacks baseURL fetch t).1 = inr (Some err) /\
     result_ok baseURL fetch t (Caught t false err false)
               (executeWithFallbacks baseURL fetch t).2).
Proof.
  unfold executeWithFallbacks.
  destruct (fallbacks_spec baseURL fetch t (strategies t) 0 None [])
    as [(k & e & r & Hk & Hr & Hok & Hearlier & ->)|(Hall & err & -> & Hlast)].
  - left. eexists. split; [done|].
    assert (k < 5)%nat as Hlt by (by apply lookup_lt_Some in Hk).
    cbn [fst snd result_ok h_test h_success healingStrategy h_healed h_result
         Nat.add app].
    split_and!; try done. by exists e, r.
  - right. cbn [last strategies] in Hlast.
    destruct Hlast as (err' & -> & Herr).
    exists err'. by split_and!.
Qed.

End TestEndpoint.

Lemma run_total (baseURL : string) (fetch : nat -> SelfHealingAPI.transport)
    (tests : list SelfHealingAPI.test) (i : nat) :
  exists results requests,
    Endpoints.run baseURL fetch i tests = Some (results, requests) /\
    length results = length tests /\
    length requests = length tests /\
    forall k t r sent,
      tests !! k = Some t -> results !! k = Some r -> requests !! k = Some sent ->
      Endpoints.result_ok baseURL (fetch (i + k)%nat) t r sent.
Proof.
  revert i. induction tests as [|t tests IH]; intros i.
  { exists [], []. by split_and!. }
  cbn [Endpoints.run].
  destruct (IH (S i)) as (results & later & -> & Hlen & Hreq & Hall).
  destruct (executeWithFallbacks_cases baseURL (fetch i) t)
    as [(h & Hh & Hok)|(err & Herr & Hok)];
    destruct (SelfHealingAPI.executeWithFallbacks baseURL (fetch i) t) as [r requests];
    cbn [fst snd] in *; subst r; cbn [mbind option_bind];
    eexists _, _; (split; [done|]);
    (split_and!; [simpl; by rewrite Hlen | simpl; by rewrite Hreq |]);
    intros [|k] t' r' sent; cbn [lookup list_lookup].
  - intros [= <-] [= <-] [= <-]. by rewrite Nat.add_0_r.
  - intros Ht Hr Hs. replace (i + S k)%nat with (S i + k)%nat by lia. by eapply Hall.
  - intros [= <-] [= <-] [= <-]. by rewrite Nat.add_0_r.
  - intros Ht Hr Hs. replace (i + S k)%nat with (S i + k)%nat by lia. by eapply Hall.
Qed.

(** The server that answers under [/v1] only: the request for [/users]
    fails, the one for [/v1/users] is answered, and no third is sent. *)
Lemma testEndpoint_v1 :
  Endpoints.testEndpoint "http://localhost:3000" (fun _ => Scenarios.transportV1)
    [Endpoints.ChangeLocation "/users" "GET" None]
  = Some ([Endpoints.Returned
             (SelfHealingAPI.Healed Scenarios.getUsers
                (SelfHealingAPI.RequestResult 200 (Some "[]") []) true 1 true)],
          [["/users"; "/v1/users"]]).
Proof. by vm_compute. Qed.

(** X19.  [testEndpoint] never throws and returns one result for each
    change location, in order, after one series of requests for each.
    For a change location, with the transport as it answers during its
    test: either the result is the value of tier [healingStrategy],
    below 5, with [success: true] and [healed] exactly when the number is
    not 0; then the endpoints of the tiers up to that one were requested,
    in order and no other, every tier before it failed, and its own
    request was answered with the [ok] response the value is made from.
    Or the result is the record with [success: false] and [healed: false];
    then the endpoints of all five tiers were requested, in order, every
    one failed, and the record carries the error of the last tier, the
    request without the trailing slash. *)
Theorem X19_testEndpoint (baseURL : string) (fetch : nat -> SelfHealingAPI.transport)
    (changeLocations : list Endpoints.changeLocation) :
  exists results requests,
    Endpoints.testEndpoint baseURL fetch changeLocations = Some (results, requests) /\
    length results = length changeLocations /\
    length requests = length changeLocations /\
    forall k change,
      changeLocations !! k = Some change ->
      exists r sent,
        results !! k = Some r /\ requests !! k = Some sent /\
        (length sent <= 5)%nat /\
        Endpoints.result_ok baseURL (fetch k) (Endpoints.testOf change) r sent.
Proof.
  unfold Endpoints.testEndpoint.
  destruct (run_total baseURL fetch (map Endpoints.testOf changeLocations) 0)
    as (results & requests & Hrun & Hlen & Hreq & Hall).
  exists results, requests. rewrite length_map in Hlen, Hreq.
  split_and!; try done.
  intros k change Hk.
  pose proof (lookup_lt_Some _ _ _ Hk) as Hlt.
  destruct (lookup_lt_is_Some_2 results k) as [r Hr]; [lia|].
  destruct (lookup_lt_is_Some_2 requests k) as [sent Hs]; [lia|].
  exists r, sent.
  assert (Endpoints.result_ok baseURL (fetch k) (Endpoints.testOf change) r sent)
    as Hok.
  { apply (Hall k); [|done|done]. by rewrite lookup_map, Hk. }
  split_and!; try done.
  destruct r as [h|t' success err healed_].
  - destruct Hok as (_ & _ & _ & _ & -> & _). rewrite length_take. simpl. lia.
  - destruct Hok as (_ & _ & _ & -> & _). simpl. lia.
Qed.

(** [X19_testEndpoint] on the server that answers under [/v1] only. *)
Lemma X19_testEndpoint_witness :
  exists results requests,
    Endpoints.testEndpoint "http://localhost:3000" (fun _ => Scenarios.transportV1)
      [Endpoints.ChangeLocation "/users" "GET" None]
    = Some (results, requests) /\
    length results = 1%nat /\
    length requests = 1%nat /\
    forall k change,
      [Endpoints.ChangeLocation "/users" "GET" None] !! k = Some change ->
      exists r sent,
        results !! k = Some r /\ requests !! k = Some sent /\
        (length sent <= 5)%nat /\
        Endpoints.result_ok "http://localhost:3000" Scenarios.transportV1
          (Endpoints.testOf change) r sent.
Proof.
  apply (X19_testEndpoint "http://localhost:3000" (fun _ => Scenarios.transportV1)
           [Endpoints.ChangeLocation "/users" "GET" None]).
Defined.

(* ===================================================================== *)
(** * The test cases of [APITester]                                       *)
(* ===================================================================== *)

Section TestCases.

Import APITester APICases.

Lemma tester_method_verbs (funcName : string) :
  In (deriveHTTPMethod funcName) verbs.
Proof.
  unfold deriveHTTPMethod, verbs. set (has := JS.includes (JS.toLowerCase funcName)).
  repeat match goal with
         | |- context [has ?k] => destruct (has k); cbn [orb]
         end; cbn [In]; tauto.
Qed.

Lemma in_getAPIChanges (files : list (string * ChangeAwareTestGenerator.changes))
    (c : change) :
  In c (getAPIChanges files) <->
  exists fileName data,
    In (fileName, data) files /\
    JS.includes fileName "api/" || JS.includes fileName "services/" = true /\
    In (function_ c, changeType c) (ChangeAwareTestGenerator.functions data) /\
    c = Change fileName (function_ c) (changeType c)
               (ChangeAwareTestGenerator.lines data)
               (deriveEndpoint fileName (function_ c))
               (deriveHTTPMethod (function_ c)).
Proof.
  unfold getAPIChanges. rewrite in_flat_map. split.
  - intros ([fileName data] & Hin & Hc). unfold changesOf in Hc.
    destruct (JS.includes fileName "api/" || JS.includes fileName "services/") eqn:E;
      [|done].
    apply in_map_iff in Hc as ([funcName type] & <- & Hf).
    exists fileName, data. by split_and!.
  - intros (fileName & data & Hin & Hapi & Hf & Hc).
    exists (fileName, data). split; [done|]. unfold changesOf. rewrite Hapi.
    apply in_map_iff. exists (function_ c, changeType c). by split.
Qed.

Lemma getAPIChanges_entries (files : list (string * ChangeAwareTestGenerator.changes)) :
  map (fun c => (file c, function_ c, changeType c)) (getAPIChanges files)
  = flat_map (fun entry =>
                map (fun f => (entry.1, f.1, f.2))
                    (ChangeAwareTestGenerator.functions entry.2))
             (List.filter (fun entry => Generation.api_file entry.1) files).
Proof.
  unfold getAPIChanges.
  induction files as [|[fileName data] files IH]; [done|].
  cbn [flat_map List.filter fst]. rewrite map_app, IH. unfold Generation.api_file.
  unfold changesOf at 1.
  destruct (JS.includes fileName "api/" || JS.includes fileName "services/");
    [|done].
  cbn [flat_map fst snd]. f_equal. rewrite map_map. apply map_ext.
  by intros [funcName type].
Qed.

Lemma generateTestCases_verbs (stamp : nat -> string) (method_ : string) (c : change) :
  In method_ verbs -> generateTestCases stamp method_ c <> [].
Proof.
  unfold verbs, generateTestCases. cbn [In].
  intros [<-|[<-|[<-|[<-|[<-|[]]]]]];
    repeat match goal with
           | |- context [String.eqb ?a ?b] =>
               let v := eval cbv in (String.eqb a b) in
               change (String.eqb a b) with v
           end; cbv iota; cbn [orb]; done.
Qed.

End TestCases.

(** X20.  [getAPIChanges] gives one change for each function entry of
    each file with [api/] or [services/] in its path, in order, the
    functions recorded as ['deleted'] included (for which
    [generateAPITests] gives no target).  Each change has one of the five
    methods, and [generateTestCases] gives at least one case for it. *)
Theorem X20_api_changes (files : list (string * ChangeAwareTestGenerator.changes)) :
  let apiChanges := APICases.getAPIChanges files in
  map (fun c => (APITester.file c, APITester.function_ c, APITester.changeType c))
      apiChanges
  = flat_map (fun entry =>
                map (fun f => (entry.1, f.1, f.2))
                    (ChangeAwareTestGenerator.functions entry.2))
             (List.filter (fun entry => Generation.api_file entry.1) files) /\
  (forall fileName data funcName,
     In (fileName, data) files -> Generation.api_file fileName = true ->
     In (funcName, "deleted") (ChangeAwareTestGenerator.functions data) ->
     (exists c, In c apiChanges /\ APITester.file c = fileName /\
                APITester.function_ c = funcName /\
                APITester.changeType c = "deleted") /\
     forall t, In t (Generation.generateAPITests fileName data) ->
               Generation.at_changeType t <> "deleted") /\
  forall c, In c apiChanges ->
    In (APITester.method c) APICases.verbs /\
    forall stamp, APICases.generateTestCases stamp (APITester.method c) c <> [].
Proof.
  intros apiChanges. subst apiChanges. split_and!.
  - apply getAPIChanges_entries.
  - intros fileName data funcName Hin Hapi Hdeleted. split.
    + exists (APITester.Change fileName funcName "deleted"
                (ChangeAwareTestGenerator.lines data)
                (APITester.deriveEndpoint fileName funcName)
                (APITester.deriveHTTPMethod funcName)).
      split; [|done]. apply in_getAPIChanges. exists fileName, data.
      split_and!; done.
    + intros t (f & type & [_ Hlive]%filter_In & ->)%in_generateAPITests.
      cbn [Generation.at_changeType]. intros ->. done.
  - intros c (fileName & data & _ & _ & _ & Hc)%in_getAPIChanges.
    assert (In (APITester.method c) APICases.verbs) as Hverb.
    { rewrite Hc. apply tester_method_verbs. }
    split; [done|]. intros stamp. by apply generateTestCases_verbs.
Qed.

(** [X20_api_changes] on a service file with a deleted function. *)
Lemma X20_api_changes_witness :
  exists c,
    In c (APICases.getAPIChanges
            [("services/orders.js",
              ChangeAwareTestGenerator.Changes [("removeOrder", "deleted")]
                (LineChanges [] [4] []))]) /\
    APITester.changeType c = "deleted" /\
    In (APITester.method c) APICases.verbs.
Proof.
  destruct (X20_api_changes
              [("services/orders.js",
                ChangeAwareTestGenerator.Changes [("removeOrder", "deleted")]
                  (LineChanges [] [4] []))]) as (_ & Hdeleted & Hverbs).
  destruct (Hdeleted "services/orders.js" _ "removeOrder" (or_introl eq_refl)
              eq_refl (or_introl eq_refl)) as [(c & Hc & _ & _ & Htype) _].
  exists c. split_and!; [done | done |]. by apply Hverbs.
Defined.

Section GeneratedCases.

Import APITester APICases.

Lemma testData_name (timestamp : string) (c : change) :
  prop (generateTestData timestamp c) "name" = Some (LStr "Test Item").
Proof.
  unfold generateTestData.
  by destruct (JS.includes (function_ c) "user" || JS.includes (file c) "user"),
    (JS.includes (function_ c) "product" || JS.includes (file c) "product").
Qed.

(** The shapes of the list of cases. *)
Lemma generateTestCases_shape (stamp : nat -> string) (method_ : string) (c : change) :
  exists main : list testCase,
    generateTestCases stamp method_ c
    = main ++ (if hasAuthChanges c
               then [TestCase "Unauthorized access" None None (Some []) 401
                              ["errorFormat"]]
               else []) /\
    (length main <= 3)%nat /\
    (In method_ verbs -> (1 <= length main)%nat) /\
    NoDup ("Unauthorized access" :: map tc_name main) /\
    Forall (fun tc =>
              tc_headers tc = None /\ expectedStatus tc <> 401 /\
              Forall (fun v => In v validationLabels) (validations tc) /\
              (tc_data tc = None \/ tc_data tc = Some [] \/
               exists k, tc_data tc = Some (generateTestData (stamp k) c)))
           main.
Proof.
  unfold generateTestCases. eexists. split; [reflexivity|].
  unfold verbs, validationLabels.
  destruct (String.eqb_spec method_ "GET") as [->|?];
    [|destruct (String.eqb_spec method_ "POST") as [->|?];
      [|destruct (String.eqb_spec method_ "PUT") as [->|?];
        [|destruct (String.eqb_spec method_ "PATCH") as [->|?];
          [|destruct (String.eqb_spec method_ "DELETE") as [->|?]]]]];
    cbn [orb];
    try destruct (JS.includes (function_ c) "Id" || JS.includes (endpoint c) ":id");
    cbn [length map tc_name In];
    (split_and!;
     [ lia
     | first [ lia | intros; lia | intros [|[|[|[|[|[]]]]]]; congruence ]
     | compute_done
     | repeat (apply List.Forall_cons;
               [split_and!; cbn;
                [ done | done
                | repeat (apply List.Forall_cons; [cbn; tauto|]); apply List.Forall_nil
                | eauto ]
               |]); apply List.Forall_nil ]).
Qed.

End GeneratedCases.

(** X21.  The cases of [generateTestCases]: four at most, with names
    that differ, and one at least for each of the five methods; every
    validation they name is a label of the [switch] of [runValidation];
    no case carries a header of its own (the unauthorized case has the
    empty object); the case that expects 401 is there exactly when
    [hasAuthChanges] holds, and comes last; and the test data, where
    there is any, has the name ['Test Item'], for a product too, whose
    own name the spread of [baseData] overwrites. *)
Theorem X21_test_cases (stamp : nat -> string) (method_ : string)
    (c : APITester.change) :
  let cases := APICases.generateTestCases stamp method_ c in
  (length cases <= 4)%nat /\
  (In method_ APICases.verbs -> (1 <= length cases)%nat) /\
  NoDup (map APICases.tc_name cases) /\
  (forall tc v, In tc cases -> In v (APICases.validations tc) ->
                In v APICases.validationLabels) /\
  (forall tc, In tc cases ->
              APICases.tc_headers tc = None \/ APICases.tc_headers tc = Some []) /\
  (APICases.hasAuthChanges c = true <->
   exists tc, In tc cases /\ APICases.expectedStatus tc = 401) /\
  (APICases.hasAuthChanges c = true ->
   exists main,
     cases = main ++ [APICases.TestCase "Unauthorized access" None None (Some []) 401
                        ["errorFormat"]]) /\
  (forall tc d, In tc cases -> APICases.tc_data tc = Some d ->
                d = [] \/ APICases.prop d "name" = Some (APICases.LStr "Test Item")).
Proof.
  intros cases. subst cases.
  destruct (generateTestCases_shape stamp method_ c)
    as (main & -> & Hlen & Hverbs & Hnames & Hmain).
  rewrite Forall_forall in Hmain.
  assert (forall tc, In tc main ->
            APICases.tc_headers tc = None /\ APICases.expectedStatus tc <> 401 /\
            Forall (fun v => In v APICases.validationLabels) (APICases.validations tc) /\
            (APICases.tc_data tc = None \/ APICases.tc_data tc = Some [] \/
             exists k, APICases.tc_data tc
                       = Some (APICases.generateTestData (stamp k) c))) as Hin.
  { intros tc Htc. by apply Hmain, list_elem_of_In. }
  destruct (APICases.hasAuthChanges c); rewrite ?app_nil_r.
  - split_and!.
    + rewrite length_app. simpl. lia.
    + intros _. rewrite length_app. simpl. lia.
    + rewrite map_app. simpl. apply NoDup_app. apply NoDup_cons in Hnames as [Hnot Hnd].
      split_and!; [done | | apply NoDup_singleton].
      intros name Hname ->%list_elem_of_singleton. done.
    + intros tc v [Htc|[<-|[]]]%in_app_iff Hv.
      * destruct (Hin tc Htc) as (_ & _ & Hlabels & _).
        rewrite Forall_forall in Hlabels. by apply Hlabels, list_elem_of_In.
      * destruct Hv as [<-|[]]. unfold APICases.validationLabels. cbn [In]. tauto.
    + intros tc [Htc|[<-|[]]]%in_app_iff; [left; by apply Hin | by right].
    + split; [|done]. intros _. eexists. split; [apply in_app_iff; right; by left|done].
    + intros _. by exists main.
    + intros tc d [Htc|[<-|[]]]%in_app_iff; [|done].
      destruct (Hin tc Htc) as (_ & _ & _ & [->|[->|[k ->]]]); [done| |].
      * intros [= <-]. by left.
      * intros [= <-]. right. apply testData_name.
  - split_and!.
    + lia.
    + done.
    + by apply NoDup_cons in Hnames as [_ Hnd].
    + intros tc v Htc Hv. destruct (Hin tc Htc) as (_ & _ & Hlabels & _).
      rewrite Forall_forall in Hlabels. by apply Hlabels, list_elem_of_In.
    + intros tc Htc. left. by apply Hin.
    + split; [done|]. intros (tc & Htc & H401). by destruct (Hin tc Htc) as (_ & ? & _).
    + done.
    + intros tc d Htc. destruct (Hin tc Htc) as (_ & _ & _ & [->|[->|[k ->]]]); [done| |].
      * intros [= <-]. by left.
      * intros [= <-]. right. apply testData_name.
Qed.

(** [X21_test_cases] on the change of [getProductById] in
    [api/auth/products.js]. *)
Lemma X21_test_cases_witness :
  length (APICases.generateTestCases (fun _ => "2026-01-01T00:00:00.000Z") "GET"
            (APITester.Change "api/auth/products.js" "getProductById" "modified"
               (LineChanges [] [] [7]) "/products/:id" "GET")) = 4%nat.
Proof.
  pose proof (X21_test_cases (fun _ => "2026-01-01T00:00:00.000Z") "GET"
                (APITester.Change "api/auth/products.js" "getProductById" "modified"
                   (LineChanges [] [] [7]) "/products/:id" "GET"))
    as (Hmost & _).
  apply Nat.le_antisymm; [exact Hmost | by vm_compute].
Defined.

Section EndpointRun.

Import APITester APICases.

Lemma validateResponse_fold (r : response) (c : change) (names : list string)
    (success0 : bool) (details0 : list detail) :
  fold_left
    (fun '(success_, details) name =>
       let result := runValidation name r c in
       (if negb (truthy (passed result)) then false else success_,
        details ++ [result]))
    names (success0, details0)
  = (success0 && forallb (fun name => truthy (passed (runValidation name r c))) names,
     details0 ++ map (fun name => runValidation name r c) names).
Proof.
  revert success0 details0. induction names as [|name names IH]; intros success0 details0.
  { simpl. by rewrite andb_true_r, app_nil_r. }
  cbn [fold_left forallb map]. rewrite IH, <- app_assoc. f_equal.
  destruct (truthy (passed (runValidation name r c))), success0; done.
Qed.

Lemma validateResponse_spec (r : response) (expectedStatus_ : Z)
    (names : list string) (c : change) :
  (validateResponse r expectedStatus_ names c).1
  = (status r =? expectedStatus_)
    && forallb (fun name => truthy (passed (runValidation name r c))) names /\
  exists first,
    (validateResponse r expectedStatus_ names c).2
    = first :: map (fun name => runValidation name r c) names /\
    validation first = "status" /\
    truthy (passed first) = (status r =? expectedStatus_).
Proof.
  unfold validateResponse.
  destruct (status r =? expectedStatus_); cbn [negb]; rewrite validateResponse_fold;
    (split; [done|]); eexists; (split; [reflexivity|done]).
Qed.

Lemma makeRequest_case (stamp : nat -> string) (url method_ : string) (c : change)
    (tc : testCase) :
  In tc (generateTestCases stamp method_ c) ->
  makeRequest url method_ (tc_data tc) (tc_headers tc)
  = Request method_ url standardHeaders
            (if existsb (String.eqb method_) ["POST"; "PUT"; "PATCH"]
             then tc_data tc else None).
Proof.
  intros Htc. unfold makeRequest. f_equal.
  - destruct (generateTestCases_shape stamp method_ c) as (main & Hcases & _ & _ & _ & Hmain).
    rewrite Hcases in Htc. apply in_app_iff in Htc as [Htc|Htc].
    + rewrite Forall_forall in Hmain.
      by destruct (Hmain tc (proj2 (list_elem_of_In _ _) Htc)) as (-> & _).
    + destruct (hasAuthChanges c); [|done]. by destruct Htc as [<-|[]].
  - destruct (tc_data tc); [done|]. by destruct (existsb _ _).
Qed.

Variable stamp : nat -> string.
Variable server : nat -> request -> answer.

Lemma runCase_success (url method_ : string) (k : nat) (tc : testCase) (c : change) :
  cr_success (runCase server url method_ (k, tc) c) = true ->
  exists r,
    server k (makeRequest url method_ (tc_data tc) (tc_headers tc)) = Answers r /\
    status r = expectedStatus tc /\
    forallb (fun name => truthy (passed (runValidation name r c))) (validations tc)
    = true.
Proof.
  unfold runCase.
  destruct (server k _) as [r|message]; [|done].
  destruct (validateResponse_spec r (expectedStatus tc) (validations tc) c) as [Hsuccess _].
  destruct (validateResponse _ _ _ _) as [success_ details]. cbn [fst cr_success] in *.
  intros ->. symmetry in Hsuccess. apply andb_prop in Hsuccess as [Hstatus Hall].
  exists r. split_and!; [done | lia | done].
Qed.

Lemma execute_success (baseURL endpoint_ method_ : string) (c : change) :
  exists run,
    execute stamp server baseURL endpoint_ method_ c = Some run /\
    tr_endpoint _ run = endpoint_ /\ tr_method _ run = method_ /\
    length (tr_cases _ run) = length (generateTestCases stamp method_ c) /\
    (tr_success _ run = true ->
     forall k tc,
       generateTestCases stamp method_ c !! k = Some tc ->
       exists r,
         server k (makeRequest (baseURL +:+ endpoint_) method_ (tc_data tc) (tc_headers tc))
         = Answers r /\
         status r = expectedStatus tc /\
         forallb (fun name => truthy (passed (runValidation name r c))) (validations tc)
         = true).
Proof.
  unfold execute, executeEndpointTest. eexists. split; [reflexivity|].
  cbn [tr_endpoint tr_method tr_cases tr_success].
  split_and!; [done | done | by unfold numbered; rewrite length_map, length_imap |].
  rewrite forallb_forall. intros Hall k tc Hk.
  apply runCase_success, Hall, in_map_iff. exists (k, tc). split; [done|].
  apply list_elem_of_In. unfold numbered.
  by apply (elem_of_lookup_imap_2 pair).
Qed.

End EndpointRun.

(** X22.  Every case of one [executeEndpointTest] sends its request to
    the one URL of the endpoint under test, with the method of the change
    and the two standard headers: the [endpoint] of a case, in which
    [:id] is replaced, is never requested, and the unauthorized case
    sends the headers of the others.  A body goes with POST, PUT and
    PATCH only.  The run returns, and it succeeds only if the server
    answers each request with the status its case expects; so for DELETE,
    and for GET on a function or endpoint with an id, whose cases send
    the same request and expect different statuses, it fails on a server
    that answers equal requests alike. *)
Theorem X22_one_request (stamp : nat -> string)
    (server : nat -> APICases.request -> APICases.answer)
    (baseURL endpoint_ method_ : string) (c : APITester.change) :
  let url := baseURL +:+ endpoint_ in
  let cases := APICases.generateTestCases stamp method_ c in
  let sent tc :=
    APICases.Request method_ url APICases.standardHeaders
      (if existsb (String.eqb method_) ["POST"; "PUT"; "PATCH"]
       then APICases.tc_data tc else None) in
  (forall tc, In tc cases ->
     APICases.makeRequest url method_ (APICases.tc_data tc) (APICases.tc_headers tc)
     = sent tc) /\
  exists run,
    APICases.execute stamp server baseURL endpoint_ method_ c = Some run /\
    (APITester.tr_success _ run = true ->
     forall k tc, cases !! k = Some tc ->
       exists r, server k (sent tc) = APICases.Answers r /\
                 APICases.status r = APICases.expectedStatus tc) /\
    ((forall k k' rq, server k rq = server k' rq) ->
     method_ = "DELETE" \/
     (method_ = "GET" /\
      JS.includes (APITester.function_ c) "Id"
      || JS.includes (APITester.endpoint c) ":id" = true) ->
     APITester.tr_success _ run = false).
Proof.
  intros url cases sent.
  assert (forall tc, In tc cases ->
            APICases.makeRequest url method_ (APICases.tc_data tc)
              (APICases.tc_headers tc) = sent tc) as Hsent.
  { intros tc Htc. by apply makeRequest_case with (stamp := stamp) (c := c). }
  split; [done|].
  destruct (execute_success stamp server baseURL endpoint_ method_ c)
    as (run & Hrun & _ & _ & _ & Hsuccess).
  exists run. split; [done|].
  assert (APITester.tr_success _ run = true ->
          forall k tc, cases !! k = Some tc ->
            exists r, server k (sent tc) = APICases.Answers r /\
                      APICases.status r = APICases.expectedStatus tc) as Hstatus.
  { intros Htrue k tc Hk. destruct (Hsuccess Htrue k tc Hk) as (r & Hr & Hst & _).
    exists r. split; [|done]. rewrite <- Hsent; [done|].
    by eapply list_elem_of_In, list_elem_of_lookup_2. }
  split; [done|].
  intros Hsame Hkind.
  destruct (APITester.tr_success _ run) eqn:E; [exfalso|done].
  specialize (Hstatus eq_refl).
  assert (exists i j a b,
            cases !! i = Some a /\ cases !! j = Some b /\ sent a = sent b /\
            APICases.expectedStatus a <> APICases.expectedStatus b)
    as (i & j & a & b & Ha & Hb & Heq & Hne).
  { subst cases sent. unfold APICases.generateTestCases.
    destruct Hkind as [->|[-> Hid]].
    - exists 0%nat, 1%nat. by eexists _, _.
    - exists 0%nat, 2%nat. cbn [String.eqb Ascii.eqb Bool.eqb]. rewrite Hid.
      by eexists _, _. }
  destruct (Hstatus i a Ha) as (ra & Hra & Hsa).
  destruct (Hstatus j b Hb) as (rb & Hrb & Hsb).
  rewrite Heq, (Hsame i j) in Hra. congruence.
Qed.

(** [X22_one_request] on a server that answers every request with 204:
    the test of a DELETE endpoint fails. *)
Lemma X22_one_request_witness :
  exists run,
    APICases.execute (fun _ => "2026-01-01T00:00:00.000Z")
      (fun _ _ => APICases.Answers (APICases.Response 204 (APICases.Str "")))
      "http://localhost:3000" "/orders/:id" "DELETE"
      (APITester.Change "api/orders.js" "deleteOrder" "modified"
         (LineChanges [] [] [3]) "/orders/:id" "DELETE")
    = Some run /\
    APITester.tr_success _ run = false.
Proof.
  destruct (X22_one_request (fun _ => "2026-01-01T00:00:00.000Z")
              (fun _ _ => APICases.Answers (APICases.Response 204 (APICases.Str "")))
              "http://localhost:3000" "/orders/:id" "DELETE"
              (APITester.Change "api/orders.js" "deleteOrder" "modified"
                 (LineChanges [] [] [3]) "/orders/:id" "DELETE"))
    as (_ & run & Hrun & _ & Hfails).
  exists run. split; [exact Hrun|]. apply Hfails; [done | by left].
Defined.

Section Validations.

Import APITester APICases.

Lemma forallb_map_comp {A B : Type} (f : B -> bool) (g : A -> B) (l : list A) :
  forallb f (map g l) = forallb (fun x => f (g x)) l.
Proof. induction l as [|x l IH]; simpl; [done | by rewrite IH]. Qed.

Lemma and_then_truthy (a b : value) :
  truthy (and_then a b) = truthy a && truthy b.
Proof. unfold and_then. by destruct (truthy a) eqn:E; rewrite ?E. Qed.

Lemma nonnull_get (d : value) (key : string) :
  nonnull (get d key) = true -> exists fields, d = Obj fields.
Proof. destruct d; try done. by eexists. Qed.

Lemma runValidation_unknown (name : string) (r : response) (c : change) :
  ~ In name validationLabels -> runValidation name r c = Detail name None None (Bool true).
Proof.
  unfold validationLabels, runValidation. cbn [In]. intros Hnot.
  repeat match goal with
         | |- context [String.eqb name ?label] =>
             destruct (String.eqb_spec name label) as [->|_]; [exfalso; tauto|]
         end.
  done.
Qed.

End Validations.

(** X23.  [validateResponse] gives one detail for the status and one for
    each validation, and its [success] says that all details passed: so a
    case passes only on the status it expects.  A validation whose name
    is no label of [runValidation] passes on every response; [hasId],
    [errorFormat], [dataUpdated] and [hasValidationErrors] pass only on a
    body that is an object, and [correctFormat] only on an object or an
    array. *)
Theorem X23_validation (r : APICases.response) (expected : Z) (names : list string)
    (c : APITester.change) :
  let out := APICases.validateResponse r expected names c in
  let passes name :=
    APICases.truthy (APICases.passed (APICases.runValidation name r c)) = true in
  (out.1 = true <->
   APICases.status r = expected /\ forall name, In name names -> passes name) /\
  out.1 = forallb (fun d => APICases.truthy (APICases.passed d)) out.2 /\
  length out.2 = S (length names) /\
  (forall name, ~ In name APICases.validationLabels -> passes name) /\
  (forall name,
     In name ["hasId"; "errorFormat"; "dataUpdated"; "hasValidationErrors"] ->
     passes name -> exists fields, APICases.data r = APICases.Obj fields) /\
  (passes "correctFormat" ->
   (exists fields, APICases.data r = APICases.Obj fields) \/
   (exists items, APICases.data r = APICases.Arr items)).
Proof.
  intros out passes. subst out passes.
  destruct (validateResponse_spec r expected names c)
    as (Hsuccess & first & Hdetails & _ & Hfirst).
  split_and!.
  - rewrite Hsuccess, andb_true_iff, forallb_forall, Z.eqb_eq. done.
  - rewrite Hsuccess, Hdetails. cbn [forallb]. rewrite Hfirst. f_equal.
    by rewrite forallb_map_comp.
  - by rewrite Hdetails; cbn [length]; rewrite length_map.
  - intros name Hname. by rewrite runValidation_unknown.
  - cbn [In]. unfold APICases.runValidation.
    intros name [<-|[<-|[<-|[<-|[]]]]];
      repeat match goal with
             | |- context [String.eqb ?a ?b] =>
                 let v := eval cbv in (String.eqb a b) in
                 change (String.eqb a b) with v
             end;
      cbv iota; cbn [APICases.passed];
      rewrite and_then_truthy; cbn [APICases.truthy];
      intros [_ [H|H]%orb_true_iff]%andb_prop || intros [_ H]%andb_prop;
      by eapply nonnull_get.
  - unfold APICases.runValidation.
    repeat match goal with
           | |- context [String.eqb ?a ?b] =>
               let v := eval cbv in (String.eqb a b) in
               change (String.eqb a b) with v
           end.
    cbv iota. cbn [APICases.passed APICases.truthy].
    unfold APICases.validateDataFormat.
    destruct (APICases.data r) as [| |b|nonzero|s|items|fields]; cbn;
      try done; try (by destruct b); try (by destruct nonzero);
      try (by destruct (String.eqb s "")).
    + intros _. right. by eexists.
    + intros _. left. by eexists.
Qed.

(** [X23_validation] on a 404 with an error message for a case that
    expects it. *)
Lemma X23_validation_witness :
  (APICases.validateResponse
     (APICases.Response 404
        (APICases.Obj [("message", APICases.Str "Not found")]))
     404 ["errorFormat"] Scenarios.getUserById).1 = true.
Proof.
  apply (proj1 (X23_validation
                  (APICases.Response 404
                     (APICases.Obj [("message", APICases.Str "Not found")]))
                  404 ["errorFormat"] Scenarios.getUserById)).
  split; [reflexivity|]. intros name [<-|[]]. reflexivity.
Defined.

Section Summary.

Import APITester APICases.

Lemma testChangedEndpoint_healing {testResult : Type}
    (exec : string -> string -> change -> option testResult) (c : change) :
  used_healing (testChangedEndpoint exec c).1 = true ->
  er_success (testChangedEndpoint exec c).1 = true.
Proof.
  unfold testChangedEndpoint, used_healing. cbn [fst er_healingUsed er_success].
  by destruct (heal_spec testResult exec c (healingStrategies c)
                (HealingState [] false None []))
    as [(k & s & r & _ & _ & _ & ->)|(_ & ->)].
Qed.

Lemma filter_partition_length {A : Type} (p : A -> bool) (l : list A) :
  (length (List.filter p l) + length (List.filter (fun x => negb (p x)) l)
   = length l)%nat.
Proof.
  induction l as [|x l IH]; [done|]. cbn [List.filter].
  destruct (p x); cbn [negb length]; lia.
Qed.

Lemma filter_length_le {A : Type} (p q : A -> bool) (l : list A) :
  (forall x, In x l -> p x = true -> q x = true) ->
  (length (List.filter p l) <= length (List.filter q l))%nat.
Proof.
  induction l as [|x l IH]; [done|]. intros Himp. cbn [List.filter].
  assert (length (List.filter p l) <= length (List.filter q l))%nat as Hle.
  { apply IH. intros y Hy. apply Himp. by right. }
  destruct (p x) eqn:Hp.
  - rewrite (Himp x (or_introl eq_refl) Hp). cbn [length]. lia.
  - destruct (q x); cbn [length]; lia.
Qed.

Lemma filter_map_const {A B : Type} (p : B -> bool) (f : A -> B) (l : list A)
    (v : bool) :
  (forall x, p (f x) = v) ->
  length (List.filter p (map f l)) = if v then length l else 0%nat.
Proof.
  intros Hp. induction l as [|x l IH]; [by destruct v|].
  cbn [map List.filter]. rewrite Hp. destruct v; cbn [length]; by rewrite IH.
Qed.

End Summary.

(** X24.  The summary of [runAPITests].  Whatever runs the tests of an
    endpoint, [total] is the number of API changes, [passed] and [failed]
    add up to it, and [healingUsed] counts passed results only.  With the
    class's own [executeEndpointTest], which catches the errors of its
    cases and so always returns, every changed endpoint is counted as
    passed on its exact path, whatever its cases gave, also when the
    server cannot be reached: [failed] and [healingUsed] are 0. *)
Theorem X24_summary (files : list (string * ChangeAwareTestGenerator.changes)) :
  APICases.getAPIChanges files <> [] ->
  (forall (testResult : Type)
          (exec : string -> string -> APITester.change -> option testResult),
     exists results sm,
       APICases.runAPITests exec files = Some (results, sm) /\
       APICases.sm_total sm = length (APICases.getAPIChanges files) /\
       (APICases.sm_passed sm + APICases.sm_failed sm = APICases.sm_total sm)%nat /\
       (APICases.sm_healingUsed sm <= APICases.sm_passed sm)%nat) /\
  (forall (stamp : APITester.change -> nat -> string)
          (server : APITester.change -> nat -> APICases.request -> APICases.answer)
          (baseURL : string),
     exists results,
       APICases.runAPITests
         (fun url method_ c =>
            APICases.execute (stamp c) (server c) baseURL url method_ c) files
       = Some (results,
               APICases.Summary (length (APICases.getAPIChanges files))
                                (length (APICases.getAPIChanges files)) 0 0) /\
       Forall (fun r => APITester.er_healingUsed r = Some "" /\
                        length (APITester.er_tests r) = 1%nat) results).
Proof.
  intros Hsome. split.
  - intros testResult exec. unfold APICases.runAPITests.
    destruct (APICases.getAPIChanges files) as [|c0 apiChanges] eqn:E; [done|].
    eexists _, _. split; [reflexivity|].
    unfold APICases.saveResults.
    cbn [APICases.sm_total APICases.sm_passed APICases.sm_failed APICases.sm_healingUsed].
    split_and!.
    + by rewrite length_map.
    + apply filter_partition_length.
    + apply filter_length_le. intros r (c & <- & _)%in_map_iff.
      apply testChangedEndpoint_healing.
  - intros stamp server baseURL. unfold APICases.runAPITests.
    destruct (APICases.getAPIChanges files) as [|c0 apiChanges] eqn:E; [done|].
    eexists. split.
    + f_equal. f_equal. unfold APICases.saveResults.
      rewrite length_map.
      rewrite (filter_map_const APITester.er_success _ _ true) by done.
      rewrite (filter_map_const (fun r => negb (APITester.er_success r)) _ _ false)
        by done.
      by rewrite (filter_map_const APICases.used_healing _ _ false) by done.
    + apply List.Forall_map, Forall_forall. intros c _. by split.
Qed.

(** [X24_summary] on a server that cannot be reached: the one changed
    endpoint is counted as passed. *)
Lemma X24_summary_witness :
  exists results,
    APICases.runAPITests
      (fun url method_ c =>
         APICases.execute (fun _ => "2026-01-01T00:00:00.000Z")
           (fun _ _ => APICases.Fails "connect ECONNREFUSED")
           "http://localhost:3000" url method_ c)
      [("api/users.js",
        ChangeAwareTestGenerator.Changes [("getUserById", "modified")]
          (LineChanges [] [] [7]))]
    = Some (results, APICases.Summary 1 1 0 0).
Proof.
  destruct (proj2 (X24_summary
                     [("api/users.js",
                       ChangeAwareTestGenerator.Changes [("getUserById", "modified")]
                         (LineChanges [] [] [7]))]
                     ltac:(discriminate))
              (fun _ _ => "2026-01-01T00:00:00.000Z")
              (fun _ _ _ => APICases.Fails "connect ECONNREFUSED")
              "http://localhost:3000") as (results & Hrun & _).
  exists results. exact Hrun.
Defined.

(* ===================================================================== *)
(** * The analysis without Git history                                    *)
(* ===================================================================== *)

Section FallbackAnalysis.

Import ChangeAnalyzer Impact Fallback.

Lemma set_prop_keys {V : Type} (o : list (string * V)) (key : string) (value : V)
    (k : string) :
  In k (map fst (APICases.set_prop o key value)) <-> k = key \/ In k (map fst o).
Proof.
  induction o as [|[k' v'] o IH]; cbn [APICases.set_prop map In fst].
  - intuition.
  - destruct (String.eqb_spec k' key) as [->|Hne]; cbn [map In fst].
    + intuition.
    + rewrite IH. intuition.
Qed.

Lemma set_prop_Forall {V : Type} (Q : string * V -> Prop) (o : list (string * V))
    (key : string) (value : V) :
  (forall k, Q (k, value) -> Q (k, value)) ->
  Q (key, value) -> Forall Q o -> Forall Q (APICases.set_prop o key value).
Proof.
  intros _ Hnew. induction 1 as [|[k' v'] o Hx Ho IH]; cbn [APICases.set_prop].
  - by repeat constructor.
  - destruct (String.eqb_spec k' key) as [->|Hne]; by constructor.
Qed.

Lemma functionsOf_unknown (ast : list node) (functions : list (string * string)) :
  functionsOf ast = Some functions ->
  Forall (fun entry : string * string => entry.2 = "unknown") functions.
Proof.
  unfold functionsOf.
  assert (forall before,
            Forall (fun entry : string * string => entry.2 = "unknown") before ->
            notes ast before = Some functions ->
            Forall (fun entry : string * string => entry.2 = "unknown") functions)
    as Hnotes.
  { induction ast as [|n ast IH]; intros before Hall; cbn [notes].
    { by intros [= <-]. }
    unfold note, assign.
    destruct (node_name n) as [name| |]; cbn [mbind option_bind]; [| |done].
    - apply IH. destruct (String.eqb name "__proto__"); [done|].
      by apply (set_prop_Forall (fun entry : string * string => entry.2 = "unknown")).
    - by apply IH. }
  by apply Hnotes.
Qed.

(** The traversal of [fallbackAnalysis] throws exactly on a tree with a
    class method. *)
Lemma notes_throws (ast : list node) (functions : list (string * string)) :
  match notes ast functions with Some _ => true | None => false end
  = negb (existsb throws ast).
Proof.
  revert functions. induction ast as [|n ast IH]; intros functions; [done|].
  cbn [notes existsb]. unfold note, throws.
  destruct (node_name n); cbn [mbind option_bind orb negb]; [apply IH | apply IH | done].
Qed.

Lemma ui_targets_unknown (componentNameOf : string -> string) (file : string)
    (ch : ChangeAwareTestGenerator.changes) (entries : list (string * string)) :
  Forall (fun f : string * string => f.2 = "unknown") entries ->
  map ChangeAwareTestGenerator.target_type
      (flat_map (ChangeAwareTestGenerator.uiTestOf componentNameOf file ch) entries)
  = map (fun _ => "ui") entries.
Proof.
  induction 1 as [|[f type] l Htype _ IH]; [done|].
  cbn [snd] in Htype. subst type.
  cbn [flat_map ChangeAwareTestGenerator.uiTestOf]. rewrite map_app, IH. done.
Qed.

Variable parsed : string -> option (list node).

Lemma fold_analyse (files : list string) (acc : analysis) :
  let out := fold_left (analyse parsed) files acc in
  sm_added (an_summary out) = sm_added (an_summary acc) /\
  sm_deleted (an_summary out) = sm_deleted (an_summary acc) /\
  totalChanges (an_summary out) = totalChanges (an_summary acc) /\
  sm_modified (an_summary out)
  = (sm_modified (an_summary acc) + length (List.filter (readable parsed) files))%nat /\
  (forall k, In k (map fst (an_files out)) <->
             In k (map fst (an_files acc)) \/ (In k files /\ readable parsed k = true)) /\
  (Forall good (an_files acc) -> Forall good (an_files out)).
Proof.
  revert acc. induction files as [|file files IH]; intros acc.
  { simpl. split_and!; try done; try lia. intros k. tauto. }
  cbn [fold_left]. destruct (IH (analyse parsed acc file))
    as (Ha & Hd & Ht & Hm & Hkeys & Hgood).
  assert (readable parsed file
          = match functionsIn parsed file with Some _ => true | None => false end)
    as Hreadable.
  { unfold readable, functionsIn.
    destruct (parsed file) as [ast|]; cbn [mbind option_bind]; [|done].
    unfold functionsOf. by rewrite notes_throws. }
  unfold analyse in *. cbn [List.filter]. rewrite Hreadable.
  destruct (functionsIn parsed file) as [functions|] eqn:E;
    cbn [an_summary an_files sm_added sm_deleted totalChanges sm_modified length] in *.
  - split_and!; try done; [lia | |].
    + intros k. rewrite Hkeys, set_prop_keys. cbn [In].
      split; [|intros [?|[[<-|?] ?]]; by auto].
      intros [[->|?]|[? ?]]; [|by auto|by auto].
      right. rewrite Hreadable. by auto.
    + intros Hacc. apply Hgood. apply set_prop_Forall; [done| |done].
      split_and!; try done. cbn [snd fc_functions].
      unfold functionsIn in E. destruct (parsed file) as [ast|]; [|done].
      by apply (functionsOf_unknown ast).
  - split_and!; try done.
    intros k. rewrite Hkeys. cbn [In].
    split; [intros [?|[? ?]]; by auto|].
    intros [?|[[<-|?] Hk]]; [by auto| |by auto].
    by rewrite Hreadable in Hk.
Qed.

End FallbackAnalysis.

(** X25.  The analysis without Git history counts every file the glob
    finds in [totalChanges] and, in [modified], the files it could read
    and parse and that have no class method (on a class method the
    traversal throws, and the [catch] of the loop passes the file over),
    so that the two differ as soon as one file fails, and it never counts
    a file as added or deleted.  The record holds exactly the files
    counted in [modified], each without changed lines and hunks and with
    every function marked ['unknown']; so each function of such a file
    gets its UI target, and no file gets a visual target. *)
Theorem X25_fallback_analysis (parsed : string -> option (list node))
    (files : list string) :
  let out := Fallback.fallbackAnalysis parsed files in
  let sm := Fallback.an_summary out in
  Impact.totalChanges sm = length files /\
  Impact.sm_added sm = 0%nat /\ Impact.sm_deleted sm = 0%nat /\
  Impact.sm_modified sm = length (List.filter (Fallback.readable parsed) files) /\
  (forall file,
     (exists fc, In (file, fc) (Fallback.an_files out)) <->
     In file files /\ Fallback.readable parsed file = true) /\
  forall file fc,
    In (file, fc) (Fallback.an_files out) ->
    Impact.fc_file fc = file /\
    Impact.fc_lines fc = LineChanges [] [] [] /\
    Impact.fc_hunks fc = [] /\
    (forall f type, In (f, type) (Impact.fc_functions fc) -> type = "unknown") /\
    forall componentNameOf,
      map ChangeAwareTestGenerator.target_type
          (ChangeAwareTestGenerator.generateUITests componentNameOf file
             (Fallback.changesOfEntry fc))
      = map (fun _ => "ui") (Impact.fc_functions fc).
Proof.
  intros out sm. subst out sm. unfold Fallback.fallbackAnalysis.
  destruct (fold_analyse parsed files
              (Fallback.Analysis [] (Impact.Summary 0 0 0 (length files))))
    as (Ha & Hd & Ht & Hm & Hkeys & Hgood).
  cbn [Fallback.an_summary Fallback.an_files Impact.sm_added Impact.sm_deleted
       Impact.totalChanges Impact.sm_modified map In] in *.
  split_and!; try done.
  - intros file. split.
    + intros [fc Hfc].
      assert (In file (map fst (Fallback.an_files
                (fold_left (Fallback.analyse parsed) files
                   (Fallback.Analysis [] (Impact.Summary 0 0 0 (length files)))))))
        as [[]|Hfile]%Hkeys; [|done].
      apply in_map_iff. by exists (file, fc).
    + intros Hfile.
      assert (In file (map fst (Fallback.an_files
                (fold_left (Fallback.analyse parsed) files
                   (Fallback.Analysis [] (Impact.Summary 0 0 0 (length files)))))))
        as ([file' fc] & <- & Hfc)%in_map_iff by (apply Hkeys; by right).
      by exists fc.
  - intros file fc Hin. specialize (Hgood (Forall_nil_2 _)).
    rewrite Forall_forall in Hgood.
    destruct (Hgood (file, fc) (proj2 (list_elem_of_In _ _) Hin))
      as (Hfile & Hlines & Hhunks & Hunknown).
    cbn [fst snd] in *. split_and!; try done.
    + intros f type Hf. rewrite Forall_forall in Hunknown.
      by apply (Hunknown (f, type)), list_elem_of_In.
    + intros componentNameOf.
      unfold ChangeAwareTestGenerator.generateUITests, Fallback.changesOfEntry.
      cbn [ChangeAwareTestGenerator.functions ChangeAwareTestGenerator.lines].
      rewrite Hlines. cbn [modified added length]. rewrite app_nil_r.
      by apply ui_targets_unknown.
Qed.

(** [X25_fallback_analysis] on three files of which one cannot be
    parsed and one has a class method. *)
Lemma X25_fallback_analysis_witness :
  Fallback.an_summary (Fallback.fallbackAnalysis Scenarios.sources Scenarios.sourceFiles)
  = Impact.Summary 0 1 0 3.
Proof.
  destruct (X25_fallback_analysis Scenarios.sources Scenarios.sourceFiles)
    as (Ht & Ha & Hd & Hm & _).
  destruct (Fallback.an_summary _) as [a m d t]. simpl in *. by subst.
Defined.

Section CrossBoundaryChanges.

Import CrossBoundary.

Lemma in_pairOf (sourceFile targetFile : string) (cc : crossChange) :
  In cc (pairOf sourceFile targetFile) <->
  sourceFile <> targetFile /\
  JS.includes targetFile "components/" = true /\
  ((JS.includes sourceFile "api/" = true /\
    cc = CrossChange sourceFile targetFile "api-ui" "api->component") \/
   (JS.includes sourceFile "store/" = true /\
    cc = CrossChange sourceFile targetFile "state-ui" "state->component")).
Proof.
  unfold pairOf. destruct (String.eqb_spec sourceFile targetFile) as [->|Hne].
  { cbn [In]. tauto. }
  rewrite in_app_iff.
  destruct (JS.includes sourceFile "api/"), (JS.includes sourceFile "store/"),
    (JS.includes targetFile "components/"); cbn [andb In];
    intuition (try discriminate; auto).
Qed.

End CrossBoundaryChanges.

(** X26.  [detectCrossBoundaryChanges] pairs every file under [api/], and
    every file under [store/], with every other file under
    [components/]: a file is never paired with itself, the target is
    always a component, and a file under [services/] is no source.  So no
    integration test runs exactly when no file under [api/] or [store/]
    stands beside another file under [components/]. *)
Theorem X26_cross_boundary (files : list string) :
  (forall cc,
     In cc (CrossBoundary.detectCrossBoundaryChanges files) <->
     In (CrossBoundary.cc_source cc) files /\ In (CrossBoundary.cc_target cc) files /\
     CrossBoundary.cc_source cc <> CrossBoundary.cc_target cc /\
     JS.includes (CrossBoundary.cc_target cc) "components/" = true /\
     ((JS.includes (CrossBoundary.cc_source cc) "api/" = true /\
       CrossBoundary.cc_type cc = "api-ui" /\
       CrossBoundary.cc_path cc = "api->component") \/
      (JS.includes (CrossBoundary.cc_source cc) "store/" = true /\
       CrossBoundary.cc_type cc = "state-ui" /\
       CrossBoundary.cc_path cc = "state->component"))) /\
  (CrossBoundary.detectCrossBoundaryChanges files = [] <->
   forall sourceFile targetFile,
     In sourceFile files -> In targetFile files -> sourceFile <> targetFile ->
     JS.includes targetFile "components/" = true ->
     JS.includes sourceFile "api/" = false /\
     JS.includes sourceFile "store/" = false).
Proof.
  assert (forall cc,
            In cc (CrossBoundary.detectCrossBoundaryChanges files) <->
            exists sourceFile targetFile,
              In sourceFile files /\ In targetFile files /\
              In cc (CrossBoundary.pairOf sourceFile targetFile)) as Hin.
  { intros cc. unfold CrossBoundary.detectCrossBoundaryChanges.
    rewrite in_flat_map. split.
    - intros (s & Hs & (t & Ht & Hcc)%in_flat_map). by exists s, t.
    - intros (s & t & Hs & Ht & Hcc). exists s. split; [done|].
      apply in_flat_map. by exists t. }
  split.
  - intros cc. rewrite Hin. split.
    + intros (s & t & Hs & Ht & (Hne & Hcomp & Hkind)%in_pairOf).
      destruct Hkind as [[Hapi ->]|[Hstore ->]];
        cbn [CrossBoundary.cc_source CrossBoundary.cc_target CrossBoundary.cc_type
             CrossBoundary.cc_path]; split_and!; try done; [left|right]; done.
    + intros (Hs & Ht & Hne & Hcomp & Hkind).
      exists (CrossBoundary.cc_source cc), (CrossBoundary.cc_target cc).
      split_and!; try done. apply in_pairOf. split_and!; try done.
      destruct cc as [s t type path_]. cbn in *.
      destruct Hkind as [(Hapi & -> & ->)|(Hstore & -> & ->)]; [left|right]; done.
  - split.
    + intros Hnil s t Hs Ht Hne Hcomp.
      destruct (JS.includes s "api/") eqn:Hapi.
      { exfalso.
        assert (In (CrossBoundary.CrossChange s t "api-ui" "api->component")
                   (CrossBoundary.detectCrossBoundaryChanges files)) as Hcc.
        { apply Hin. exists s, t. split_and!; try done.
          apply in_pairOf. split_and!; try done. by left. }
        by rewrite Hnil in Hcc. }
      destruct (JS.includes s "store/") eqn:Hstore; [|done].
      exfalso.
      assert (In (CrossBoundary.CrossChange s t "state-ui" "state->component")
                 (CrossBoundary.detectCrossBoundaryChanges files)) as Hcc.
      { apply Hin. exists s, t. split_and!; try done.
        apply in_pairOf. split_and!; try done. by right. }
      by rewrite Hnil in Hcc.
    + intros Hnone.
      destruct (CrossBoundary.detectCrossBoundaryChanges files) as [|cc l] eqn:E;
        [done|].
      exfalso.
      assert (In cc (cc :: l)) as Hcc by (by left).
      apply Hin in Hcc as (s & t & Hs & Ht & (Hne & Hcomp & Hkind)%in_pairOf).
      destruct (Hnone s t Hs Ht Hne Hcomp) as [Hapi Hstore].
      destruct Hkind as [[? _]|[? _]]; congruence.
Qed.

(** [X26_cross_boundary] on a service and a component. *)
Lemma X26_cross_boundary_witness :
  CrossBoundary.detectCrossBoundaryChanges
    ["src/services/orders.js"; "src/components/Cart.jsx"] = [].
Proof.
  apply (proj2 (X26_cross_boundary
                  ["src/services/orders.js"; "src/components/Cart.jsx"])).
  intros s t [<-|[<-|[]]] [<-|[<-|[]]] Hne Hcomp; try done.
Defined.

(* ===================================================================== *)
(** * A file without changed lines                                        *)
(* ===================================================================== *)

Section UnchangedFile.

Import ChangeAwareTestGenerator Generation.

Lemma detectFunctionChanges_no_lines (ast : list node) (lc : lineChanges)
    (functions : gmap string string) :
  allLines lc = [] -> fold_left (record lc) ast functions = functions.
Proof.
  intros Hnone. induction ast as [|n ast IH]; [done|].
  cbn [fold_left]. unfold record at 2. rewrite Hnone.
  by destruct (node_name n).
Qed.

Lemma generateTests_no_function (componentNameOf : string -> string)
    (file : string) (ch : changes) :
  functions ch = [] ->
  generateTests componentNameOf [(file, ch)]
  = if ui_file file && significant ch
    then [UI (VisualTest ("Visual Test: " +:+ file) file (calculateUIImpactArea ch)
                         (1, 10))]
    else [].
Proof.
  intros Hnone. unfold generateTests, testsOf, generateUITests, generateAPITests.
  cbn [flat_map]. rewrite Hnone. cbn [flat_map app map]. rewrite !app_nil_r.
  fold (ui_file file) (significant ch).
  destruct (ui_file file), (significant ch),
    (JS.includes file "api/" || JS.includes file "services/"); done.
Qed.

End UnchangedFile.

(** X27.  A diff without a line that begins with [+] or [-] (a mode
    change, a binary file) leaves the three line lists empty; then the
    call of [detectFunctionChanges] returns the empty record for a tree
    without a class method, and no test is generated for the file.  The
    call throws exactly on a tree with a class method, whatever the
    changed lines, empty lists included.  The impact of a file without
    recorded function holds directory tags only.  In general a file
    without recorded function gets no test but the visual one, and that
    only under [components/] or [pages/] with more than ten modified or
    more than ten added lines. *)
Theorem X27_unchanged_file (componentNameOf : string -> string) (file : string) :
  (forall diff ast,
     DiffLines.count_lines DiffLines.is_added_line diff = 0%nat ->
     DiffLines.count_lines DiffLines.is_deleted_line diff = 0%nat ->
     exists lc hs,
       parseGitDiff diff = Some (lc, hs) /\
       lc = LineChanges [] [] [] /\
       detectFunctionChanges ast lc = (if existsb throws ast then None else Some ∅) /\
       forall functions,
         detectFunctionChanges ast lc = Some functions ->
         Generation.generateTests componentNameOf
           [(file, ChangeAwareTestGenerator.Changes (map_to_list functions) lc)] = []) /\
  (forall ast lc,
     detectFunctionChanges ast lc = None <-> existsb throws ast = true) /\
  (forall n, throws n = true <-> exists key first last, n = ClassMethod key first last) /\
  (forall t, In t (Impact.analyzeImpact file []) ->
             In t ["UI rendering"; "API endpoints"; "Application state"; "Navigation"]) /\
  (forall ch,
     ChangeAwareTestGenerator.functions ch = [] ->
     Generation.generateTests componentNameOf [(file, ch)]
     = if Generation.ui_file file && Generation.significant ch
       then [Generation.UI
               (ChangeAwareTestGenerator.VisualTest ("Visual Test: " +:+ file) file
                  (ChangeAwareTestGenerator.calculateUIImpactArea ch) (1, 10))]
       else []).
Proof.
  split_and!.
  - intros diff ast Ha Hd.
    destruct (parseGitDiff_counts diff) as (lc & hs & Hparse & Hna & Hnd & _).
    exists lc, hs.
    assert (lc = LineChanges [] [] []) as ->.
    { destruct lc as [a d m]. simpl in *. destruct a, d, m; simpl in *; by try lia. }
    assert (detectFunctionChanges ast (LineChanges [] [] [])
            = if existsb throws ast then None else Some ∅) as Hnone.
    { unfold detectFunctionChanges. rewrite traverse_throws.
      by rewrite detectFunctionChanges_no_lines. }
    split_and!; try done.
    intros functions. rewrite Hnone.
    destruct (existsb throws ast); [done|]. intros [= <-].
    rewrite map_to_list_empty, generateTests_no_function by done.
    by rewrite andb_false_r.
  - intros ast lc. unfold detectFunctionChanges. rewrite traverse_throws.
    by destruct (existsb throws ast).
  - intros n. split.
    + destruct n as [? ? ?|parent_type ? ? ?|key first last|];
        unfold throws, node_name; try done.
      * by destruct (String.eqb parent_type "VariableDeclarator").
      * intros _. by exists key, first, last.
    + by intros (key & first & last & ->).
  - intros t Ht. unfold Impact.analyzeImpact in Ht.
    apply (proj2 (list_elem_of_In _ _)) in Ht.
    apply (proj1 (proj2 (unique_spec _))), list_elem_of_In, in_impacts in Ht.
    cbn [existsb flat_map In] in *.
    destruct Ht as [[_ [->|[_ [=]]]]|[[_ [->|[]]]|[[_ ->]|[_ ->]]]]; tauto.
  - intros ch. apply generateTests_no_function.
Qed.

(** [X27_unchanged_file] on the diff of a mode change, for a file with
    one function and for the file with the class [Cart]. *)
Lemma X27_unchanged_file_witness :
  (exists lc hs,
     parseGitDiff "old mode 100644" = Some (lc, hs) /\
     detectFunctionChanges [FunctionDeclaration (Some "render") 1 3] lc = Some ∅) /\
  (exists lc hs,
     parseGitDiff "old mode 100644" = Some (lc, hs) /\
     detectFunctionChanges Scenarios.cartFile lc = None).
Proof.
  split.
  - destruct (proj1 (X27_unchanged_file (fun file => file) "src/components/Card.jsx")
                "old mode 100644" [FunctionDeclaration (Some "render") 1 3]
                eq_refl eq_refl) as (lc & hs & Hparse & _ & Hnone & _).
    by exists lc, hs.
  - destruct (proj1 (X27_unchanged_file (fun file => file) "src/components/Card.jsx")
                "old mode 100644" Scenarios.cartFile
                eq_refl eq_refl) as (lc & hs & Hparse & _ & Hnone & _).
    by exists lc, hs.
Defined.
